(** * zenodo_get: the download / verification control loop

    A shallow embedding of [src/zenodo_get.py]: the checksum verifier
    [check_hash] and the part of the main program that runs once the record
    metadata has been requested (lines 172-244 of the script).

    Effects are threaded through a small state-and-exception monad over a
    [world]: the local file system and a chronological log of the observable
    actions (notices on the diagnostic stream, lines on standard output, file
    writes, download invocations, sleeps, removals).  Python exceptions and
    [sys.exit] are the two abnormal results of a computation. *)

From Stdlib Require Import ZArith QArith String Ascii List Bool Lia.
From stdpp Require Import base option strings gmap list.
Import ListNotations.

Local Open Scope string_scope.
Local Open Scope list_scope.

(** ** Python values and results *)

(** The exceptions the modelled code can raise. *)
Inductive exn : Type :=
| KeyError (k : string)
| ValueError (msg : string)
| FileNotFoundError (path : string)
| OverflowError (msg : string).

(** Result of running a piece of Python: a value, a raised exception, or
    [SystemExit] raised by [sys.exit(code)]. *)
Inductive res (A : Type) : Type :=
| Ok (a : A)
| Raise (e : exn)
| SysExit (code : Z).
Arguments Ok {A} a.
Arguments Raise {A} e.
Arguments SysExit {A} code.

(** The notices the script sends to the diagnostic stream with [eprint].
    Notices that format a number carry the number itself; the float
    formatting [{:.1f}] of the sizes is not modelled. *)
Inductive notice : Type :=
| NBlank                                   (* eprint() *)
| NTotalSize (total : Z)                   (* 'Total size: {:.1f} MB' *)
| NLink (link : string) (size : Z)         (* 'Link: {}   size: {:.1f} MB' *)
| NAlready (fname : string)                (* '{} is already downloaded correctly.' *)
| NDownloadError                           (* '  Download error.' *)
| NAborted                                 (* '  Too many errors, download is aborted.' *)
| NSkipped                                 (* '  Too many errors, download continues with the next file.' *)
| NChecksumCorrect (h1 : string)           (* 'Checksum is correct. ({})' *)
| NChecksumIncorrect (h1 h2 : string)      (* 'Checksum is INCORRECT!({} got:{})' *)
| NFileDeleted                             (* '  File is deleted.' *)
| NFileNotDeleted                          (* '  File is NOT deleted!' *)
| NAllDone                                 (* 'All files have been downloaded.' *)
| NNotAccessible.                          (* 'Record could not get accessed.' *)

(** Observable actions, logged in the order they happen. *)
Inductive event : Type :=
| Eprint (n : notice)                      (* a line on sys.stderr *)
| Print (s : string)                       (* a line on sys.stdout *)
| OpenW (path : string)                    (* open(path, 'wt'): create or truncate *)
| WriteTo (path : string) (s : string)     (* file.write(s) on a file opened for writing *)
| Download (link : string)                 (* wget.download(link) is invoked *)
| Sleep (p : Q)                            (* time.sleep(p) returned *)
| Remove (path : string).                  (* os.remove(path) succeeded *)

(** The world: file contents by path, and the log. *)
Record world : Type := World {
  fs : gmap string string;
  log : list event
}.

Definition M (A : Type) : Type := world -> res A * world.

Definition raise {A} (e : exn) : M A := fun w => (Raise e, w).

(** [sys.exit(code)] *)
Definition sys_exit {A} (code : Z) : M A := fun w => (SysExit code, w).

(** Sequencing stops at the first exception or exit. *)
#[global] Instance M_ret : MRet M := fun A a w => (Ok a, w).

#[global] Instance M_bind : MBind M := fun A B k m w =>
  match m w with
  | (Ok a, w') => k a w'
  | (Raise e, w') => (Raise e, w')
  | (SysExit c, w') => (SysExit c, w')
  end.

Definition emit (e : event) : M unit :=
  fun w => (Ok tt, World (fs w) (log w ++ [e])).

Definition eprint (n : notice) : M unit := emit (Eprint n).
Definition print (s : string) : M unit := emit (Print s).

(** [for x in xs: body x], where [body] ends normally on [continue]. *)
Fixpoint for_each {A} (xs : list A) (body : A -> M unit) : M unit :=
  match xs with
  | [] => mret tt
  | x :: xs' => body x;; for_each xs' body
  end.

(** Exit status of the process for the result of the main program: an
    uncaught exception prints a traceback and the interpreter exits with 1. *)
Definition exit_status {A} (r : res A) : Z :=
  match r with
  | Ok _ => 0
  | Raise _ => 1
  | SysExit c => c
  end.

(** A run ends in a traceback when an exception reaches the top level. *)
Definition traceback {A} (r : res A) : bool :=
  match r with
  | Raise _ => true
  | _ => false
  end.

(** ** Strings *)

(** [s.split(sep)] for a one-character separator [sep]. *)
Fixpoint split (sep : ascii) (s : string) : list string :=
  match s with
  | EmptyString => [EmptyString]
  | String c s' =>
      if Ascii.eqb c sep then EmptyString :: split sep s'
      else match split sep s' with
           | [] => [String c EmptyString]
           | p :: ps => String c p :: ps
           end
  end.

(** [a, b = xs]: unpacking to exactly two targets. *)
Definition unpack2 (xs : list string) : M (string * string) :=
  match xs with
  | [a; b] => mret (a, b)
  | [] => raise (ValueError "not enough values to unpack (expected 2, got 0)")
  | [_] => raise (ValueError "not enough values to unpack (expected 2, got 1)")
  | _ => raise (ValueError "too many values to unpack (expected 2)")
  end.

(** [xs[-1]] on a non-empty list; [split] never returns an empty one. *)
Definition last_item (xs : list string) : string := List.last xs EmptyString.

Fixpoint has_char (c : ascii) (s : string) : bool :=
  match s with
  | EmptyString => false
  | String c' s' => Ascii.eqb c' c || has_char c s'
  end.

(** The first [n] characters of [s], and the rest. *)
Fixpoint str_take (n : nat) (s : string) : string :=
  match n, s with
  | S n', String c s' => String c (str_take n' s')
  | _, _ => EmptyString
  end.

Fixpoint str_drop (n : nat) (s : string) : string :=
  match n, s with
  | S n', String c s' => str_drop n' s'
  | _, _ => s
  end.

(** ** The file system primitives *)

(** The files of the working directory are kept by name.  The functions
    that read or remove a file take the path they are given as the key: the
    script hands them the names of the manifest and of the download
    collaborator. *)

(** [os.path.exists(path)] *)
Definition path_exists (path : string) : M bool :=
  fun w => (Ok (bool_decide (is_Some (fs w !! path))), w).

(** [open(path, 'rb')]: the handle is the content still to be read. *)
Definition open_rb (path : string) : M string :=
  fun w =>
    match fs w !! path with
    | Some content => (Ok content, w)
    | None => (Raise (FileNotFoundError path), w)
    end.

(** [f.read(n)] on such a handle: the chunk read and the handle after it. *)
Definition read (n : nat) (handle : string) : string * string :=
  (str_take n handle, str_drop n handle).

(** A plain file name: not empty, of at most 255 bytes, without a slash or
    a NUL character, and neither [.] nor [..].  Such a path names the file of
    that name in the working directory, and the file system is keyed by
    these names. *)
Definition plain_name (path : string) : bool :=
  negb (String.eqb path EmptyString)
  && Nat.leb (String.length path) 255
  && negb (has_char "/" path)
  && negb (has_char "000" path)
  && negb (String.eqb path ".")
  && negb (String.eqb path "..").

(** What the operating system makes of a path given to [open(path, 'wt')]:
    the key of the file it opens, or the exception it raises (no such
    directory, a directory, ...). *)
Inductive located : Type :=
| Found (key : string)
| Refused (e : exn).

(** [file.write(s)] on a file opened for writing; [path] is its key. *)
Definition write (path : string) (s : string) : M unit :=
  fun w =>
    (Ok tt, World (<[path := default EmptyString (fs w !! path) +:+ s]> (fs w))
                  (log w ++ [WriteTo path s])).

(** [os.remove(path)] *)
Definition os_remove (path : string) : M unit :=
  fun w =>
    match fs w !! path with
    | Some _ => (Ok tt, World (delete path (fs w)) (log w ++ [Remove path]))
    | None => (Raise (FileNotFoundError path), w)
    end.

(** ** hashlib *)

(** A hash object: [hashlib.new(name)] gives one in its initial state,
    [update] feeds it bytes, [hexdigest] reads the digest. *)
Record hasher : Type := Hasher {
  hstate : Type;
  hinit : hstate;
  hupdate : hstate -> string -> hstate;
  hhexdigest : hstate -> string
}.

(** The read loop of [check_hash]:
    [while True: data = f.read(4096); if not data: break; h.update(data)],
    for a buffer of [bufsize] bytes.  [fuel] bounds the number of reads;
    [String.length handle + 1] reads are always enough (see
    [read_loop_fuel]). *)
Fixpoint read_loop (H : hasher) (bufsize fuel : nat) (handle : string) (h : hstate H)
  : hstate H :=
  match fuel with
  | O => h
  | S fuel' =>
      let '(data, handle') := read bufsize handle in
      match data with
      | EmptyString => h
      | _ => read_loop H bufsize fuel' handle' (hupdate H h data)
      end
  end.

(** The digest [check_hash] computes for a file with the given content. *)
Definition stream_digest (H : hasher) (content : string) : string :=
  hhexdigest H (read_loop H 4096 (S (String.length content)) content (hinit H)).

(** ** The record metadata *)

(** The JSON body of the metadata response, as far as the script reads it.
    A JSON object is a record of optional fields: a field is [None] when the
    key is absent from the object.  Fields that are present have the types
    of the repository's schema. *)
Record links_json : Type := LinksJson {
  self : option string
}.

Record file_json : Type := FileJson {
  size : option Z;
  key : option string;
  checksum : option string;
  links : option links_json
}.

Record record_json : Type := RecordJson {
  files : option (list file_json)
}.

(** [n / 2**20] for an int [n]: the quotient is a float, and Python raises
    [OverflowError] when it is too large for one, which is when the quotient
    rounded to a float would reach [2**1024].  The float is only shown in
    notices, so the result is not kept. *)
Definition mb_overflows (n : Z) : bool :=
  (2 ^ 1044 - 2 ^ 990 <=? Z.abs n)%Z.

Definition div_mb (n : Z) : M unit :=
  if mb_overflows n then
    raise (OverflowError "integer division result too large for a float")
  else mret tt.

(** [obj[k]]: [KeyError] when the key is absent. *)
Definition getitem {A} (k : string) (field : option A) : M A :=
  match field with
  | Some v => mret v
  | None => raise (KeyError k)
  end.

(** A manifest entry with every field present, and its JSON object. *)
Record FileEntry : Type := Entry {
  e_name : string;
  e_size : Z;
  e_checksum : string;
  e_link : string
}.

Definition entry_json (e : FileEntry) : file_json :=
  FileJson (Some (e_size e)) (Some (e_name e)) (Some (e_checksum e))
           (Some (LinksJson (Some (e_link e)))).

Definition manifest_json (es : list FileEntry) : record_json :=
  RecordJson (Some (map entry_json es)).

(** ** Command-line options *)

(** The attributes of [options] the modelled code reads, with the types
    optparse gives them: [store_true]/[store_false] flags are booleans,
    [wget] is [None] or a string, [retry] an int, [pause] a float (here a
    rational). *)
Record options : Type := Options {
  md5 : bool;
  wget : option string;
  error : bool;
  keep : bool;
  cont : bool;
  retry : Z;
  pause : Q
}.

(** The values an attribute of [options] can hold, for the [is not None]
    tests. *)
Inductive pyval : Type :=
| PyNone
| PyBool (b : bool)
| PyStr (s : string).

Definition is_not_None (v : pyval) : bool :=
  match v with
  | PyNone => false
  | _ => true
  end.

Definition nl : string := String "010"%char EmptyString.

(** The name of the checksum manifest. *)
Definition md5sums : string := "md5sums.txt".

(** ** The program *)

Section Program.

(** [hashlib.new(name)]: [None] for a name hashlib does not know. *)
Variable hashlib_new : string -> option hasher.

(** The download collaborator [wget.download(link)], given the world it
    is called in (file system and history): the file system it leaves, and
    the local file name it returns, or [None] when it raises. *)
Variable wget_download : string -> world -> option string * gmap string string.

(** [time.sleep(p)]: [None] when the call returns after the pause, or the
    exception it raises for a length it does not accept. *)
Variable time_sleep : Q -> option exn.

(** The operating system's answer for a path that is not a plain file
    name (one with a directory part, [.], [..], a name that is too long). *)
Variable os_locate : string -> located.

(** The file a path names: a plain name is its own key, the empty path
    names nothing, any other path is for the operating system to resolve.
    The working directory is taken to be writable and to hold regular files
    only, so that a plain name can always be opened for writing. *)
Definition file_key (path : string) : located :=
  if plain_name path then Found path
  else if String.eqb path EmptyString then Refused (FileNotFoundError EmptyString)
  else os_locate path.

(** [open(path, 'wt')]: the file is created, or truncated when it exists;
    the result is the handle, here the key of the file. *)
Definition open_wt (path : string) : M string :=
  match file_key path with
  | Found k =>
      fun w => (Ok k, World (<[k := EmptyString]> (fs w)) (log w ++ [OpenW k]))
  | Refused e => raise e
  end.

(** Lines 44-56. *)
Definition check_hash (filename checksum : string) : M (string * string) :=
  '(algorithm, value) ← unpack2 (split ":" checksum);
  present ← path_exists filename;
  if negb present then mret (value, "invalid")
  else
    match hashlib_new algorithm with
    | None => raise (ValueError ("unsupported hash type " +:+ algorithm))
    | Some H =>
        f ← open_rb filename;
        let h := read_loop H 4096 (S (String.length f)) f (hinit H) in
        let digest := hhexdigest H h in
        mret (value, digest)
    end.

(** [wget.download(link)] inside [try: ... except Exception:]; [None] is
    the [except] branch. *)
Definition download (link : string) : M (option string) :=
  fun w =>
    let '(r, fs') := wget_download link w in
    (Ok r, World fs' (log w ++ [Download link])).

(** [time.sleep(p)] in the program. *)
Definition sleep (p : Q) : M unit :=
  match time_sleep p with
  | None => emit (Sleep p)
  | Some e => raise e
  end.

Variable opts : options.

(** Lines 212-219: [n] iterations of the retry loop are left.  [Some
    filename] is [break]; [None] means the loop ran out, which is when
    Python runs the [else] branch of the [for]. *)
Fixpoint retry_loop (n : nat) (link : string) : M (option string) :=
  match n with
  | O => mret None
  | S n' =>
      r ← download link;
      match r with
      | Some filename => mret (Some filename)
      | None =>
          eprint NDownloadError;;
          sleep (pause opts);;
          retry_loop n' link
      end
  end.

(** Lines 233-240: a file whose digest after the download is wrong. *)
Definition on_mismatch (filename h1 h2 : string) : M unit :=
  eprint (NChecksumIncorrect h1 h2);;
  (if negb (keep opts) then
     eprint NFileDeleted;;
     os_remove filename
   else
     eprint NFileNotDeleted);;
  if negb (error opts) then sys_exit 1 else mret tt.

(** Lines 206-240: pre-check, download with retry, post-check.  Returning
    early is [continue]. *)
Definition fetch_file (link fname checksum : string) : M unit :=
  '(remote_hash, local_hash) ← check_hash fname checksum;
  if String.eqb remote_hash local_hash && cont opts then
    eprint (NAlready fname)
  else
    r ← retry_loop (Z.to_nat (retry opts + 1)) link;
    match r with
    | None =>
        if negb (error opts) then
          eprint NAborted;;
          sys_exit 0
        else
          eprint NSkipped
    | Some filename =>
        eprint NBlank;;
        '(h1, h2) ← check_hash filename checksum;
        if String.eqb h1 h2 then
          eprint (NChecksumCorrect h1)
        else
          on_mismatch filename h1 h2
    end.

(** Lines 199-240: the body of the download loop for one file. *)
Definition process_file (f : file_json) : M unit :=
  l ← getitem "links" (links f);
  link ← getitem "self" (self l);
  sz ← getitem "size" (size f);
  div_mb sz;;
  eprint NBlank;;
  eprint (NLink link sz);;
  fname ← getitem "key" (key f);
  checksum ← getitem "checksum" (checksum f);
  fetch_file link fname checksum.

(** Line 177: [sum(f['size'] for f in files)], accumulating from 0. *)
Fixpoint sum_sizes (acc : Z) (fl : list file_json) : M Z :=
  match fl with
  | [] => mret acc
  | f :: fl' =>
      sz ← getitem "size" (size f);
      sum_sizes (acc + sz) fl'
  end.

(** Line 184: one line of the checksum manifest. *)
Definition md5_line (checksum fname : string) : string :=
  last_item (split ":" checksum) +:+ "  " +:+ fname +:+ nl.

(** Lines 180-184. *)
Definition write_md5sums (fl : list file_json) : M unit :=
  md5file ← open_wt md5sums;
  for_each fl (fun f =>
    fname ← getitem "key" (key f);
    cs ← getitem "checksum" (checksum f);
    write md5file (md5_line cs fname)).

(** Lines 187-195: the link list, on standard output or in a file. *)
Definition write_links (target : string) (fl : list file_json) : M unit :=
  if String.eqb target "-" then
    for_each fl (fun f =>
      l ← getitem "links" (links f);
      link ← getitem "self" (self l);
      print link)
  else
    wgetfile ← open_wt target;
    for_each fl (fun f =>
      l ← getitem "links" (links f);
      link ← getitem "self" (self l);
      write wgetfile (link +:+ nl)).

(** Lines 198-240: the loop over the manifest. *)
Definition file_loop (fl : list file_json) : M unit :=
  for_each fl process_file.

(** Lines 197-241: the download loop with its opening and closing notices. *)
Definition download_loop (total_size : Z) (fl : list file_json) : M unit :=
  div_mb total_size;;
  eprint (NTotalSize total_size);;
  file_loop fl;;
  eprint NAllDone.

(** Lines 174-244: the program from the metadata response on.  [r_ok] is
    [r.ok] and [js] the parsed body [json.loads(r.text)]. *)
Definition main (r_ok : bool) (js : record_json) : M unit :=
  if r_ok then
    fl ← getitem "files" (files js);
    total_size ← sum_sizes 0 fl;
    (if is_not_None (PyBool (md5 opts)) then write_md5sums fl else mret tt);;
    match wget opts with
    | Some target => write_links target fl
    | None => download_loop total_size fl
    end
  else
    eprint NNotAccessible;;
    sys_exit 1.

End Program.

(** ** Concrete collaborators, for running the program on examples *)

(** A hash object whose digest is the data it was fed. *)
Definition echo_hasher : hasher := Hasher string EmptyString String.append (fun h => h).

(** A hashlib that knows the single algorithm name [echo]. *)
Definition echo_hashlib (name : string) : option hasher :=
  if String.eqb name "echo" then Some echo_hasher else None.

(** A download collaborator that always raises. *)
Definition dl_fail (link : string) (w : world) : option string * gmap string string :=
  (None, fs w).

(** A download collaborator that stores [content] under the last path
    segment of [link] and returns that name. *)
Definition dl_save (content : string) (link : string) (w : world)
  : option string * gmap string string :=
  let name := last_item (split "/" link) in
  (Some name, <[name := content]> (fs w)).

(** A download collaborator that raises for the link [bad] and behaves as
    [dl_save content] for every other link. *)
Definition dl_except (bad content : string) (link : string) (w : world)
  : option string * gmap string string :=
  if String.eqb link bad then dl_fail link w else dl_save content link w.

(** The path resolution of a working directory without subdirectories and
    with nothing reachable outside it: leading [./] are dropped, and what is
    left has to be a plain name. *)
Fixpoint drop_dot_slash (path : string) : string :=
  match path with
  | String "." (String "/" rest) => drop_dot_slash rest
  | _ => path
  end.

Definition cwd_locate (path : string) : located :=
  if plain_name (drop_dot_slash path) then Found (drop_dot_slash path)
  else Refused (FileNotFoundError path).

(** [time.sleep] of the Python library on the lengths used in the examples:
    it raises [ValueError] for a negative length. *)
Definition py_sleep (p : Q) : option exn :=
  if Qle_bool 0 p then None
  else Some (ValueError "sleep length must be non-negative").

Definition default_options : options :=
  Options false None false false true 0 (1 # 2).

Definition empty_world : world := World ∅ [].

(** ** Predicates used in the statements *)

(** [only P m]: running [m] appends to the log, and every event it appends
    satisfies [P]. *)
Definition only {A} (P : event -> Prop) (m : M A) : Prop :=
  forall w, exists evs, log (snd (m w)) = log w ++ evs /\ Forall P evs.

(** [pure m]: running [m] leaves the world as it is. *)
Definition pure {A} (m : M A) : Prop :=
  forall w, snd (m w) = w.

Definition is_hex_char (c : ascii) : bool :=
  existsb (Ascii.eqb c) (list_ascii_of_string "0123456789abcdefABCDEF").

(** A hexadecimal digest, as [hexdigest()] prints it. *)
Fixpoint is_hexdigest (s : string) : bool :=
  match s with
  | EmptyString => true
  | String c s' => is_hex_char c && is_hexdigest s'
  end.

(** The links of the download invocations in a log, in order. *)
Definition downloads (evs : list event) : list string :=
  omap (fun e => match e with Download link => Some link | _ => None end) evs.

Definition is_download (e : event) : bool :=
  match e with
  | Download _ => true
  | _ => false
  end.

(** A notice on the diagnostic stream. *)
Definition is_notice (e : event) : bool :=
  match e with
  | Eprint _ => true
  | _ => false
  end.

(** The notice of a checksum mismatch after a download. *)
Definition is_mismatch (e : event) : bool :=
  match e with
  | Eprint (NChecksumIncorrect _ _) => true
  | _ => false
  end.

(** What the script still does after reporting a mismatch: the deletion or
    retention notice, and the removal of the file. *)
Definition is_cleanup (e : event) : bool :=
  match e with
  | Eprint NFileDeleted | Eprint NFileNotDeleted | Remove _ => true
  | _ => false
  end.

(** The computation stopped with an exception or an exit. *)
Definition aborted {A} (r : res A) : Prop :=
  match r with
  | Ok _ => False
  | _ => True
  end.

(** The events of the two list-writing modes: lines on standard output and
    file writes. *)
Definition is_output (e : event) : bool :=
  match e with
  | Print _ | OpenW _ | WriteTo _ _ => true
  | _ => false
  end.

(** The events of the retry loop. *)
Definition is_retry_event (e : event) : bool :=
  match e with
  | Download _ | Eprint NDownloadError | Sleep _ => true
  | _ => false
  end.

(** No mismatch notice among the events. *)
Definition clean (evs : list event) : Prop :=
  Forall (fun e => is_mismatch e = false) evs.

(** The events end with a mismatch notice followed by the cleanup only, and
    the computation stopped there with exit status 1. *)
Definition stopped_on_mismatch {A} (r : res A) (evs : list event) : Prop :=
  exit_status r = 1%Z /\ aborted r /\
  exists before x after,
    evs = before ++ x :: after /\ clean before /\ is_mismatch x = true /\
    Forall (fun e => is_cleanup e = true) after.

(** [mismatch_stops m]: [m] either reports no mismatch, or stops on the
    first one it reports. *)
Definition mismatch_stops {A} (m : M A) : Prop :=
  forall w, exists evs,
    log (snd (m w)) = log w ++ evs /\
    (clean evs \/ stopped_on_mismatch (fst (m w)) evs).

(** A file object without a usable download link: no [links] key, or a
    [links] object without [self]. *)
Definition lacks_link (f : file_json) : Prop :=
  links f = None \/ links f = Some (LinksJson None).

(** A file object without a name or without a checksum. *)
Definition lacks_name_or_checksum (f : file_json) : Prop :=
  key f = None \/ checksum f = None.

(** An entry whose file is already in the working directory with the
    expected digest. *)
Definition locally_valid (hashlib_new : string -> option hasher)
           (files_now : gmap string string) (e : FileEntry) : Prop :=
  exists algorithm expected content H,
    e_checksum e = algorithm +:+ ":" +:+ expected /\
    has_char ":" algorithm = false /\
    has_char ":" expected = false /\
    hashlib_new algorithm = Some H /\
    files_now !! e_name e = Some content /\
    stream_digest H content = expected.

(** A hash object for which feeding two chunks one after the other is
    feeding their concatenation, as for the algorithms of hashlib. *)
Definition streaming (H : hasher) : Prop :=
  forall (h : hstate H) (a b : string),
    hupdate H (hupdate H h a) b = hupdate H h (a +:+ b).

(** The concatenation of the lines of a text file. *)
Definition join (lines : list string) : string :=
  foldr String.append EmptyString lines.

(** Line 177 on a manifest with every size present. *)
Definition sizes_total (es : list FileEntry) : Z :=
  foldr (fun e t => (e_size e + t)%Z) 0%Z es.

(** The lines of the checksum manifest for a list of entries. *)
Definition md5_lines (es : list FileEntry) : list string :=
  map (fun e => md5_line (e_checksum e) (e_name e)) es.

(** One failed attempt of the retry loop, as it shows in the log. *)
Definition failed_attempt (link : string) (p : Q) : list event :=
  [Download link; Eprint NDownloadError; Sleep p].

(** Example manifest entries. *)
Definition file_a : FileEntry := Entry "a.txt" 10 "echo:abc" "https://example.org/a.txt".
Definition file_b : FileEntry := Entry "b.txt" 20 "echo:def" "https://example.org/b.txt".

(** A manifest entry whose checksum string has no colon. *)
Definition file_nocolon : FileEntry := Entry "c.txt" 30 "abc" "https://example.org/c.txt".

(** A file object without [size]. *)
Definition json_nosize : file_json :=
  FileJson None (Some "a.txt") (Some "echo:abc")
           (Some (LinksJson (Some "https://example.org/a.txt"))).

(** A file object without [key]. *)
Definition json_nokey : file_json :=
  FileJson (Some 20%Z) None (Some "echo:def")
           (Some (LinksJson (Some "https://example.org/b.txt"))).

(** A third entry, whose download by [dl_save "abc"] verifies. *)
Definition file_d : FileEntry := Entry "d.txt" 40 "echo:abc" "https://example.org/d.txt".


(** The run of [dl_save "abc"] on the manifest [file_a; file_b; file_d],
    started in an empty directory: the world once [a.txt] is done, and the
    world when the download of [b.txt] has returned. *)
Definition world_a_done : world :=
  World {[ md5sums := join (md5_lines [file_a; file_b; file_d]); "a.txt" := "abc" ]}
        [OpenW md5sums;
         WriteTo md5sums (md5_line (e_checksum file_a) (e_name file_a));
         WriteTo md5sums (md5_line (e_checksum file_b) (e_name file_b));
         WriteTo md5sums (md5_line (e_checksum file_d) (e_name file_d));
         Eprint (NTotalSize 70);
         Eprint NBlank; Eprint (NLink (e_link file_a) 10);
         Download (e_link file_a); Eprint NBlank; Eprint (NChecksumCorrect "abc")].

Definition world_b_fetched : world :=
  World {[ md5sums := join (md5_lines [file_a; file_b; file_d]);
           "a.txt" := "abc"; "b.txt" := "abc" ]}
        (log world_a_done
           ++ [Eprint NBlank; Eprint (NLink (e_link file_b) 20); Download (e_link file_b)]).

(** The world in which [dl_save "abc"] has fetched [b.txt] as the first
    file of a loop started in an empty directory. *)
Definition world_b_alone : world :=
  World {[ "b.txt" := "abc" ]}
        [Eprint NBlank; Eprint (NLink (e_link file_b) 20); Download (e_link file_b)].

(** [--md5] alone. *)
Definition md5_options : options := Options true None false false true 0 (1 # 2).

(** [--md5 --wget -]. *)
Definition md5_wget_options : options := Options true (Some "-") false false true 0 (1 # 2).

(** [--retry 2]. *)
Definition retry2_options : options := Options false None false false true 2 (1 # 2).

(** [--retry 2 --pause -0.5]. *)
Definition negative_pause_options : options := Options false None false false true 2 (-1 # 2).

(** A working directory that holds [a.txt] with content [abc]. *)
Definition world_with_a : world := World {[ "a.txt" := "abc" ]} [].

(** ** Further definitions for the statements *)

(** The number of occurrences of [c] in [s]. *)
Fixpoint count_char (c : ascii) (s : string) : nat :=
  match s with
  | EmptyString => 0
  | String c' s' => (if Ascii.eqb c' c then 1 else 0) + count_char c s'
  end.

(** The text after the last [sep] of [s]; all of [s] when it has none. *)
Fixpoint after_last (sep : ascii) (s : string) : string :=
  match s with
  | EmptyString => EmptyString
  | String c s' =>
      if has_char sep s' then after_last sep s'
      else if Ascii.eqb c sep then s' else s
  end.

(** The line of the checksum manifest that belongs to a file object: the
    digest (what follows the last colon of the checksum string), two
    spaces, the file name and a line feed. *)
Definition checksum_line (f : file_json) : string :=
  after_last ":" (default EmptyString (checksum f)) +:+ "  "
    +:+ default EmptyString (key f) +:+ String "010" EmptyString.

(** A file object with the three keys that are read before the download
    loop starts. *)
Definition has_md5_fields (f : file_json) : Prop :=
  is_Some (size f) /\ is_Some (key f) /\ is_Some (checksum f).

(** A file object whose name and checksum string hold no line feed. *)
Definition single_line (f : file_json) : Prop :=
  has_char "010" (default EmptyString (key f)) = false
  /\ has_char "010" (default EmptyString (checksum f)) = false.

(** [sep.join(parts)] for a one-character separator. *)
Fixpoint join_with (sep : ascii) (parts : list string) : string :=
  match parts with
  | [] => EmptyString
  | [p] => p
  | p :: rest => p +:+ String sep (join_with sep rest)
  end.

(** The lines of the link list for a list of entries. *)
Definition link_lines (es : list FileEntry) : list string :=
  map (fun e => e_link e +:+ nl) es.

Definition is_remove (e : event) : bool :=
  match e with
  | Remove _ => true
  | _ => false
  end.

(** [exits_in S m]: when [m] ends with [sys.exit(c)], the code [c] is in
    [S]. *)
Definition exits_in {A} (S : Z -> Prop) (m : M A) : Prop :=
  forall w c, fst (m w) = SysExit c -> S c.

(** [--wget links.txt]. *)
Definition wget_file_options : options :=
  Options false (Some "links.txt") false false true 0 (1 # 2).

(** [--wget ./md5sums.txt]: another path to the checksum manifest. *)
Definition wget_alias_options : options :=
  Options false (Some "./md5sums.txt") false false true 0 (1 # 2).

(** [--wget ''], the empty file name. *)
Definition wget_empty_options : options :=
  Options false (Some EmptyString) false false true 0 (1 # 2).

(** [--continue-on-error]. *)
Definition continue_options : options := Options false None true false true 0 (1 # 2).

(** [--continue-on-error --keep]. *)
Definition keep_options : options := Options false None true true true 0 (1 # 2).

(** [--do-not-continue]. *)
Definition restart_options : options := Options false None false false false 0 (1 # 2).

(** [--retry -1]. *)
Definition negative_retry_options : options :=
  Options false None false false true (-1) (1 # 2).

(** A download collaborator that raises as long as fewer than [k] downloads
    are in the log, and then behaves as [dl_save content]. *)
Definition dl_after (k : nat) (content : string) (link : string) (w : world)
  : option string * gmap string string :=
  if Nat.ltb (List.length (downloads (log w))) k then dl_fail link w
  else dl_save content link w.

(** ** From the command line to the record ID *)

(** The attributes of [options] read on lines 137-170. *)
Record id_options : Type := IdOptions {
  cite : bool;
  record : option string;
  doi : option string
}.

(** What the script reads of the response of [requests.get]: [r.ok] and
    [r.url], the address after the redirections. *)
Record response : Type := Response {
  resp_ok : bool;
  resp_url : string
}.

(** The texts printed by [--cite], lines 138-142. *)
Inductive cite_text : Type :=
| ReferenceHeader        (* 'Reference for this software:' *)
| Reference              (* __reference__ *)
| BlankLine
| BibtexHeader           (* 'Bibtex format:' *)
| Bibtex.                (* __bibtex__ *)

(** What lines 137-170 do that can be observed, in order. *)
Inductive front_event : Type :=
| PrintCite (t : cite_text)       (* print(...) on standard output *)
| PrintHelp                        (* parser.print_help() *)
| Get (url : string)               (* requests.get(url) *)
| EprintConnectionError            (* 'Connection error. Please, check the DOI/ID, ...' *)
| EprintNotResolved.               (* 'DOI could not be resolved. Try again, or use record ID.' *)

(** How lines 137-170 end: with [sys.exit], with a record ID for the
    metadata request, or with the [AttributeError] of [None.strip()]. *)
Inductive front_result : Type :=
| Exit (code : Z)
| RecordID (recordID : string)
| StripOfNone.

Definition cite_events : list front_event :=
  [PrintCite ReferenceHeader; PrintCite Reference; PrintCite BlankLine;
   PrintCite BibtexHeader; PrintCite Bibtex].

(** Line 157-158: the address asked for a DOI. *)
Definition doi_url (d : string) : string :=
  if String.prefix "http" d then d else "https://doi.org/" +:+ d.

Section Front.

(** [int(s)] returns, rather than raising [ValueError]. *)
Variable py_int : string -> bool.

(** [s.strip()] *)
Variable py_strip : string -> string.

(** [requests.get(url)]: the response, or [None] when the call raises. *)
Variable requests_get : string -> option response.

(** Lines 145-153: the positional argument decides between record ID and
    DOI; without one, at least one of [--record] and [--doi] is needed, or
    the help is printed ([None]). *)
Definition positional (o : id_options) (args : list string) : option id_options :=
  match args with
  | a :: _ =>
      if py_int a then Some (IdOptions (cite o) (Some a) (doi o))
      else Some (IdOptions (cite o) (record o) (Some a))
  | [] =>
      match doi o, record o with
      | None, None => None
      | _, _ => Some o
      end
  end.

(** Lines 156-167: the record ID behind a DOI. *)
Definition resolve_doi (d : string) : front_result * list front_event :=
  let url := doi_url d in
  match requests_get url with
  | None => (Exit 1, [Get url; EprintConnectionError])
  | Some r =>
      if negb (resp_ok r) then (Exit 1, [Get url; EprintNotResolved])
      else (RecordID (py_strip (last_item (split "/" (resp_url r)))), [Get url])
  end.

(** Lines 137-170. *)
Definition identify (o : id_options) (args : list string)
  : front_result * list front_event :=
  if cite o then (Exit 0, cite_events)
  else
    match positional o args with
    | None => (Exit 0, [PrintHelp])
    | Some o' =>
        match doi o' with
        | Some d => resolve_doi d
        | None =>
            match record o' with
            | Some recordID => (RecordID (py_strip recordID), [])
            | None => (StripOfNone, [])
            end
        end
    end.

End Front.

(** The addresses of the requests among the events. *)
Definition gets (evs : list front_event) : list string :=
  omap (fun e => match e with Get url => Some url | _ => None end) evs.

(** Collaborators for the examples: [int] accepts the non-empty strings of
    decimal digits, [strip] leaves its argument as it is, and the resolver
    knows one DOI. *)
Definition digits_only (s : string) : bool :=
  negb (String.eqb s EmptyString)
  && forallb (fun c => existsb (Ascii.eqb c) (list_ascii_of_string "0123456789"))
             (list_ascii_of_string s).

Definition no_strip (s : string) : string := s.

Definition one_doi (url : string) : option response :=
  if String.eqb url "https://doi.org/10.5281/zenodo.1261812"
  then Some (Response true "https://zenodo.org/record/1261813")
  else Some (Response false url).

(** ** Reasoning about computations *)

Lemma bind_unfold {A B} (m : M A) (k : A -> M B) (w : world) :
  (m ≫= k) w =
  match m w with
  | (Ok a, w') => k a w'
  | (Raise e, w') => (Raise e, w')
  | (SysExit c, w') => (SysExit c, w')
  end.
Proof. reflexivity. Qed.

Lemma bind_ok {A B} (m : M A) (k : A -> M B) (w w' : world) (a : A) :
  m w = (Ok a, w') -> (m ≫= k) w = k a w'.
Proof. intros E. rewrite bind_unfold, E. reflexivity. Qed.

Lemma bind_raise {A B} (m : M A) (k : A -> M B) (w w' : world) (e : exn) :
  m w = (Raise e, w') -> (m ≫= k) w = (Raise e, w').
Proof. intros E. rewrite bind_unfold, E. reflexivity. Qed.

Lemma bind_exit {A B} (m : M A) (k : A -> M B) (w w' : world) (c : Z) :
  m w = (SysExit c, w') -> (m ≫= k) w = (SysExit c, w').
Proof. intros E. rewrite bind_unfold, E. reflexivity. Qed.

Lemma pure_only {A} (P : event -> Prop) (m : M A) : pure m -> only P m.
Proof.
  intros Hm w. exists []. rewrite Hm, app_nil_r. split; [reflexivity | constructor].
Qed.

Lemma pure_ret {A} (a : A) : pure (mret a).
Proof. intros w. reflexivity. Qed.

Lemma pure_raise {A} (e : exn) : pure (@raise A e).
Proof. intros w. reflexivity. Qed.

Lemma pure_exit {A} (c : Z) : pure (@sys_exit A c).
Proof. intros w. reflexivity. Qed.

Lemma pure_bind {A B} (m : M A) (k : A -> M B) :
  pure m -> (forall a, pure (k a)) -> pure (m ≫= k).
Proof.
  intros Hm Hk w. rewrite bind_unfold.
  specialize (Hm w). destruct (m w) as [[a|e|c] w1]; simpl in Hm; subst w1.
  - apply Hk.
  - reflexivity.
  - reflexivity.
Qed.

Lemma pure_getitem {A} (k : string) (field : option A) : pure (getitem k field).
Proof. destruct field; intros w; reflexivity. Qed.

Lemma pure_unpack2 (xs : list string) : pure (unpack2 xs).
Proof.
  destruct xs as [|a [|b [|c xs]]]; intros w; reflexivity.
Qed.

Lemma pure_path_exists (path : string) : pure (path_exists path).
Proof. intros w. reflexivity. Qed.

Lemma pure_open_rb (path : string) : pure (open_rb path).
Proof. intros w. unfold open_rb. destruct (fs w !! path); reflexivity. Qed.

Lemma only_bind {A B} (P : event -> Prop) (m : M A) (k : A -> M B) :
  only P m -> (forall a, only P (k a)) -> only P (m ≫= k).
Proof.
  intros Hm Hk w. rewrite bind_unfold.
  destruct (Hm w) as (evs & Hlog & Hq).
  destruct (m w) as [[a|e|c] w1]; simpl in Hlog.
  - destruct (Hk a w1) as (evs' & Hlog' & Hq').
    exists (evs ++ evs'). rewrite Hlog', Hlog, app_assoc.
    split; [reflexivity | apply Forall_app; split; assumption].
  - exists evs. split; assumption.
  - exists evs. split; assumption.
Qed.

Lemma only_emit (P : event -> Prop) (e : event) : P e -> only P (emit e).
Proof.
  intros He w. exists [e]. split; [reflexivity | repeat constructor; exact He].
Qed.

Lemma only_for_each {A} (P : event -> Prop) (xs : list A) (body : A -> M unit) :
  (forall x, only P (body x)) -> only P (for_each xs body).
Proof.
  intros Hb. induction xs as [|x xs IH]; simpl.
  - apply pure_only, pure_ret.
  - apply only_bind; [apply Hb | intros _; exact IH].
Qed.

Lemma only_write (P : event -> Prop) (path s : string) :
  P (WriteTo path s) -> only P (write path s).
Proof.
  intros He w. exists [WriteTo path s]. split; [reflexivity | repeat constructor; exact He].
Qed.

Lemma only_os_remove (P : event -> Prop) (path : string) :
  P (Remove path) -> only P (os_remove path).
Proof.
  intros He w. unfold os_remove. destruct (fs w !! path).
  - exists [Remove path]. split; [reflexivity | repeat constructor; exact He].
  - exists []. simpl. rewrite app_nil_r. split; [reflexivity | constructor].
Qed.

Lemma only_weaken {A} (P P' : event -> Prop) (m : M A) :
  (forall e, P e -> P' e) -> only P m -> only P' m.
Proof.
  intros HP Hm w. destruct (Hm w) as (evs & Hlog & Hevs).
  exists evs. split; [exact Hlog | eapply Forall_impl; eassumption].
Qed.

Lemma only_getitem {A} (P : event -> Prop) (k : string) (field : option A) :
  only P (getitem k field).
Proof. apply pure_only, pure_getitem. Qed.

Lemma only_eprint (P : event -> Prop) (n : notice) : P (Eprint n) -> only P (eprint n).
Proof. apply only_emit. Qed.

(** ** Strings: [split] and hexadecimal digests *)

Lemma append_cons (c : ascii) (s t : string) : String c s +:+ t = String c (s +:+ t).
Proof. reflexivity. Qed.

Lemma append_nil_r (s : string) : s +:+ EmptyString = s.
Proof.
  induction s as [|c s IH]; [reflexivity |].
  rewrite append_cons, IH. reflexivity.
Qed.

Lemma append_assoc (s t u : string) : (s +:+ t) +:+ u = s +:+ (t +:+ u).
Proof.
  induction s as [|c s IH]; [reflexivity |].
  rewrite !append_cons, IH. reflexivity.
Qed.

Lemma split_nonempty (sep : ascii) (s : string) : split sep s <> [].
Proof.
  destruct s as [|c s]; simpl; [discriminate |].
  destruct (Ascii.eqb c sep); [discriminate |].
  destruct (split sep s); discriminate.
Qed.

Lemma split_no_sep (sep : ascii) (s : string) :
  has_char sep s = false -> split sep s = [s].
Proof.
  induction s as [|c s IH]; simpl; intros H; [reflexivity |].
  apply orb_false_iff in H as [Hc Hs].
  rewrite Hc, (IH Hs). reflexivity.
Qed.

Lemma split_app_sep (sep : ascii) (a b : string) :
  has_char sep a = false ->
  split sep (a +:+ String sep b) = a :: split sep b.
Proof.
  induction a as [|c a IH]; simpl; intros H.
  - rewrite Ascii.eqb_refl. reflexivity.
  - apply orb_false_iff in H as [Hc Ha].
    rewrite Hc, (IH Ha). reflexivity.
Qed.

Lemma split_two_pieces (sep : ascii) (s : string) :
  has_char sep s = true -> exists p q ps, split sep s = p :: q :: ps.
Proof.
  induction s as [|c s IH]; simpl; intros H; [discriminate |].
  destruct (Ascii.eqb c sep).
  - pose proof (split_nonempty sep s) as Hne.
    destruct (split sep s) as [|q ps]; [contradiction |]. eauto.
  - destruct (IH H) as (p & q & ps & E). rewrite E. eauto.
Qed.

Lemma last_item_split (sep : ascii) (s : string) :
  last_item (split sep s) = after_last sep s.
Proof.
  induction s as [|c s IH]; [reflexivity |].
  cbn [split after_last]. destruct (has_char sep s) eqn:Hs.
  - destruct (split_two_pieces sep s Hs) as (p & q & ps & E).
    rewrite <- IH, E. destruct (Ascii.eqb c sep); reflexivity.
  - rewrite (split_no_sep sep s Hs). destruct (Ascii.eqb c sep); reflexivity.
Qed.

Lemma has_char_after_last (c sep : ascii) (s : string) :
  has_char c s = false -> has_char c (after_last sep s) = false.
Proof.
  induction s as [|a s IH]; [reflexivity |].
  cbn [after_last]. intros H. pose proof H as H'.
  cbn [has_char] in H'. apply orb_false_iff in H' as [_ Hs].
  destruct (has_char sep s); [apply IH, Hs |].
  destruct (Ascii.eqb a sep); [exact Hs | exact H].
Qed.

Lemma has_char_app_sep (sep : ascii) (a d : string) :
  has_char sep (a +:+ String sep d) = true.
Proof.
  induction a as [|c a IH].
  - change (EmptyString +:+ String sep d) with (String sep d).
    cbn [has_char]. rewrite Ascii.eqb_refl. reflexivity.
  - rewrite append_cons. cbn [has_char]. rewrite IH. apply orb_true_r.
Qed.

Lemma after_last_app_sep (sep : ascii) (a d : string) :
  has_char sep d = false -> after_last sep (a +:+ String sep d) = d.
Proof.
  intros Hd. induction a as [|c a IH].
  - change (EmptyString +:+ String sep d) with (String sep d).
    cbn [after_last]. rewrite Hd, Ascii.eqb_refl. reflexivity.
  - rewrite append_cons. cbn [after_last]. rewrite has_char_app_sep. exact IH.
Qed.

Lemma count_char_app (c : ascii) (s t : string) :
  count_char c (s +:+ t) = count_char c s + count_char c t.
Proof.
  induction s as [|a s IH]; [reflexivity |].
  rewrite append_cons. cbn [count_char]. rewrite IH. lia.
Qed.

Lemma count_char_absent (c : ascii) (s : string) :
  has_char c s = false -> count_char c s = 0.
Proof.
  induction s as [|a s IH]; [reflexivity |].
  cbn [has_char count_char]. intros H. apply orb_false_iff in H as [Ha Hs].
  rewrite Ha, (IH Hs). reflexivity.
Qed.

Lemma hex_char_not_colon (c : ascii) :
  is_hex_char c = true -> Ascii.eqb c ":" = false.
Proof.
  intros H. destruct (Ascii.eqb_spec c ":") as [->|]; [discriminate H | reflexivity].
Qed.

Lemma hexdigest_no_colon (s : string) :
  is_hexdigest s = true -> has_char ":" s = false.
Proof.
  induction s as [|c s IH]; simpl; intros H; [reflexivity |].
  apply andb_true_iff in H as [Hc Hs].
  rewrite (hex_char_not_colon c Hc), (IH Hs). reflexivity.
Qed.

Lemma split_checksum (algorithm hexdigest : string) :
  has_char ":" algorithm = false ->
  has_char ":" hexdigest = false ->
  split ":" (algorithm +:+ ":" +:+ hexdigest) = [algorithm; hexdigest].
Proof.
  intros Ha Hh.
  change (":" +:+ hexdigest) with (String ":" hexdigest).
  rewrite (split_app_sep ":" algorithm hexdigest Ha), (split_no_sep ":" hexdigest Hh).
  reflexivity.
Qed.

(** ** The read loop terminates within its fuel *)

Lemma str_drop_length (n : nat) (s : string) :
  String.length (str_drop n s) = String.length s - n.
Proof.
  revert s. induction n as [|n IH]; intros [|c s]; simpl; try lia.
  apply IH.
Qed.

Lemma str_take_empty (n : nat) (s : string) :
  str_take (S n) s = EmptyString -> s = EmptyString.
Proof. destruct s; simpl; [reflexivity | discriminate]. Qed.

(** Any fuel above the length of what is left to read gives the same
    state: the loop stops by itself at the end of the file. *)
Lemma read_loop_fuel (H : hasher) (n fuel fuel' : nat) (s : string) (h : hstate H) :
  String.length s < fuel -> String.length s < fuel' ->
  read_loop H (S n) fuel s h = read_loop H (S n) fuel' s h.
Proof.
  revert fuel' s h. induction fuel as [|fuel IH]; intros fuel' s h Hf Hf'; [lia |].
  destruct fuel' as [|fuel']; [lia |].
  cbn [read_loop read].
  destruct (str_take (S n) s) as [|c t] eqn:Et; [reflexivity |].
  assert (Hs : s <> EmptyString) by (intros ->; discriminate Et).
  assert (Hl : String.length (str_drop (S n) s) < String.length s).
  { rewrite str_drop_length. destruct s; [congruence | simpl; lia]. }
  apply IH; lia.
Qed.

Lemma str_take_drop (n : nat) (s : string) : str_take n s +:+ str_drop n s = s.
Proof.
  revert s. induction n as [|n IH]; intros [|c s]; cbn [str_take str_drop]; try reflexivity.
  rewrite append_cons, IH. reflexivity.
Qed.

(** The buffer size is not observable: for a streaming hash the read loop
    feeds the whole remaining content. *)
Lemma read_loop_whole (H : hasher) (n fuel : nat) (s : string) (h : hstate H) :
  streaming H ->
  String.length s < fuel ->
  s <> EmptyString ->
  read_loop H (S n) fuel s h = hupdate H h s.
Proof.
  intros Hstream. revert s h.
  induction fuel as [|fuel IH]; intros s h Hf Hs; [lia |].
  cbn [read_loop read].
  pose proof (str_take_drop (S n) s) as Hsplit.
  destruct (str_take (S n) s) as [|c t] eqn:Et.
  { apply str_take_empty in Et. contradiction. }
  destruct (str_drop (S n) s) as [|c' t'] eqn:Ed.
  - rewrite append_nil_r in Hsplit. rewrite <- Hsplit.
    destruct fuel; reflexivity.
  - rewrite IH.
    + rewrite Hstream, Hsplit. reflexivity.
    + rewrite <- Ed, str_drop_length. destruct s; [congruence | simpl in *; lia].
    + discriminate.
Qed.

Lemma stream_digest_whole (H : hasher) (content : string) :
  streaming H ->
  content <> EmptyString ->
  stream_digest H content = hhexdigest H (hupdate H (hinit H) content).
Proof.
  intros Hstream Hne. unfold stream_digest.
  change 4096 with (S 4095).
  rewrite read_loop_whole; [reflexivity | exact Hstream | lia | exact Hne].
Qed.

(** ** Facts about the program *)

Section Facts.

Variable hashlib_new : string -> option hasher.
Variable wget_download : string -> world -> option string * gmap string string.
Variable time_sleep : Q -> option exn.
Variable os_locate : string -> located.
Variable opts : options.

Lemma pure_check_hash (filename checksum : string) :
  pure (check_hash hashlib_new filename checksum).
Proof.
  unfold check_hash.
  apply pure_bind; [apply pure_unpack2 | intros [algorithm value]].
  apply pure_bind; [apply pure_path_exists | intros present].
  destruct (negb present); [apply pure_ret |].
  destruct (hashlib_new algorithm) as [H|]; [| apply pure_raise].
  apply pure_bind; [apply pure_open_rb | intros f]. apply pure_ret.
Qed.

Lemma file_key_md5sums : file_key os_locate md5sums = Found md5sums.
Proof. reflexivity. Qed.

Lemma open_wt_md5sums (w : world) :
  open_wt os_locate md5sums w
  = (Ok md5sums, World (<[md5sums := EmptyString]> (fs w)) (log w ++ [OpenW md5sums])).
Proof. reflexivity. Qed.

Lemma open_wt_found (path k : string) (w : world) :
  file_key os_locate path = Found k ->
  open_wt os_locate path w
  = (Ok k, World (<[k := EmptyString]> (fs w)) (log w ++ [OpenW k])).
Proof. intros Hk. unfold open_wt. rewrite Hk. reflexivity. Qed.

Lemma open_wt_refused (path : string) (e : exn) (w : world) :
  file_key os_locate path = Refused e ->
  open_wt os_locate path w = (Raise e, w).
Proof. intros Hk. unfold open_wt. rewrite Hk. reflexivity. Qed.

Lemma only_open_wt (P : event -> Prop) (path : string) :
  (forall k, P (OpenW k)) -> only P (open_wt os_locate path).
Proof.
  intros He. unfold open_wt. destruct (file_key os_locate path) as [k|e].
  - intros w. exists [OpenW k]. split; [reflexivity | repeat constructor; apply He].
  - apply pure_only, pure_raise.
Qed.

Lemma pure_div_mb (n : Z) : pure (div_mb n).
Proof. unfold div_mb. destruct (mb_overflows n); [apply pure_raise | apply pure_ret]. Qed.

Lemma div_mb_ok (n : Z) (w : world) :
  mb_overflows n = false -> div_mb n w = (Ok tt, w).
Proof. intros Hn. unfold div_mb. rewrite Hn. reflexivity. Qed.

Lemma check_hash_absent (filename algorithm value : string) (w : world) :
  split ":" (algorithm +:+ ":" +:+ value) = [algorithm; value] ->
  fs w !! filename = None ->
  check_hash hashlib_new filename (algorithm +:+ ":" +:+ value) w
  = (Ok (value, "invalid"), w).
Proof.
  intros Hsplit Hfs. unfold check_hash. rewrite Hsplit.
  cbn [unpack2]. rewrite bind_unfold. cbn [mret M_ret].
  rewrite bind_unfold. unfold path_exists. rewrite Hfs.
  rewrite bool_decide_eq_false_2 by (intros [x Hx]; discriminate Hx).
  reflexivity.
Qed.

Lemma check_hash_present (filename algorithm value content : string)
      (H : hasher) (w : world) :
  split ":" (algorithm +:+ ":" +:+ value) = [algorithm; value] ->
  fs w !! filename = Some content ->
  hashlib_new algorithm = Some H ->
  check_hash hashlib_new filename (algorithm +:+ ":" +:+ value) w
  = (Ok (value, stream_digest H content), w).
Proof.
  intros Hsplit Hfs Hh. unfold check_hash. rewrite Hsplit.
  cbn [unpack2]. rewrite bind_unfold. cbn [mret M_ret].
  rewrite bind_unfold. unfold path_exists. rewrite Hfs.
  rewrite bool_decide_eq_true_2 by (eexists; reflexivity).
  cbn [negb]. rewrite Hh. rewrite bind_unfold. unfold open_rb. rewrite Hfs.
  reflexivity.
Qed.

Lemma unpack_fails_without_colon (filename checksum : string) (w : world) :
  has_char ":" checksum = false ->
  check_hash hashlib_new filename checksum w
  = (Raise (ValueError "not enough values to unpack (expected 2, got 1)"), w).
Proof.
  intros Hc. unfold check_hash. rewrite (split_no_sep ":" checksum Hc).
  reflexivity.
Qed.


(** The start of [process_file] on an entry with every field present and
    a size that the division accepts. *)
Lemma process_file_entry (e : FileEntry) (w : world) :
  mb_overflows (e_size e) = false ->
  process_file hashlib_new wget_download time_sleep opts (entry_json e) w
  = fetch_file hashlib_new wget_download time_sleep opts (e_link e) (e_name e) (e_checksum e)
      (World (fs w) (log w ++ [Eprint NBlank; Eprint (NLink (e_link e) (e_size e))])).
Proof.
  intros Hsz. unfold process_file. cbn [entry_json links self size key checksum].
  rewrite (bind_ok _ _ w w (LinksJson (Some (e_link e)))) by reflexivity.
  cbn [self].
  rewrite (bind_ok _ _ w w (e_link e)) by reflexivity.
  rewrite (bind_ok _ _ w w (e_size e)) by reflexivity.
  rewrite (bind_ok _ _ _ _ _ (div_mb_ok (e_size e) w Hsz)).
  transitivity
    (fetch_file hashlib_new wget_download time_sleep opts (e_link e) (e_name e) (e_checksum e)
       (World (fs w) ((log w ++ [Eprint NBlank]) ++ [Eprint (NLink (e_link e) (e_size e))]))).
  - reflexivity.
  - rewrite <- app_assoc. reflexivity.
Qed.

(** A size too large for the division stops the loop body before the
    pre-check, after nothing but the lookups. *)
Lemma process_file_overflow (e : FileEntry) (w : world) :
  mb_overflows (e_size e) = true ->
  process_file hashlib_new wget_download time_sleep opts (entry_json e) w
  = (Raise (OverflowError "integer division result too large for a float"), w).
Proof.
  intros Hsz. unfold process_file. cbn [entry_json links self size key checksum].
  rewrite (bind_ok _ _ w w (LinksJson (Some (e_link e)))) by reflexivity.
  cbn [self].
  rewrite (bind_ok _ _ w w (e_link e)) by reflexivity.
  rewrite (bind_ok _ _ w w (e_size e)) by reflexivity.
  apply bind_raise. unfold div_mb. rewrite Hsz. reflexivity.
Qed.

(** *** The checksum verifier *)

(** C10: [check_hash] never modifies the file system: after a call, every
    path holds what it held before (same existence, same content), whatever
    the file name and the checksum string, and whether the call returns or
    raises. *)
Theorem check_hash_leaves_files (filename checksum path : string) (w : world) :
  fs (snd (check_hash hashlib_new filename checksum w)) !! path = fs w !! path.
Proof. rewrite pure_check_hash. reflexivity. Qed.

(** C7: for a checksum string [algorithm:hexdigest] and a path that does
    not exist, [check_hash] returns the expected digest paired with the
    sentinel ["invalid"]; a hexadecimal digest is never that sentinel, so the
    caller's comparison fails. *)
Theorem check_hash_missing_file (filename algorithm hexdigest : string) (w : world) :
  has_char ":" algorithm = false ->
  is_hexdigest hexdigest = true ->
  fs w !! filename = None ->
  check_hash hashlib_new filename (algorithm +:+ ":" +:+ hexdigest) w
  = (Ok (hexdigest, "invalid"), w)
  /\ String.eqb hexdigest "invalid" = false.
Proof.
  intros Ha Hh Hfs. split.
  - apply check_hash_absent; [| exact Hfs].
    apply split_checksum; [exact Ha | apply hexdigest_no_colon, Hh].
  - destruct (String.eqb_spec hexdigest "invalid") as [->|]; [discriminate Hh | reflexivity].
Qed.

(** *** The pre-check *)

Lemma fetch_file_valid (link fname checksum d : string) (w : world) :
  cont opts = true ->
  check_hash hashlib_new fname checksum w = (Ok (d, d), w) ->
  fetch_file hashlib_new wget_download time_sleep opts link fname checksum w
  = (Ok tt, World (fs w) (log w ++ [Eprint (NAlready fname)])).
Proof.
  intros Hcont Hcheck. unfold fetch_file.
  rewrite (bind_ok _ _ _ _ _ Hcheck).
  rewrite String.eqb_refl, Hcont. reflexivity.
Qed.

Lemma process_file_valid (e : FileEntry) (algorithm expected content : string)
      (H : hasher) (w : world) :
  mb_overflows (e_size e) = false ->
  cont opts = true ->
  e_checksum e = algorithm +:+ ":" +:+ expected ->
  has_char ":" algorithm = false ->
  has_char ":" expected = false ->
  hashlib_new algorithm = Some H ->
  fs w !! e_name e = Some content ->
  stream_digest H content = expected ->
  process_file hashlib_new wget_download time_sleep opts (entry_json e) w
  = (Ok tt, World (fs w) (log w ++ [Eprint NBlank; Eprint (NLink (e_link e) (e_size e));
                                    Eprint (NAlready (e_name e))])).
Proof.
  intros Hsz Hcont Hsum Ha He Hh Hfs Hd.
  rewrite (process_file_entry e w Hsz).
  rewrite (fetch_file_valid _ _ _ expected); [| exact Hcont |].
  - cbn [fs log]. rewrite <- app_assoc. reflexivity.
  - rewrite Hsum, <- Hd. apply check_hash_present; [| exact Hfs | exact Hh].
    rewrite Hd. apply split_checksum; assumption.
Qed.


(** A second run over a directory in which every file of the manifest is
    already valid downloads nothing and changes no file. *)
Lemma rerun_downloads_nothing (es : list FileEntry) (w : world) :
  cont opts = true ->
  Forall (fun e => mb_overflows (e_size e) = false) es ->
  Forall (locally_valid hashlib_new (fs w)) es ->
  exists evs,
    file_loop hashlib_new wget_download time_sleep opts (map entry_json es) w
    = (Ok tt, World (fs w) (log w ++ evs))
    /\ downloads evs = [].
Proof.
  intros Hcont Hsizes. revert w. induction es as [|e es IH]; intros w Hall.
  - exists []. rewrite app_nil_r. destruct w. split; reflexivity.
  - apply Forall_cons in Hsizes as [Hsz Hsizes].
    specialize (IH Hsizes).
    apply Forall_cons in Hall
      as [(algorithm & expected & content & H & Hsum & Ha & He & Hh & Hfs & Hd) Htl].
    unfold file_loop in *. cbn [map for_each].
    rewrite (bind_ok _ _ _ _ _
               (process_file_valid e algorithm expected content H w Hsz Hcont Hsum Ha He Hh Hfs Hd)).
    destruct (IH (World (fs w) (log w ++ [Eprint NBlank; Eprint (NLink (e_link e) (e_size e));
                                          Eprint (NAlready (e_name e))])) Htl)
      as (evs & E & Hevs).
    exists ([Eprint NBlank; Eprint (NLink (e_link e) (e_size e));
             Eprint (NAlready (e_name e))] ++ evs).
    rewrite E. cbn [fs log]. rewrite <- app_assoc. split; [reflexivity |].
    cbn. exact Hevs.
Qed.

(** *** The retry loop *)

Lemma download_fails (link : string) (w : world) :
  fst (wget_download link w) = None ->
  download wget_download link w
  = (Ok None, World (snd (wget_download link w)) (log w ++ [Download link])).
Proof.
  unfold download. destruct (wget_download link w) as [r fs1]. simpl. intros ->. reflexivity.
Qed.

Lemma download_succeeds (link filename : string) (w : world) :
  fst (wget_download link w) = Some filename ->
  download wget_download link w
  = (Ok (Some filename), World (snd (wget_download link w)) (log w ++ [Download link])).
Proof.
  unfold download. destruct (wget_download link w) as [r fs1]. simpl. intros ->. reflexivity.
Qed.

Lemma retry_loop_succeeds (n : nat) (link filename : string) (w : world) :
  fst (wget_download link w) = Some filename ->
  retry_loop wget_download time_sleep opts (S n) link w
  = (Ok (Some filename), World (snd (wget_download link w)) (log w ++ [Download link])).
Proof.
  intros Hd. cbn [retry_loop].
  rewrite (bind_ok _ _ _ _ _ (download_succeeds link filename w Hd)). reflexivity.
Qed.

Lemma sleep_ok (p : Q) (w : world) :
  time_sleep p = None ->
  sleep time_sleep p w = (Ok tt, World (fs w) (log w ++ [Sleep p])).
Proof. intros Hp. unfold sleep. rewrite Hp. reflexivity. Qed.

Lemma sleep_raises (p : Q) (e : exn) (w : world) :
  time_sleep p = Some e -> sleep time_sleep p w = (Raise e, w).
Proof. intros Hp. unfold sleep. rewrite Hp. reflexivity. Qed.

Lemma only_sleep (P : event -> Prop) (p : Q) :
  P (Sleep p) -> only P (sleep time_sleep p).
Proof.
  intros He. unfold sleep. destruct (time_sleep p).
  - apply pure_only, pure_raise.
  - apply only_emit, He.
Qed.

Lemma retry_loop_all_fail (n : nat) (link : string) (w : world) :
  time_sleep (pause opts) = None ->
  (forall w', fst (wget_download link w') = None) ->
  exists fs',
    retry_loop wget_download time_sleep opts n link w
    = (Ok None,
       World fs' (log w ++ concat (replicate n (failed_attempt link (pause opts))))).
Proof.
  intros Hp Hfail. revert w. induction n as [|n IH]; intros w.
  - exists (fs w). cbn. rewrite app_nil_r. destruct w; reflexivity.
  - cbn [retry_loop].
    rewrite (bind_ok _ _ _ _ _ (download_fails link w (Hfail w))).
    rewrite bind_unfold. cbn [eprint emit fs log].
    rewrite bind_unfold, (sleep_ok _ _ Hp). cbn [fs log].
    destruct (IH (World (snd (wget_download link w))
                        (((log w ++ [Download link]) ++ [Eprint NDownloadError])
                           ++ [Sleep (pause opts)]))) as [fs' E].
    exists fs'. rewrite E. cbn [fs log replicate concat failed_attempt].
    rewrite <- !app_assoc. reflexivity.
Qed.

Lemma downloads_failed_attempts (n : nat) (link : string) (p : Q) :
  downloads (concat (replicate n (failed_attempt link p))) = replicate n link.
Proof.
  induction n as [|n IH]; [reflexivity |].
  cbn [replicate concat failed_attempt app]. unfold downloads in *. cbn [omap list_omap].
  rewrite IH. reflexivity.
Qed.

(** *** The stages of the main program *)

Lemma pure_sum_sizes (fl : list file_json) (acc : Z) : pure (sum_sizes acc fl).
Proof.
  revert acc. induction fl as [|f fl IH]; intros acc; cbn [sum_sizes].
  - apply pure_ret.
  - apply pure_bind; [apply pure_getitem | intros sz; apply IH].
Qed.

Lemma sum_sizes_entries (es : list FileEntry) (acc : Z) (w : world) :
  sum_sizes acc (map entry_json es) w = (Ok (acc + sizes_total es)%Z, w).
Proof.
  revert acc. induction es as [|e es IH]; intros acc; cbn [map sum_sizes sizes_total foldr].
  - rewrite Z.add_0_r. reflexivity.
  - rewrite bind_unfold. cbn [entry_json size getitem mret M_ret].
    rewrite IH. fold (sizes_total es). rewrite Z.add_assoc. reflexivity.
Qed.

Lemma md5_lines_loop (es : list FileEntry) (content : string) (w : world) :
  fs w !! md5sums = Some content ->
  for_each (map entry_json es)
    (fun f =>
       fname ← getitem "key" (key f);
       cs ← getitem "checksum" (checksum f);
       write md5sums (md5_line cs fname)) w
  = (Ok tt, World (<[md5sums := content +:+ join (md5_lines es)]> (fs w))
                  (log w ++ map (WriteTo md5sums) (md5_lines es))).
Proof.
  revert content w. induction es as [|e es IH]; intros content w Hfs.
  - cbn [map for_each md5_lines join foldr mret M_ret].
    rewrite append_nil_r, (insert_id _ _ _ Hfs), app_nil_r. destruct w; reflexivity.
  - cbn [map for_each]. rewrite bind_unfold.
    cbn [entry_json key checksum].
    do 2 (rewrite bind_unfold; cbn [getitem mret M_ret]).
    unfold write at 1. rewrite Hfs. cbn [default].
    rewrite (IH (content +:+ md5_line (e_checksum e) (e_name e))).
    + cbn [fs log md5_lines map join foldr].
      rewrite insert_insert_eq, append_assoc, <- app_assoc. reflexivity.
    + cbn [fs]. apply lookup_insert_eq.
Qed.

Lemma write_md5sums_entries (es : list FileEntry) (w : world) :
  write_md5sums os_locate (map entry_json es) w
  = (Ok tt, World (<[md5sums := join (md5_lines es)]> (fs w))
                  (log w ++ OpenW md5sums :: map (WriteTo md5sums) (md5_lines es))).
Proof.
  unfold write_md5sums. rewrite (bind_ok _ _ _ _ _ (open_wt_md5sums w)).
  rewrite (md5_lines_loop es EmptyString).
  - cbn [fs log]. rewrite insert_insert_eq, <- app_assoc. reflexivity.
  - cbn [fs]. apply lookup_insert_eq.
Qed.

(** The world after the checksum manifest has been written. *)
Lemma main_entries (es : list FileEntry) (w : world) :
  main hashlib_new wget_download time_sleep os_locate opts true (manifest_json es) w
  = (match wget opts with
     | Some target => write_links os_locate target (map entry_json es)
     | None =>
         download_loop hashlib_new wget_download time_sleep opts (sizes_total es) (map entry_json es)
     end)
      (World (<[md5sums := join (md5_lines es)]> (fs w))
             (log w ++ OpenW md5sums :: map (WriteTo md5sums) (md5_lines es))).
Proof.
  unfold main, manifest_json. cbn [files].
  rewrite bind_unfold. cbn [getitem mret M_ret].
  rewrite bind_unfold, sum_sizes_entries.
  cbn [is_not_None]. rewrite bind_unfold, write_md5sums_entries. reflexivity.
Qed.

(** *** A checksum string without a colon *)

(** C8 (as the code has it): for a checksum string with no colon,
    [check_hash] raises the [ValueError] of the failed unpacking and returns
    no pair; nothing in the loop body or in the main program catches it, so
    [process_file], once the size of the entry has passed the division of
    line 200, ends with that same exception after its two opening notices,
    and a run that downloads ends with it as an uncaught exception (a
    traceback), without a notice of its own about the failure. *)
Theorem check_hash_no_colon_raises (filename checksum : string) (w : world) :
  has_char ":" checksum = false ->
  check_hash hashlib_new filename checksum w
  = (Raise (ValueError "not enough values to unpack (expected 2, got 1)"), w)
  /\ (forall e : FileEntry,
        e_checksum e = checksum ->
        mb_overflows (e_size e) = false ->
        process_file hashlib_new wget_download time_sleep opts (entry_json e) w
        = (Raise (ValueError "not enough values to unpack (expected 2, got 1)"),
           World (fs w) (log w ++ [Eprint NBlank; Eprint (NLink (e_link e) (e_size e))])))
  /\ (forall (e : FileEntry) (es : list FileEntry),
        e_checksum e = checksum ->
        wget opts = None ->
        mb_overflows (sizes_total (e :: es)) = false ->
        mb_overflows (e_size e) = false ->
        fst (main hashlib_new wget_download time_sleep os_locate opts true
               (manifest_json (e :: es)) w)
        = Raise (ValueError "not enough values to unpack (expected 2, got 1)")
        /\ traceback
             (fst (main hashlib_new wget_download time_sleep os_locate opts true
                     (manifest_json (e :: es)) w)) = true).
Proof.
  intros Hc.
  assert (Hbody : forall (e : FileEntry) (w0 : world),
             e_checksum e = checksum ->
             mb_overflows (e_size e) = false ->
             process_file hashlib_new wget_download time_sleep opts (entry_json e) w0
             = (Raise (ValueError "not enough values to unpack (expected 2, got 1)"),
                World (fs w0)
                      (log w0 ++ [Eprint NBlank; Eprint (NLink (e_link e) (e_size e))]))).
  { intros e w0 He Hsz. rewrite (process_file_entry e w0 Hsz). unfold fetch_file.
    apply bind_raise. rewrite He. apply unpack_fails_without_colon, Hc. }
  split; [apply unpack_fails_without_colon, Hc | split].
  - intros e He Hsz. apply Hbody; assumption.
  - intros e es He Hw Htotal Hsz.
    assert (E : fst (main hashlib_new wget_download time_sleep os_locate opts true
                       (manifest_json (e :: es)) w)
                = Raise (ValueError "not enough values to unpack (expected 2, got 1)")).
    { rewrite main_entries, Hw. unfold download_loop, file_loop.
      rewrite (bind_ok _ _ _ _ _ (div_mb_ok _ _ Htotal)).
      rewrite bind_unfold. cbn [eprint emit map for_each].
      rewrite bind_unfold, bind_unfold, (Hbody e _ He Hsz). reflexivity. }
    rewrite E. split; reflexivity.
Qed.

(** *** What each part of the program can add to the log *)

Lemma only_check_hash (P : event -> Prop) (filename checksum : string) :
  only P (check_hash hashlib_new filename checksum).
Proof. apply pure_only, pure_check_hash. Qed.

Lemma only_download (P : event -> Prop) (link : string) :
  P (Download link) -> only P (download wget_download link).
Proof.
  intros He w. exists [Download link]. unfold download.
  destruct (wget_download link w) as [r fs1].
  split; [reflexivity | repeat constructor; exact He].
Qed.

Lemma only_retry_loop (n : nat) (link : string) :
  only (fun e => is_retry_event e = true) (retry_loop wget_download time_sleep opts n link).
Proof.
  induction n as [|n IH]; cbn [retry_loop].
  - apply pure_only, pure_ret.
  - apply only_bind; [apply only_download; reflexivity | intros [filename|]].
    + apply pure_only, pure_ret.
    + apply only_bind; [apply only_eprint; reflexivity | intros _].
      apply only_bind; [apply only_sleep; reflexivity | intros _; exact IH].
Qed.

Lemma only_write_md5sums (fl : list file_json) :
  only (fun e => is_output e = true) (write_md5sums os_locate fl).
Proof.
  unfold write_md5sums.
  apply only_bind; [apply only_open_wt; intros k; reflexivity | intros md5file].
  apply only_for_each. intros f.
  apply only_bind; [apply only_getitem | intros fname].
  apply only_bind; [apply only_getitem | intros cs].
  apply only_write. reflexivity.
Qed.

Lemma only_write_links (target : string) (fl : list file_json) :
  only (fun e => is_output e = true) (write_links os_locate target fl).
Proof.
  unfold write_links. destruct (String.eqb target "-").
  - apply only_for_each. intros f.
    apply only_bind; [apply only_getitem | intros l].
    apply only_bind; [apply only_getitem | intros link].
    apply only_emit. reflexivity.
  - apply only_bind; [apply only_open_wt; intros k; reflexivity | intros wgetfile].
    apply only_for_each. intros f.
    apply only_bind; [apply only_getitem | intros l].
    apply only_bind; [apply only_getitem | intros link].
    apply only_write. reflexivity.
Qed.

Lemma only_on_mismatch (filename h1 h2 : string) :
  only (fun _ => True) (on_mismatch opts filename h1 h2).
Proof.
  unfold on_mismatch.
  apply only_bind; [apply only_eprint; exact I | intros _].
  apply only_bind.
  - destruct (negb (keep opts)).
    + apply only_bind; [apply only_eprint; exact I | intros _].
      apply only_os_remove. exact I.
    + apply only_eprint. exact I.
  - intros _. destruct (negb (error opts)); apply pure_only; [apply pure_exit | apply pure_ret].
Qed.

Lemma only_fetch_file (link fname checksum : string) :
  only (fun _ => True) (fetch_file hashlib_new wget_download time_sleep opts link fname checksum).
Proof.
  unfold fetch_file.
  apply only_bind; [apply only_check_hash | intros [remote_hash local_hash]].
  destruct (String.eqb remote_hash local_hash && cont opts).
  { apply only_eprint. exact I. }
  apply only_bind.
  { eapply only_weaken; [| apply only_retry_loop]. intros; exact I. }
  intros [filename|].
  - apply only_bind; [apply only_eprint; exact I | intros _].
    apply only_bind; [apply only_check_hash | intros [h1 h2]].
    destruct (String.eqb h1 h2); [apply only_eprint; exact I | apply only_on_mismatch].
  - destruct (negb (error opts)).
    + apply only_bind; [apply only_eprint; exact I | intros _].
      apply pure_only, pure_exit.
    + apply only_eprint. exact I.
Qed.

Lemma only_process_file (f : file_json) :
  only (fun _ => True) (process_file hashlib_new wget_download time_sleep opts f).
Proof.
  unfold process_file.
  apply only_bind; [apply only_getitem | intros l].
  apply only_bind; [apply only_getitem | intros link].
  apply only_bind; [apply only_getitem | intros sz].
  apply only_bind; [apply pure_only, pure_div_mb | intros _].
  apply only_bind; [apply only_eprint; exact I | intros _].
  apply only_bind; [apply only_eprint; exact I | intros _].
  apply only_bind; [apply only_getitem | intros fname].
  apply only_bind; [apply only_getitem | intros checksum].
  apply only_fetch_file.
Qed.

Lemma only_download_loop (total : Z) (fl : list file_json) :
  only (fun _ => True) (download_loop hashlib_new wget_download time_sleep opts total fl).
Proof.
  unfold download_loop, file_loop.
  apply only_bind; [apply pure_only, pure_div_mb | intros _].
  apply only_bind; [apply only_eprint; exact I | intros _].
  apply only_bind; [apply only_for_each, only_process_file | intros _].
  apply only_eprint. exact I.
Qed.

(** *** The checksum manifest and the link list *)

Lemma only_main_link_list (target : string) (r_ok : bool) (js : record_json) :
  wget opts = Some target ->
  only (fun e => is_download e = false) (main hashlib_new wget_download time_sleep os_locate opts r_ok js).
Proof.
  intros Hw. unfold main. rewrite Hw. destruct r_ok.
  - apply only_bind; [apply only_getitem | intros fl].
    apply only_bind; [apply pure_only, pure_sum_sizes | intros total].
    apply only_bind.
    + cbn [is_not_None]. eapply only_weaken; [| apply only_write_md5sums].
      intros [] He; try discriminate He; reflexivity.
    + intros _. eapply only_weaken; [| apply only_write_links].
      intros [] He; try discriminate He; reflexivity.
  - apply only_bind; [apply only_eprint; reflexivity | intros _].
    apply pure_only, pure_exit.
Qed.

(** C1 (as the code has it): it is the link-list option [--wget], not
    [--md5], that bypasses the download loop.  Whenever [--wget] is given,
    with or without [--md5], no download is invoked in the run, for every
    response and every manifest; on a manifest the run writes [md5sums.txt]
    and then only the link list. *)
Theorem link_list_mode_never_downloads (target : string) :
  wget opts = Some target ->
  (forall (r_ok : bool) (js : record_json) (w : world),
      exists evs,
        log (snd (main hashlib_new wget_download time_sleep os_locate opts r_ok js w)) = log w ++ evs
        /\ Forall (fun e => is_download e = false) evs)
  /\ (forall (es : list FileEntry) (w : world),
        exists tl,
          log (snd (main hashlib_new wget_download time_sleep os_locate opts true (manifest_json es) w))
          = log w ++ (OpenW md5sums :: map (WriteTo md5sums) (md5_lines es)) ++ tl
          /\ Forall (fun e => is_output e = true) tl).
Proof.
  intros Hw. split.
  - intros r_ok js w. exact (only_main_link_list target r_ok js Hw w).
  - intros es w. rewrite main_entries, Hw.
    destruct (only_write_links target (map entry_json es)
                (World (<[md5sums := join (md5_lines es)]> (fs w))
                       (log w ++ OpenW md5sums :: map (WriteTo md5sums) (md5_lines es))))
      as (tl & Htl & Hout).
    exists tl. rewrite Htl. cbn [log]. rewrite <- app_assoc. split; [reflexivity | exact Hout].
Qed.

(** *** A checksum mismatch after the download *)

Lemma ms_only {A} (m : M A) :
  only (fun e => is_mismatch e = false) m -> mismatch_stops m.
Proof.
  intros Hm w. destruct (Hm w) as (evs & Hlog & Hevs).
  exists evs. split; [exact Hlog | left; exact Hevs].
Qed.

Lemma ms_bind {A B} (m : M A) (k : A -> M B) :
  mismatch_stops m -> (forall a, mismatch_stops (k a)) -> mismatch_stops (m ≫= k).
Proof.
  intros Hm Hk w. rewrite bind_unfold.
  destruct (Hm w) as (evs & Hlog & Hcase).
  destruct (m w) as [[a|e|c] w1]; cbn [fst snd] in *.
  - destruct Hcase as [Hclean | (_ & [] & _)].
    destruct (Hk a w1) as (evs' & Hlog' & Hcase').
    exists (evs ++ evs'). rewrite Hlog', Hlog, app_assoc. split; [reflexivity |].
    destruct Hcase' as [Hclean' | (Hst & Hab & b & x & af & Hevs & Hb & Hx & Haf)].
    + left. apply Forall_app. split; assumption.
    + right. split; [exact Hst | split; [exact Hab |]].
      exists (evs ++ b), x, af. rewrite Hevs, app_assoc.
      split; [reflexivity | split; [apply Forall_app; split; assumption | split; assumption]].
  - exists evs. split; [exact Hlog | exact Hcase].
  - exists evs. split; [exact Hlog | exact Hcase].
Qed.

Lemma ms_for_each {A} (xs : list A) (body : A -> M unit) :
  (forall x, mismatch_stops (body x)) -> mismatch_stops (for_each xs body).
Proof.
  intros Hb. induction xs as [|x xs IH]; cbn [for_each].
  - apply ms_only, pure_only, pure_ret.
  - apply ms_bind; [apply Hb | intros _; exact IH].
Qed.

Lemma on_mismatch_kept (filename h1 h2 : string) (w : world) :
  error opts = false -> keep opts = true ->
  on_mismatch opts filename h1 h2 w
  = (SysExit 1, World (fs w) (log w ++ [Eprint (NChecksumIncorrect h1 h2);
                                        Eprint NFileNotDeleted])).
Proof.
  intros Herr Hkeep. unfold on_mismatch. rewrite Herr, Hkeep.
  transitivity (@SysExit unit 1,
                World (fs w) ((log w ++ [Eprint (NChecksumIncorrect h1 h2)])
                                ++ [Eprint NFileNotDeleted])).
  - reflexivity.
  - rewrite <- app_assoc. reflexivity.
Qed.

Lemma on_mismatch_deleted (filename h1 h2 content : string) (w : world) :
  error opts = false -> keep opts = false ->
  fs w !! filename = Some content ->
  on_mismatch opts filename h1 h2 w
  = (SysExit 1, World (delete filename (fs w))
                      (log w ++ [Eprint (NChecksumIncorrect h1 h2); Eprint NFileDeleted;
                                 Remove filename])).
Proof.
  intros Herr Hkeep Hfs. unfold on_mismatch. rewrite Herr, Hkeep.
  transitivity (@SysExit unit 1,
                World (delete filename (fs w))
                      (((log w ++ [Eprint (NChecksumIncorrect h1 h2)])
                          ++ [Eprint NFileDeleted]) ++ [Remove filename])).
  - cbn [negb]. unfold eprint, emit, os_remove. rewrite !bind_unfold.
    cbn [fs log]. rewrite Hfs. reflexivity.
  - rewrite <- !app_assoc. reflexivity.
Qed.

Lemma on_mismatch_absent (filename h1 h2 : string) (w : world) :
  keep opts = false ->
  fs w !! filename = None ->
  on_mismatch opts filename h1 h2 w
  = (Raise (FileNotFoundError filename),
     World (fs w) (log w ++ [Eprint (NChecksumIncorrect h1 h2); Eprint NFileDeleted])).
Proof.
  intros Hkeep Hfs. unfold on_mismatch. rewrite Hkeep.
  transitivity (@Raise unit (FileNotFoundError filename),
                World (fs w) ((log w ++ [Eprint (NChecksumIncorrect h1 h2)])
                                ++ [Eprint NFileDeleted])).
  - cbn [negb]. unfold eprint, emit, os_remove. rewrite !bind_unfold.
    cbn [fs log]. rewrite Hfs. reflexivity.
  - rewrite <- !app_assoc. reflexivity.
Qed.

Lemma ms_on_mismatch (filename h1 h2 : string) :
  error opts = false -> mismatch_stops (on_mismatch opts filename h1 h2).
Proof.
  intros Herr w. destruct (keep opts) eqn:Hkeep.
  - rewrite (on_mismatch_kept _ _ _ _ Herr Hkeep).
    exists [Eprint (NChecksumIncorrect h1 h2); Eprint NFileNotDeleted].
    split; [reflexivity | right].
    split; [reflexivity | split; [exact I |]].
    exists [], (Eprint (NChecksumIncorrect h1 h2)), [Eprint NFileNotDeleted].
    repeat split; repeat constructor.
  - destruct (fs w !! filename) as [content|] eqn:Hfs.
    + rewrite (on_mismatch_deleted _ _ _ _ _ Herr Hkeep Hfs).
      exists [Eprint (NChecksumIncorrect h1 h2); Eprint NFileDeleted; Remove filename].
      split; [reflexivity | right].
      split; [reflexivity | split; [exact I |]].
      exists [], (Eprint (NChecksumIncorrect h1 h2)), [Eprint NFileDeleted; Remove filename].
      repeat split; repeat constructor.
    + rewrite (on_mismatch_absent _ _ _ _ Hkeep Hfs).
      exists [Eprint (NChecksumIncorrect h1 h2); Eprint NFileDeleted].
      split; [reflexivity | right].
      split; [reflexivity | split; [exact I |]].
      exists [], (Eprint (NChecksumIncorrect h1 h2)), [Eprint NFileDeleted].
      repeat split; repeat constructor.
Qed.

Lemma ms_eprint (n : notice) :
  is_mismatch (Eprint n) = false -> mismatch_stops (eprint n).
Proof. intros Hn. apply ms_only, only_eprint, Hn. Qed.

Lemma ms_getitem {A} (k : string) (field : option A) : mismatch_stops (getitem k field).
Proof. apply ms_only, only_getitem. Qed.

Lemma ms_fetch_file (link fname checksum : string) :
  error opts = false ->
  mismatch_stops (fetch_file hashlib_new wget_download time_sleep opts link fname checksum).
Proof.
  intros Herr. unfold fetch_file.
  apply ms_bind; [apply ms_only, only_check_hash | intros [remote_hash local_hash]].
  destruct (String.eqb remote_hash local_hash && cont opts).
  { apply ms_eprint. reflexivity. }
  apply ms_bind.
  { apply ms_only. eapply only_weaken; [| apply only_retry_loop].
    intros [[]| | | | | |] He; try discriminate He; reflexivity. }
  intros [filename|].
  - apply ms_bind; [apply ms_eprint; reflexivity | intros _].
    apply ms_bind; [apply ms_only, only_check_hash | intros [h1 h2]].
    destruct (String.eqb h1 h2); [apply ms_eprint; reflexivity | apply ms_on_mismatch, Herr].
  - rewrite Herr. cbn [negb].
    apply ms_bind; [apply ms_eprint; reflexivity | intros _].
    apply ms_only, pure_only, pure_exit.
Qed.

Lemma ms_process_file (f : file_json) :
  error opts = false ->
  mismatch_stops (process_file hashlib_new wget_download time_sleep opts f).
Proof.
  intros Herr. unfold process_file.
  apply ms_bind; [apply ms_getitem | intros l].
  apply ms_bind; [apply ms_getitem | intros link].
  apply ms_bind; [apply ms_getitem | intros sz].
  apply ms_bind; [apply ms_only, pure_only, pure_div_mb | intros _].
  apply ms_bind; [apply ms_eprint; reflexivity | intros _].
  apply ms_bind; [apply ms_eprint; reflexivity | intros _].
  apply ms_bind; [apply ms_getitem | intros fname].
  apply ms_bind; [apply ms_getitem | intros checksum].
  apply ms_fetch_file, Herr.
Qed.

Lemma ms_main (r_ok : bool) (js : record_json) :
  error opts = false ->
  mismatch_stops (main hashlib_new wget_download time_sleep os_locate opts r_ok js).
Proof.
  intros Herr. unfold main. destruct r_ok.
  - apply ms_bind; [apply ms_getitem | intros fl].
    apply ms_bind; [apply ms_only, pure_only, pure_sum_sizes | intros total].
    apply ms_bind.
    { cbn [is_not_None]. apply ms_only.
      eapply only_weaken; [| apply only_write_md5sums].
      intros [] He; try discriminate He; reflexivity. }
    intros _. destruct (wget opts) as [target|].
    + apply ms_only. eapply only_weaken; [| apply only_write_links].
      intros [] He; try discriminate He; reflexivity.
    + unfold download_loop, file_loop.
      apply ms_bind; [apply ms_only, pure_only, pure_div_mb | intros _].
      apply ms_bind; [apply ms_eprint; reflexivity | intros _].
      apply ms_bind; [apply ms_for_each; intros f; apply ms_process_file, Herr | intros _].
      apply ms_eprint. reflexivity.
  - apply ms_bind; [apply ms_eprint; reflexivity | intros _].
    apply ms_only, pure_only, pure_exit.
Qed.

Lemma check_hash_fst (filename checksum : string) (w : world)
      (r : res (string * string)) :
  fst (check_hash hashlib_new filename checksum w) = r ->
  check_hash hashlib_new filename checksum w = (r, w).
Proof.
  intros Hr. pose proof (pure_check_hash filename checksum w) as Hw.
  destruct (check_hash hashlib_new filename checksum w) as [r' w']. cbn [fst snd] in *.
  subst. reflexivity.
Qed.

Lemma for_each_app_ok {A} (xs ys : list A) (body : A -> M unit) (w w1 : world) :
  for_each xs body w = (Ok tt, w1) ->
  for_each (xs ++ ys) body w = for_each ys body w1.
Proof.
  revert w. induction xs as [|x xs IH]; intros w; cbn [for_each app].
  - intros [= ->]. reflexivity.
  - rewrite !bind_unfold. destruct (body x w) as [[u|e|c] wx]; try discriminate.
    apply IH.
Qed.

Lemma bind_aborted (m : M unit) (k : unit -> M unit) (w w' : world) (r : res unit) :
  m w = (r, w') -> aborted r -> (m ≫= k) w = (r, w').
Proof.
  intros E Hr. rewrite bind_unfold, E. destruct r; [contradiction | reflexivity | reflexivity].
Qed.

(** With continue-on-error unset, [on_mismatch] never returns. *)
Lemma on_mismatch_stops (filename h1 h2 : string) (w : world) :
  error opts = false ->
  exists r w' cleanup,
    on_mismatch opts filename h1 h2 w = (r, w')
    /\ exit_status r = 1%Z /\ aborted r
    /\ log w' = log w ++ Eprint (NChecksumIncorrect h1 h2) :: cleanup
    /\ Forall (fun e => is_cleanup e = true) cleanup
    /\ fs w' = if keep opts then fs w else delete filename (fs w).
Proof.
  intros Herr. destruct (keep opts) eqn:Hkeep.
  - exists (SysExit 1), (World (fs w) (log w ++ [Eprint (NChecksumIncorrect h1 h2);
                                                  Eprint NFileNotDeleted])),
      [Eprint NFileNotDeleted].
    split; [apply on_mismatch_kept; assumption |].
    repeat split; repeat constructor.
  - destruct (fs w !! filename) as [content|] eqn:Hfs.
    + exists (SysExit 1),
        (World (delete filename (fs w))
               (log w ++ [Eprint (NChecksumIncorrect h1 h2); Eprint NFileDeleted;
                          Remove filename])),
        [Eprint NFileDeleted; Remove filename].
      split; [eapply on_mismatch_deleted; eassumption |].
      repeat split; repeat constructor.
    + exists (Raise (FileNotFoundError filename)),
        (World (fs w) (log w ++ [Eprint (NChecksumIncorrect h1 h2); Eprint NFileDeleted])),
        [Eprint NFileDeleted].
      split; [apply on_mismatch_absent; assumption |].
      repeat split; try (repeat constructor).
      cbn [fs]. symmetry. apply delete_id, Hfs.
Qed.

(** The loop body on a file whose download succeeds with a wrong digest. *)
Lemma fetch_file_mismatch (link fname checksum filename rh lh h1 h2 : string)
      (w w2 : world) :
  fst (check_hash hashlib_new fname checksum w) = Ok (rh, lh) ->
  String.eqb rh lh && cont opts = false ->
  retry_loop wget_download time_sleep opts (Z.to_nat (retry opts + 1)) link w
  = (Ok (Some filename), w2) ->
  fst (check_hash hashlib_new filename checksum (World (fs w2) (log w2 ++ [Eprint NBlank])))
  = Ok (h1, h2) ->
  h1 <> h2 ->
  fetch_file hashlib_new wget_download time_sleep opts link fname checksum w
  = on_mismatch opts filename h1 h2 (World (fs w2) (log w2 ++ [Eprint NBlank])).
Proof.
  intros Hpre Hskip Hretry Hpost Hne. unfold fetch_file.
  rewrite (bind_ok _ _ _ _ _ (check_hash_fst _ _ _ _ Hpre)). rewrite Hskip.
  rewrite (bind_ok _ _ _ _ _ Hretry).
  rewrite (bind_ok _ _ w2 (World (fs w2) (log w2 ++ [Eprint NBlank])) tt) by reflexivity.
  rewrite (bind_ok _ _ _ _ _ (check_hash_fst _ _ _ _ Hpost)).
  destruct (String.eqb_spec h1 h2) as [E|_]; [contradiction | reflexivity].
Qed.

(** Download mode on a manifest: the run is the loop over the files, started
    once [md5sums.txt] is written and the total size announced. *)
Lemma main_download_mode (es : list FileEntry) (w : world) :
  wget opts = None ->
  mb_overflows (sizes_total es) = false ->
  main hashlib_new wget_download time_sleep os_locate opts true (manifest_json es) w
  = (file_loop hashlib_new wget_download time_sleep opts (map entry_json es);;
     eprint NAllDone)
      (World (<[md5sums := join (md5_lines es)]> (fs w))
             (log w ++ (OpenW md5sums :: map (WriteTo md5sums) (md5_lines es))
                    ++ [Eprint (NTotalSize (sizes_total es))])).
Proof.
  intros Hw Htotal. rewrite main_entries, Hw. unfold download_loop.
  rewrite (bind_ok _ _ _ _ _ (div_mb_ok _ _ Htotal)).
  rewrite (bind_ok _ _ _
             (World (<[md5sums := join (md5_lines es)]> (fs w))
                    ((log w ++ OpenW md5sums :: map (WriteTo md5sums) (md5_lines es))
                       ++ [Eprint (NTotalSize (sizes_total es))])) tt) by reflexivity.
  rewrite <- app_assoc. reflexivity.
Qed.

(** C4: with continue-on-error unset, a checksum mismatch after a download
    ends the whole run.  When the run reaches a file, downloads it, and the
    digest of the downloaded file differs from the expected one, the script
    reports the mismatch, deletes the file or keeps it ([--keep]), and the
    process ends there with status 1, whatever files follow in the manifest:
    none of them is announced or downloaded, and there is no completion
    notice.  And in every run, once the mismatch notice is out only the
    deletion or retention notice and the removal can still happen. *)
Theorem checksum_mismatch_aborts :
  error opts = false ->
  (forall (pre post : list FileEntry) (e : FileEntry) (w_init w w2 : world)
          (filename rh lh h1 h2 : string),
      wget opts = None ->
      mb_overflows (sizes_total (pre ++ e :: post)) = false ->
      file_loop hashlib_new wget_download time_sleep opts (map entry_json pre)
        (World (<[md5sums := join (md5_lines (pre ++ e :: post))]> (fs w_init))
               (log w_init
                  ++ (OpenW md5sums
                        :: map (WriteTo md5sums) (md5_lines (pre ++ e :: post)))
                  ++ [Eprint (NTotalSize (sizes_total (pre ++ e :: post)))]))
      = (Ok tt, w) ->
      mb_overflows (e_size e) = false ->
      fst (check_hash hashlib_new (e_name e) (e_checksum e)
             (World (fs w) (log w ++ [Eprint NBlank; Eprint (NLink (e_link e) (e_size e))])))
      = Ok (rh, lh) ->
      String.eqb rh lh && cont opts = false ->
      retry_loop wget_download time_sleep opts (Z.to_nat (retry opts + 1)) (e_link e)
        (World (fs w) (log w ++ [Eprint NBlank; Eprint (NLink (e_link e) (e_size e))]))
      = (Ok (Some filename), w2) ->
      fst (check_hash hashlib_new filename (e_checksum e)
             (World (fs w2) (log w2 ++ [Eprint NBlank])))
      = Ok (h1, h2) ->
      h1 <> h2 ->
      exists r w' cleanup,
        main hashlib_new wget_download time_sleep os_locate opts true
          (manifest_json (pre ++ e :: post)) w_init = (r, w')
        /\ exit_status r = 1%Z
        /\ aborted r
        /\ log w' = log w2 ++ [Eprint NBlank; Eprint (NChecksumIncorrect h1 h2)] ++ cleanup
        /\ Forall (fun ev => is_cleanup ev = true) cleanup
        /\ fs w' = if keep opts then fs w2 else delete filename (fs w2))
  /\ (forall (r_ok : bool) (js : record_json) (w : world) (evs : list event)
             (h1 h2 : string),
        log (snd (main hashlib_new wget_download time_sleep os_locate opts r_ok js w))
        = log w ++ evs ->
        In (Eprint (NChecksumIncorrect h1 h2)) evs ->
        exit_status (fst (main hashlib_new wget_download time_sleep os_locate opts r_ok js w))
        = 1%Z
        /\ exists before after,
             evs = before ++ Eprint (NChecksumIncorrect h1 h2) :: after
             /\ Forall (fun e => is_cleanup e = true) after).
Proof.
  intros Herr. split.
  - intros pre post e w_init w w2 filename rh lh h1 h2
           Hw Htotal Hpre Hsz Hcheck Hskip Hretry Hpost Hne.
    destruct (on_mismatch_stops filename h1 h2
                (World (fs w2) (log w2 ++ [Eprint NBlank])) Herr)
      as (r & w' & cleanup & Emm & Hst & Hab & Hlog & Hcl & Hfs).
    exists r, w', cleanup.
    split; [| split; [exact Hst | split; [exact Hab | split; [| split; [exact Hcl |
                                                                        exact Hfs]]]]].
    + rewrite (main_download_mode _ _ Hw Htotal).
      apply bind_aborted; [| exact Hab].
      unfold file_loop in *. rewrite map_app.
      rewrite (for_each_app_ok _ _ _ _ _ Hpre). cbn [map for_each].
      apply bind_aborted; [| exact Hab].
      rewrite (process_file_entry e w Hsz).
      rewrite (fetch_file_mismatch _ _ _ _ _ _ _ _ _ _ Hcheck Hskip Hretry Hpost Hne).
      exact Emm.
    + rewrite Hlog. cbn [log]. rewrite <- app_assoc. reflexivity.
  - intros r_ok js w evs h1 h2 Hlog Hin.
    destruct (ms_main r_ok js Herr w) as (evs' & Hlog' & Hcase).
    rewrite Hlog in Hlog'. apply app_inv_head in Hlog'. subst evs'.
    destruct Hcase as [Hclean | (Hst & _ & b & x & af & Hevs & Hb & Hx & Haf)].
    + exfalso. unfold clean in Hclean. rewrite List.Forall_forall in Hclean.
      specialize (Hclean _ Hin). discriminate Hclean.
    + split; [exact Hst |].
      exists b, af. split; [| exact Haf].
      rewrite Hevs in Hin. apply in_app_or in Hin as [Hin | [Hin | Hin]].
      * exfalso. unfold clean in Hb. rewrite List.Forall_forall in Hb.
        specialize (Hb _ Hin). discriminate Hb.
      * rewrite Hevs, Hin. reflexivity.
      * exfalso. rewrite List.Forall_forall in Haf.
        specialize (Haf _ Hin). discriminate Haf.
Qed.

(** *** Retry exhaustion *)

(** When the retry loop runs out and continue-on-error is unset, the script
    prints its abort notice and calls [sys.exit(0)]. *)
Lemma fetch_file_exhausted (link fname checksum remote_hash local_hash : string)
      (w w2 : world) :
  error opts = false ->
  check_hash hashlib_new fname checksum w = (Ok (remote_hash, local_hash), w) ->
  String.eqb remote_hash local_hash && cont opts = false ->
  retry_loop wget_download time_sleep opts (Z.to_nat (retry opts + 1)) link w = (Ok None, w2) ->
  fetch_file hashlib_new wget_download time_sleep opts link fname checksum w
  = (SysExit 0, World (fs w2) (log w2 ++ [Eprint NAborted])).
Proof.
  intros Herr Hcheck Hpre Hretry. unfold fetch_file.
  rewrite (bind_ok _ _ _ _ _ Hcheck). rewrite Hpre.
  rewrite (bind_ok _ _ _ _ _ Hretry). rewrite Herr. reflexivity.
Qed.

Lemma downloads_none (evs : list event) :
  Forall (fun e => is_download e = false) evs -> downloads evs = [].
Proof.
  induction 1 as [|e evs He _ IH]; [reflexivity |].
  unfold downloads in *. cbn [omap list_omap].
  destruct e; try discriminate He; exact IH.
Qed.

(** What follows a successful download invokes no further download. *)
Lemma post_check_quiet (filename checksum : string) :
  only (fun e => is_download e = false)
    (eprint NBlank;;
     '(h1, h2) ← check_hash hashlib_new filename checksum;
     if String.eqb h1 h2 then eprint (NChecksumCorrect h1)
     else on_mismatch opts filename h1 h2).
Proof.
  apply only_bind; [apply only_eprint; reflexivity | intros _].
  apply only_bind; [apply only_check_hash | intros [h1 h2]].
  destruct (String.eqb h1 h2); [apply only_eprint; reflexivity |].
  unfold on_mismatch.
  apply only_bind; [apply only_eprint; reflexivity | intros _].
  apply only_bind.
  - destruct (negb (keep opts)); [| apply only_eprint; reflexivity].
    apply only_bind; [apply only_eprint; reflexivity | intros _].
    apply only_os_remove. reflexivity.
  - intros _. destruct (negb (error opts)); apply pure_only; [apply pure_exit | apply pure_ret].
Qed.

(** C5 (as the code has it): with a retry count [N >= 0], for a file that
    the pre-check does not skip.  When [time.sleep] returns for the
    configured pause and every attempt to download the file fails, the body
    of the download loop invokes the collaborator exactly [N + 1] times, each
    failed attempt followed by the error notice and a sleep of the pause, and
    then takes the exhaustion branch: the skip notice with continue-on-error,
    the abort notice and [sys.exit(0)] without.  When the first attempt
    succeeds it is the only one: nothing that follows in the body invokes the
    collaborator again.  And the retry loop, at whatever attempt it stands,
    ends at once with the file name when that attempt succeeds. *)
Theorem retry_loop_attempts (N : Z) :
  retry opts = N ->
  (0 <= N)%Z ->
  (forall (link fname checksum rh lh : string) (w : world),
      fst (check_hash hashlib_new fname checksum w) = Ok (rh, lh) ->
      String.eqb rh lh && cont opts = false ->
      time_sleep (pause opts) = None ->
      (forall w', fst (wget_download link w') = None) ->
      exists fs' evs,
        fetch_file hashlib_new wget_download time_sleep opts link fname checksum w
        = (if error opts then Ok tt else SysExit 0,
           World fs' (log w ++ evs
                        ++ [Eprint (if error opts then NSkipped else NAborted)]))
        /\ evs = concat (replicate (Z.to_nat (N + 1)) (failed_attempt link (pause opts)))
        /\ downloads evs = replicate (Z.to_nat (N + 1)) link
        /\ Z.of_nat (List.length (downloads evs)) = (N + 1)%Z)
  /\ (forall (link fname checksum rh lh filename : string) (w : world),
        fst (check_hash hashlib_new fname checksum w) = Ok (rh, lh) ->
        String.eqb rh lh && cont opts = false ->
        fst (wget_download link w) = Some filename ->
        exists r w' tl,
          fetch_file hashlib_new wget_download time_sleep opts link fname checksum w
          = (r, w')
          /\ log w' = log w ++ Download link :: tl
          /\ downloads tl = [])
  /\ (forall (n : nat) (link filename : string) (w : world),
        fst (wget_download link w) = Some filename ->
        retry_loop wget_download time_sleep opts (S n) link w
        = (Ok (Some filename),
           World (snd (wget_download link w)) (log w ++ [Download link]))).
Proof.
  intros HN Hpos. split; [| split].
  - intros link fname checksum rh lh w Hcheck Hskip Hp Hfail.
    destruct (retry_loop_all_fail (Z.to_nat (N + 1)) link w Hp Hfail) as [fs' E].
    exists fs', (concat (replicate (Z.to_nat (N + 1)) (failed_attempt link (pause opts)))).
    split; [| split; [reflexivity | split]].
    + unfold fetch_file.
      rewrite (bind_ok _ _ _ _ _ (check_hash_fst _ _ _ _ Hcheck)). rewrite Hskip.
      rewrite HN, (bind_ok _ _ _ _ _ E).
      rewrite (app_assoc (log w)).
      destruct (error opts); reflexivity.
    + apply downloads_failed_attempts.
    + rewrite downloads_failed_attempts, length_replicate. lia.
  - intros link fname checksum rh lh filename w Hcheck Hskip Hd.
    destruct (Z.to_nat (N + 1)) as [|n] eqn:Hn; [lia |].
    pose proof (retry_loop_succeeds n link filename w Hd) as E.
    destruct (post_check_quiet filename checksum
                (World (snd (wget_download link w)) (log w ++ [Download link])))
      as (tl & Hlog & Htl).
    eexists _, _, tl. split; [| split].
    + unfold fetch_file.
      rewrite (bind_ok _ _ _ _ _ (check_hash_fst _ _ _ _ Hcheck)). rewrite Hskip.
      rewrite HN, Hn, (bind_ok _ _ _ _ _ E). apply surjective_pairing.
    + rewrite Hlog. cbn [log]. rewrite <- app_assoc. reflexivity.
    + apply downloads_none, Htl.
  - intros n link filename w Hd. apply retry_loop_succeeds, Hd.
Qed.

(** *** Missing fields in the metadata *)

Lemma sum_sizes_missing (fl : list file_json) (acc : Z) (w : world) :
  Exists (fun f => size f = None) fl ->
  sum_sizes acc fl w = (Raise (KeyError "size"), w).
Proof.
  intros Hex. revert acc. induction Hex as [f fl Hf | f fl Hex IH]; intros acc; cbn [sum_sizes].
  - rewrite Hf. reflexivity.
  - destruct (size f) as [sz|]; [| reflexivity].
    rewrite bind_unfold. cbn [getitem mret M_ret]. apply IH.
Qed.

Lemma sum_sizes_present (fl : list file_json) (acc : Z) (w : world) :
  Forall (fun f => is_Some (size f)) fl ->
  exists total, sum_sizes acc fl w = (Ok total, w).
Proof.
  intros Hall. revert acc. induction Hall as [|f fl [sz Hf] Hall IH]; intros acc; cbn [sum_sizes].
  - exists acc. reflexivity.
  - rewrite Hf, bind_unfold. cbn [getitem mret M_ret]. apply IH.
Qed.

Lemma md5_loop_missing (fl : list file_json) (w : world) :
  Exists lacks_name_or_checksum fl ->
  exists k w' evs,
    for_each fl
      (fun f =>
         fname ← getitem "key" (key f);
         cs ← getitem "checksum" (checksum f);
         write md5sums (md5_line cs fname)) w
    = (Raise (KeyError k), w')
    /\ (k = "key" \/ k = "checksum")
    /\ log w' = log w ++ evs
    /\ Forall (fun e => is_notice e = false) evs.
Proof.
  intros Hex. revert w. induction fl as [|f fl IH]; intros w; [inversion Hex |].
  cbn [for_each]. rewrite bind_unfold.
  destruct (key f) as [fname|] eqn:Hkey.
  - destruct (checksum f) as [cs|] eqn:Hcs.
    + assert (Htl : Exists lacks_name_or_checksum fl).
      { inversion Hex as [? ? [Hk | Hc] | ? ? Htl]; subst; [congruence | congruence | exact Htl]. }
      do 2 (rewrite bind_unfold; cbn [getitem mret M_ret]).
      unfold write at 1.
      destruct (IH Htl (World (<[md5sums := default EmptyString (fs w !! md5sums)
                                              +:+ md5_line cs fname]> (fs w))
                              (log w ++ [WriteTo md5sums (md5_line cs fname)])))
        as (k & w' & evs & E & Hk & Hlog & Hevs).
      exists k, w', (WriteTo md5sums (md5_line cs fname) :: evs).
      rewrite E. split; [reflexivity | split; [exact Hk | split]].
      * rewrite Hlog. cbn [log]. rewrite <- app_assoc. reflexivity.
      * constructor; [reflexivity | exact Hevs].
    + exists "checksum", w, []. rewrite app_nil_r.
      split; [reflexivity | split; [right; reflexivity | split; [reflexivity | constructor]]].
  - exists "key", w, []. rewrite app_nil_r.
    split; [reflexivity | split; [left; reflexivity | split; [reflexivity | constructor]]].
Qed.

Lemma link_loop_missing (out : string -> M unit) (fl : list file_json) (w : world) :
  (forall s w0, exists w1, out s w0 = (Ok tt, w1)) ->
  Exists lacks_link fl ->
  exists k w',
    for_each fl
      (fun f =>
         l ← getitem "links" (links f);
         link ← getitem "self" (self l);
         out link) w
    = (Raise (KeyError k), w')
    /\ (k = "links" \/ k = "self").
Proof.
  intros Hout Hex. revert w. induction fl as [|f fl IH]; intros w; [inversion Hex |].
  cbn [for_each]. rewrite bind_unfold.
  destruct (links f) as [[[link|]]|] eqn:Hl.
  - assert (Htl : Exists lacks_link fl).
    { inversion Hex as [? ? [Hk | Hc] | ? ? Htl]; subst; [congruence | congruence | exact Htl]. }
    do 2 (rewrite bind_unfold; cbn [getitem mret M_ret self]).
    destruct (Hout link w) as [w1 E]. rewrite E. apply IH, Htl.
  - exists "self", w. split; [reflexivity | right; reflexivity].
  - exists "links", w. split; [reflexivity | left; reflexivity].
Qed.

(** C9 (as the code has it): a required key missing from the metadata is
    not defaulted and not reported as a malformed-metadata condition: the
    subscript raises [KeyError] and nothing catches it.  Without [files], or
    with a file object without [size], the exception comes before anything is
    written or printed; without [key] or [checksum] it comes while
    [md5sums.txt] is being written, before any notice; without [links] or
    [self] it comes from the body of the download loop, or from the link
    list, when that object is reached; the link list reaches it only once
    its target is open: a target that cannot be opened for writing (the
    empty name, for one) ends the run with the exception of [open]
    instead. *)
Theorem missing_field_raises_KeyError :
  (forall w, main hashlib_new wget_download time_sleep os_locate opts true (RecordJson None) w
             = (Raise (KeyError "files"), w))
  /\ (forall fl w,
        Exists (fun f => size f = None) fl ->
        main hashlib_new wget_download time_sleep os_locate opts true (RecordJson (Some fl)) w
        = (Raise (KeyError "size"), w))
  /\ (forall fl w,
        Forall (fun f => is_Some (size f)) fl ->
        Exists lacks_name_or_checksum fl ->
        exists k w' evs,
          main hashlib_new wget_download time_sleep os_locate opts true (RecordJson (Some fl)) w
          = (Raise (KeyError k), w')
          /\ (k = "key" \/ k = "checksum")
          /\ log w' = log w ++ evs
          /\ Forall (fun e => is_notice e = false) evs)
  /\ (forall f w,
        links f = None ->
        process_file hashlib_new wget_download time_sleep opts f w = (Raise (KeyError "links"), w))
  /\ (forall f w,
        links f = Some (LinksJson None) ->
        process_file hashlib_new wget_download time_sleep opts f w = (Raise (KeyError "self"), w))
  /\ (forall target fl w,
        Exists lacks_link fl ->
        target = "-" \/ (exists key, file_key os_locate target = Found key) ->
        exists k w',
          write_links os_locate target fl w = (Raise (KeyError k), w')
          /\ (k = "links" \/ k = "self"))
  /\ (forall target fl w e,
        target <> "-" ->
        file_key os_locate target = Refused e ->
        write_links os_locate target fl w = (Raise e, w))
  /\ (forall fl w,
        write_links os_locate EmptyString fl w
        = (Raise (FileNotFoundError EmptyString), w)).
Proof.
  repeat apply conj.
  - intros w. reflexivity.
  - intros fl w Hex. unfold main. cbn [files].
    rewrite bind_unfold. cbn [getitem mret M_ret].
    apply bind_raise, sum_sizes_missing, Hex.
  - intros fl w Hall Hex. unfold main. cbn [files is_not_None].
    rewrite bind_unfold. cbn [getitem mret M_ret].
    destruct (sum_sizes_present fl 0 w Hall) as [total Hsum].
    rewrite (bind_ok _ _ _ _ _ Hsum).
    destruct (md5_loop_missing fl
                (World (<[md5sums := EmptyString]> (fs w)) (log w ++ [OpenW md5sums])) Hex)
      as (k & w' & evs & E & Hk & Hlog & Hevs).
    exists k, w', (OpenW md5sums :: evs).
    split; [| split; [exact Hk | split]].
    + apply bind_raise. unfold write_md5sums.
      rewrite (bind_ok _ _ _ _ _ (open_wt_md5sums w)). exact E.
    + rewrite Hlog. cbn [log]. rewrite <- app_assoc. reflexivity.
    + constructor; [reflexivity | exact Hevs].
  - intros f w Hl. unfold process_file. rewrite Hl. reflexivity.
  - intros f w Hl. unfold process_file. rewrite Hl. reflexivity.
  - intros target fl w Hex Htarget. unfold write_links.
    destruct (String.eqb_spec target "-") as [_ | Hne].
    + apply link_loop_missing; [| exact Hex].
      intros s w0. eexists. reflexivity.
    + destruct Htarget as [-> | [key Hkey]]; [contradiction |].
      rewrite (bind_ok _ _ _ _ _ (open_wt_found _ _ w Hkey)).
      apply link_loop_missing; [| exact Hex].
      intros s w0. eexists. reflexivity.
  - intros target fl w e Hne Hkey. unfold write_links.
    destruct (String.eqb_spec target "-") as [E | _]; [contradiction |].
    apply bind_raise, open_wt_refused, Hkey.
  - intros fl w. reflexivity.
Qed.

(** *** The checksum manifest *)

Lemma md5_line_checksum_line (f : file_json) (cs fname : string) :
  key f = Some fname -> checksum f = Some cs ->
  md5_line cs fname = checksum_line f.
Proof.
  intros Hk Hc. unfold md5_line, checksum_line.
  rewrite Hk, Hc, last_item_split. reflexivity.
Qed.

Lemma md5_loop_present (fl : list file_json) (content : string) (w : world) :
  Forall has_md5_fields fl ->
  fs w !! md5sums = Some content ->
  for_each fl
    (fun f =>
       fname ← getitem "key" (key f);
       cs ← getitem "checksum" (checksum f);
       write md5sums (md5_line cs fname)) w
  = (Ok tt, World (<[md5sums := content +:+ join (map checksum_line fl)]> (fs w))
                  (log w ++ map (WriteTo md5sums) (map checksum_line fl))).
Proof.
  intros Hall. revert content w.
  induction Hall as [|f fl (_ & [fname Hk] & [cs Hc]) _ IH]; intros content w Hfs.
  - cbn [map for_each join foldr mret M_ret].
    rewrite append_nil_r, (insert_id _ _ _ Hfs), app_nil_r. destruct w; reflexivity.
  - cbn [map for_each]. rewrite bind_unfold.
    rewrite <- (md5_line_checksum_line f cs fname Hk Hc). rewrite Hk, Hc.
    do 2 (rewrite bind_unfold; cbn [getitem mret M_ret]).
    unfold write at 1. rewrite Hfs. cbn [default].
    rewrite (IH (content +:+ md5_line cs fname)).
    + cbn [fs log map join foldr].
      rewrite insert_insert_eq, append_assoc, <- app_assoc. reflexivity.
    + cbn [fs]. apply lookup_insert_eq.
Qed.

Lemma count_newlines (fl : list file_json) :
  Forall single_line fl ->
  count_char "010" (join (map checksum_line fl)) = List.length fl.
Proof.
  induction 1 as [|f fl [Hk Hc] _ IH]; [reflexivity |].
  cbn [map join foldr List.length]. fold (join (map checksum_line fl)).
  rewrite count_char_app, IH. unfold checksum_line.
  rewrite !count_char_app.
  rewrite (count_char_absent _ _ (has_char_after_last _ ":" _ Hc)).
  rewrite (count_char_absent _ _ Hk). reflexivity.
Qed.

(** C2 (as the code has it): whatever the options, [--md5] given or not, a
    run on a fetched record whose file objects all carry [size], [key] and
    [checksum] first creates or truncates [md5sums.txt] and writes one line
    per file object to it, in manifest order: the digest (the text after the
    last colon of the checksum string), two spaces, the file name and a line
    feed.  The run then goes on from that state, to the link list or to the
    download loop, and only appends to the log.  With no line feed in the
    names and checksum strings the file holds as many line feeds as the
    manifest has files.  For a checksum string [algorithm:digest] the line
    is [digest], two spaces, the name and a line feed. *)
Theorem md5sums_written_regardless (fl : list file_json) (w : world) :
  Forall has_md5_fields fl ->
  exists (w1 : world) (total : Z) (tl : list event),
    fs w1 = <[md5sums := join (map checksum_line fl)]> (fs w)
    /\ log w1 = log w ++ OpenW md5sums :: map (WriteTo md5sums) (map checksum_line fl)
    /\ main hashlib_new wget_download time_sleep os_locate opts true
         (RecordJson (Some fl)) w
       = (match wget opts with
          | Some target => write_links os_locate target fl
          | None => download_loop hashlib_new wget_download time_sleep opts total fl
          end) w1
    /\ log (snd (main hashlib_new wget_download time_sleep os_locate opts true
                   (RecordJson (Some fl)) w))
       = log w1 ++ tl
    /\ (Forall single_line fl ->
        count_char "010" (join (map checksum_line fl)) = List.length fl)
    /\ (forall (f : file_json) (algorithm digest name : string),
          In f fl ->
          checksum f = Some (algorithm +:+ ":" +:+ digest) ->
          has_char ":" digest = false ->
          key f = Some name ->
          checksum_line f = digest +:+ "  " +:+ name +:+ String "010" EmptyString).
Proof.
  intros Hall.
  assert (Hsz : Forall (fun f => is_Some (size f)) fl).
  { eapply Forall_impl; [exact Hall | intros f (H & _); exact H]. }
  destruct (sum_sizes_present fl 0 w Hsz) as [total Hsum].
  set (w1 := World (<[md5sums := join (map checksum_line fl)]> (fs w))
                   (log w ++ OpenW md5sums :: map (WriteTo md5sums) (map checksum_line fl))).
  assert (Hmd5 : write_md5sums os_locate fl w = (Ok tt, w1)).
  { unfold write_md5sums. rewrite (bind_ok _ _ _ _ _ (open_wt_md5sums w)).
    rewrite (md5_loop_present fl EmptyString) by (exact Hall || apply lookup_insert_eq).
    unfold w1. cbn [fs log]. rewrite insert_insert_eq, <- app_assoc. reflexivity. }
  assert (Hmain : main hashlib_new wget_download time_sleep os_locate opts true
                    (RecordJson (Some fl)) w
                  = (match wget opts with
                     | Some target => write_links os_locate target fl
                     | None => download_loop hashlib_new wget_download time_sleep opts total fl
                     end) w1).
  { unfold main. cbn [files is_not_None].
    rewrite bind_unfold. cbn [getitem mret M_ret].
    rewrite (bind_ok _ _ _ _ _ Hsum). rewrite (bind_ok _ _ _ _ _ Hmd5). reflexivity. }
  assert (Hrest : only (fun _ => True)
                    (match wget opts with
                     | Some target => write_links os_locate target fl
                     | None => download_loop hashlib_new wget_download time_sleep opts total fl
                     end)).
  { destruct (wget opts) as [target|].
    - eapply only_weaken; [| apply only_write_links]. intros; exact I.
    - apply only_download_loop. }
  destruct (Hrest w1) as (tl & Htl & _).
  exists w1, total, tl.
  split; [reflexivity | split; [reflexivity | split; [exact Hmain | split; [| split]]]].
  - rewrite Hmain. exact Htl.
  - apply count_newlines.
  - intros f algorithm digest name _ Hc Hd Hk. unfold checksum_line.
    rewrite Hc, Hk. cbn [default id].
    change (":" +:+ digest) with (String ":" digest).
    rewrite (after_last_app_sep ":" algorithm digest Hd). reflexivity.
Qed.

End Facts.

(** ** The program on concrete inputs *)

(** C3: the script on a two-file manifest when every download fails, with
    the default options (no retry, continue-on-error unset).  The run stops
    at the first file, the second is never attempted, and the exit status is
    0: line 223 calls [sys.exit(0)], where the other failure paths of the
    script (lines 240 and 244) exit with 1. *)
Theorem retry_exhaustion_exit_status :
  error default_options = false
  /\ main echo_hashlib dl_fail py_sleep cwd_locate default_options true
          (manifest_json [file_a; file_b]) empty_world
     = (SysExit 0,
        World {[ md5sums := join (md5_lines [file_a; file_b]) ]}
              [OpenW md5sums;
               WriteTo md5sums (md5_line (e_checksum file_a) (e_name file_a));
               WriteTo md5sums (md5_line (e_checksum file_b) (e_name file_b));
               Eprint (NTotalSize 30);
               Eprint NBlank; Eprint (NLink (e_link file_a) 10);
               Download (e_link file_a); Eprint NDownloadError; Sleep (1 # 2);
               Eprint NAborted])
  /\ exit_status
       (fst (main echo_hashlib dl_fail py_sleep cwd_locate default_options true
               (manifest_json [file_a; file_b]) empty_world)) = 0%Z.
Proof. repeat split; vm_compute; reflexivity. Qed.

(** C1, as stated, fails: with [--md5] alone the download loop still runs
    and the collaborator is invoked. *)
Lemma md5_flag_still_downloads :
  md5 md5_options = true
  /\ downloads (log (snd (main echo_hashlib (dl_save "abc") py_sleep cwd_locate md5_options true
                            (manifest_json [file_a]) empty_world)))
     = [e_link file_a].
Proof. split; vm_compute; reflexivity. Qed.

Lemma link_list_mode_never_downloads_witness :
  exists evs,
    log (snd (main echo_hashlib (dl_save "abc") py_sleep cwd_locate md5_wget_options true
                (manifest_json [file_a; file_b]) empty_world))
    = log empty_world ++ evs
    /\ Forall (fun e => is_download e = false) evs.
Proof.
  destruct (link_list_mode_never_downloads echo_hashlib (dl_save "abc") py_sleep cwd_locate
              md5_wget_options "-") as [Hnone _].
  - reflexivity.
  - apply Hnone.
Defined.

Lemma checksum_mismatch_aborts_witness :
  exists r w' cleanup,
    main echo_hashlib (dl_save "abc") py_sleep cwd_locate default_options true
      (manifest_json ([file_a] ++ file_b :: [file_d])) empty_world = (r, w')
    /\ exit_status r = 1%Z
    /\ aborted r
    /\ log w'
       = log world_b_fetched
           ++ [Eprint NBlank; Eprint (NChecksumIncorrect "def" "abc")] ++ cleanup
    /\ Forall (fun ev => is_cleanup ev = true) cleanup
    /\ fs w' = if keep default_options then fs world_b_fetched
               else delete "b.txt" (fs world_b_fetched).
Proof.
  apply (proj1 (checksum_mismatch_aborts echo_hashlib (dl_save "abc") py_sleep cwd_locate
                  default_options eq_refl)
           [file_a] [file_d] file_b empty_world world_a_done world_b_fetched
           "b.txt" "def" "invalid" "def" "abc").
  - reflexivity.
  - vm_compute. reflexivity.
  - vm_compute. reflexivity.
  - vm_compute. reflexivity.
  - vm_compute. reflexivity.
  - vm_compute. reflexivity.
  - vm_compute. reflexivity.
  - vm_compute. reflexivity.
  - discriminate.
Defined.

(** C5, as stated, fails for a negative pause: [time.sleep] raises after the
    first failed attempt, so with [--retry 2] the collaborator is invoked
    once, not three times, and the exhaustion branch is not taken. *)
Lemma negative_pause_stops_retries :
  (0 <= retry negative_pause_options)%Z
  /\ Z.to_nat (retry negative_pause_options + 1) = 3
  /\ py_sleep (pause negative_pause_options)
     = Some (ValueError "sleep length must be non-negative")
  /\ (forall w, fst (dl_fail (e_link file_a) w) = None)
  /\ retry_loop dl_fail py_sleep negative_pause_options
       (Z.to_nat (retry negative_pause_options + 1)) (e_link file_a) empty_world
     = (Raise (ValueError "sleep length must be non-negative"),
        World ∅ [Download (e_link file_a); Eprint NDownloadError])
  /\ fst (main echo_hashlib dl_fail py_sleep cwd_locate negative_pause_options true
            (manifest_json [file_a]) empty_world)
     = Raise (ValueError "sleep length must be non-negative").
Proof.
  split; [vm_compute; discriminate |].
  split; [reflexivity |].
  split; [reflexivity |].
  split; [intros w; reflexivity |].
  split; vm_compute; reflexivity.
Qed.

Lemma retry_loop_attempts_witness :
  (exists fs' evs,
     fetch_file echo_hashlib dl_fail py_sleep retry2_options
       (e_link file_a) (e_name file_a) (e_checksum file_a) empty_world
     = (SysExit 0, World fs' (log empty_world ++ evs ++ [Eprint NAborted]))
     /\ evs = concat (replicate (Z.to_nat (2 + 1))
                        (failed_attempt (e_link file_a) (pause retry2_options)))
     /\ downloads evs = replicate (Z.to_nat (2 + 1)) (e_link file_a)
     /\ Z.of_nat (List.length (downloads evs)) = (2 + 1)%Z)
  /\ (exists r w' tl,
        fetch_file echo_hashlib (dl_save "abc") py_sleep retry2_options
          (e_link file_a) (e_name file_a) (e_checksum file_a) empty_world
        = (r, w')
        /\ log w' = log empty_world ++ Download (e_link file_a) :: tl
        /\ downloads tl = []).
Proof.
  split.
  - apply (proj1 (retry_loop_attempts echo_hashlib dl_fail py_sleep retry2_options 2
                    eq_refl ltac:(lia))
             (e_link file_a) (e_name file_a) (e_checksum file_a) "abc" "invalid" empty_world).
    + reflexivity.
    + reflexivity.
    + reflexivity.
    + intros w'. reflexivity.
  - apply (proj1 (proj2 (retry_loop_attempts echo_hashlib (dl_save "abc") py_sleep
                           retry2_options 2 eq_refl ltac:(lia)))
             (e_link file_a) (e_name file_a) (e_checksum file_a) "abc" "invalid" "a.txt"
             empty_world).
    + reflexivity.
    + reflexivity.
    + vm_compute. reflexivity.
Defined.



Lemma check_hash_missing_file_witness :
  check_hash echo_hashlib "a.txt" ("echo" +:+ ":" +:+ "abc") empty_world
  = (Ok ("abc", "invalid"), empty_world)
  /\ String.eqb "abc" "invalid" = false.
Proof.
  apply (check_hash_missing_file echo_hashlib "a.txt" "echo" "abc" empty_world).
  - reflexivity.
  - reflexivity.
  - vm_compute. reflexivity.
Defined.

(** C8, as stated, fails: a checksum string without a colon is not reported
    as a failure condition; the run ends with the uncaught [ValueError] of
    the unpacking (a traceback), after the opening notices only. *)
Lemma no_colon_ends_in_traceback :
  has_char ":" (e_checksum file_nocolon) = false
  /\ main echo_hashlib dl_fail py_sleep cwd_locate default_options true
          (manifest_json [file_nocolon]) empty_world
     = (Raise (ValueError "not enough values to unpack (expected 2, got 1)"),
        World {[ md5sums := md5_line (e_checksum file_nocolon) (e_name file_nocolon) ]}
              [OpenW md5sums;
               WriteTo md5sums (md5_line (e_checksum file_nocolon) (e_name file_nocolon));
               Eprint (NTotalSize 30);
               Eprint NBlank; Eprint (NLink (e_link file_nocolon) 30)])
  /\ traceback (fst (main echo_hashlib dl_fail py_sleep cwd_locate default_options true
                        (manifest_json [file_nocolon]) empty_world)) = true.
Proof. repeat split; vm_compute; reflexivity. Qed.

Lemma check_hash_no_colon_raises_witness :
  check_hash echo_hashlib "c.txt" "abc" empty_world
  = (Raise (ValueError "not enough values to unpack (expected 2, got 1)"), empty_world)
  /\ (forall e : FileEntry,
        e_checksum e = "abc" ->
        mb_overflows (e_size e) = false ->
        process_file echo_hashlib dl_fail py_sleep default_options (entry_json e) empty_world
        = (Raise (ValueError "not enough values to unpack (expected 2, got 1)"),
           World (fs empty_world)
                 (log empty_world ++ [Eprint NBlank; Eprint (NLink (e_link e) (e_size e))])))
  /\ (forall (e : FileEntry) (es : list FileEntry),
        e_checksum e = "abc" ->
        wget default_options = None ->
        mb_overflows (sizes_total (e :: es)) = false ->
        mb_overflows (e_size e) = false ->
        fst (main echo_hashlib dl_fail py_sleep cwd_locate default_options true
               (manifest_json (e :: es)) empty_world)
        = Raise (ValueError "not enough values to unpack (expected 2, got 1)")
        /\ traceback
             (fst (main echo_hashlib dl_fail py_sleep cwd_locate default_options true
                     (manifest_json (e :: es)) empty_world)) = true).
Proof.
  apply (check_hash_no_colon_raises echo_hashlib dl_fail py_sleep cwd_locate default_options
           "c.txt" "abc" empty_world).
  reflexivity.
Defined.

(** C9, as stated, fails: a file object without [size] ends the run with an
    uncaught [KeyError] (a traceback) and with nothing printed at all, not
    with a malformed-metadata message. *)
Lemma missing_size_ends_in_traceback :
  main echo_hashlib dl_fail py_sleep cwd_locate default_options true
       (RecordJson (Some [json_nosize])) empty_world
  = (Raise (KeyError "size"), empty_world)
  /\ traceback (fst (main echo_hashlib dl_fail py_sleep cwd_locate default_options true
                        (RecordJson (Some [json_nosize])) empty_world)) = true
  /\ filter (fun e => is_notice e)
            (log (snd (main echo_hashlib dl_fail py_sleep cwd_locate default_options true
                         (RecordJson (Some [json_nosize])) empty_world))) = [].
Proof. repeat split; vm_compute; reflexivity. Qed.

Lemma missing_field_raises_KeyError_witness :
  main echo_hashlib dl_fail py_sleep cwd_locate default_options true
       (RecordJson (Some [entry_json file_a; json_nosize])) empty_world
  = (Raise (KeyError "size"), empty_world).
Proof.
  apply (missing_field_raises_KeyError echo_hashlib dl_fail py_sleep cwd_locate
           default_options).
  apply Exists_cons_tl, Exists_cons_hd. reflexivity.
Defined.

(** C2, as stated, fails for a record whose metadata lacks a key: without
    [size] in a file object the run ends before [md5sums.txt] is opened, and
    without [key] the file is left with the lines of the file objects before
    the incomplete one, here one line for two file objects. *)
Lemma md5sums_missing_or_partial :
  main echo_hashlib (dl_save "abc") py_sleep cwd_locate md5_options true
       (RecordJson (Some [json_nosize])) empty_world
  = (Raise (KeyError "size"), empty_world)
  /\ fs empty_world !! md5sums = None
  /\ main echo_hashlib (dl_save "abc") py_sleep cwd_locate md5_options true
          (RecordJson (Some [entry_json file_a; json_nokey])) empty_world
     = (Raise (KeyError "key"),
        World {[ md5sums := md5_line (e_checksum file_a) (e_name file_a) ]}
              [OpenW md5sums;
               WriteTo md5sums (md5_line (e_checksum file_a) (e_name file_a))])
  /\ count_char "010" (md5_line (e_checksum file_a) (e_name file_a)) = 1
  /\ List.length [entry_json file_a; json_nokey] = 2.
Proof. repeat split; vm_compute; reflexivity. Qed.

Lemma md5sums_written_regardless_witness :
  md5 default_options = false
  /\ exists (w1 : world) (total : Z) (tl : list event),
       fs w1 = <[md5sums := "abc  a.txt" +:+ nl +:+ "def  b.txt" +:+ nl]> (fs empty_world)
       /\ log w1
          = log empty_world
              ++ OpenW md5sums
                   :: map (WriteTo md5sums)
                        (map checksum_line [entry_json file_a; entry_json file_b])
       /\ main echo_hashlib (dl_save "abc") py_sleep cwd_locate default_options true
            (RecordJson (Some [entry_json file_a; entry_json file_b])) empty_world
          = (match wget default_options with
             | Some target =>
                 write_links cwd_locate target [entry_json file_a; entry_json file_b]
             | None =>
                 download_loop echo_hashlib (dl_save "abc") py_sleep default_options total
                   [entry_json file_a; entry_json file_b]
             end) w1
       /\ log (snd (main echo_hashlib (dl_save "abc") py_sleep cwd_locate default_options true
                      (RecordJson (Some [entry_json file_a; entry_json file_b]))
                      empty_world))
          = log w1 ++ tl
       /\ (Forall single_line [entry_json file_a; entry_json file_b] ->
           count_char "010"
             (join (map checksum_line [entry_json file_a; entry_json file_b]))
           = List.length [entry_json file_a; entry_json file_b])
       /\ (forall (f : file_json) (algorithm digest name : string),
             In f [entry_json file_a; entry_json file_b] ->
             checksum f = Some (algorithm +:+ ":" +:+ digest) ->
             has_char ":" digest = false ->
             key f = Some name ->
             checksum_line f = digest +:+ "  " +:+ name +:+ String "010" EmptyString).
Proof.
  split; [reflexivity |].
  apply (md5sums_written_regardless echo_hashlib (dl_save "abc") py_sleep cwd_locate
           default_options [entry_json file_a; entry_json file_b] empty_world).
  repeat constructor; eexists; reflexivity.
Defined.

(** ** More on [split] *)

Lemma join_with_cons (sep c : ascii) (p : string) (ps : list string) :
  join_with sep (String c p :: ps) = String c (join_with sep (p :: ps)).
Proof. destruct ps; reflexivity. Qed.

Lemma join_split (sep : ascii) (s : string) : join_with sep (split sep s) = s.
Proof.
  induction s as [|c s IH]; [reflexivity |].
  cbn [split]. destruct (Ascii.eqb_spec c sep) as [->|Hne].
  - pose proof (split_nonempty sep s) as Hs.
    destruct (split sep s) as [|p ps] eqn:E; [contradiction |].
    change (join_with sep (EmptyString :: p :: ps))
      with (String sep (join_with sep (p :: ps))).
    rewrite IH. reflexivity.
  - pose proof (split_nonempty sep s) as Hs.
    destruct (split sep s) as [|p ps] eqn:E; [contradiction |].
    rewrite join_with_cons, IH. reflexivity.
Qed.

Lemma length_split (sep : ascii) (s : string) :
  length (split sep s) = S (count_char sep s).
Proof.
  induction s as [|c s IH]; [reflexivity |].
  cbn [split count_char]. destruct (Ascii.eqb c sep).
  - cbn [length]. rewrite IH. reflexivity.
  - pose proof (split_nonempty sep s) as Hs.
    destruct (split sep s) as [|p ps] eqn:E; [contradiction |].
    cbn [length] in *. rewrite IH. reflexivity.
Qed.

Lemma split_parts_no_sep (sep : ascii) (s : string) :
  Forall (fun p => has_char sep p = false) (split sep s).
Proof.
  induction s as [|c s IH]; [repeat constructor |].
  cbn [split]. destruct (Ascii.eqb c sep) eqn:Ec.
  - constructor; [reflexivity | exact IH].
  - pose proof (split_nonempty sep s) as Hs.
    destruct (split sep s) as [|p ps] eqn:E; [contradiction |].
    apply Forall_cons in IH as [Hp Hps].
    constructor; [| exact Hps]. cbn [has_char]. rewrite Ec, Hp. reflexivity.
Qed.

(** X1: [split] cuts a string at every separator and loses nothing: joining
    the pieces with the separator gives the string back, no piece contains
    the separator, and there is one piece more than there are separators. *)
Theorem split_round_trip (sep : ascii) (s : string) :
  join_with sep (split sep s) = s
  /\ Forall (fun p => has_char sep p = false) (split sep s)
  /\ length (split sep s) = S (count_char sep s).
Proof.
  split; [apply join_split | split; [apply split_parts_no_sep | apply length_split]].
Qed.

Lemma last_item_cons (p : string) (ps : list string) :
  ps <> [] -> last_item (p :: ps) = last_item ps.
Proof. destruct ps; [contradiction | reflexivity]. Qed.

Lemma last_split_app (sep : ascii) (a b : string) :
  last_item (split sep (a +:+ String sep b)) = last_item (split sep b).
Proof.
  induction a as [|c a IH].
  - change (EmptyString +:+ String sep b) with (String sep b).
    cbn [split]. rewrite Ascii.eqb_refl.
    apply last_item_cons, split_nonempty.
  - rewrite append_cons. cbn [split].
    pose proof (split_nonempty sep (a +:+ String sep b)) as Hs.
    destruct (Ascii.eqb c sep).
    + rewrite last_item_cons by exact Hs. exact IH.
    + destruct (split sep (a +:+ String sep b)) as [|p ps] eqn:E; [contradiction |].
      destruct ps as [|q qs].
      * (* the separator is there, so there are at least two pieces *)
        exfalso. pose proof (length_split sep (a +:+ String sep b)) as Hl.
        rewrite E in Hl. cbn [length] in Hl.
        assert (Hc : 0 < count_char sep (a +:+ String sep b)).
        { clear. induction a as [|c' a IHa].
          - change (EmptyString +:+ String sep b) with (String sep b).
            cbn [count_char]. rewrite Ascii.eqb_refl. lia.
          - rewrite append_cons. cbn [count_char]. lia. }
        lia.
      * rewrite <- IH. reflexivity.
Qed.

(** ** More on the checksum strings *)

(** X2: the digest written to [md5sums.txt] is the text after the last
    colon of the checksum string, whatever comes before it: for a digest
    without a colon, [prefix:digest] gives the line [digest  name], and so
    does the bare digest, which [check_hash] rejects. *)
Theorem md5_line_takes_last_segment (digest : string) :
  has_char ":" digest = false ->
  forall (prefix fname : string),
    md5_line (prefix +:+ ":" +:+ digest) fname = digest +:+ "  " +:+ fname +:+ nl
    /\ md5_line digest fname = digest +:+ "  " +:+ fname +:+ nl.
Proof.
  intros Hd prefix fname. unfold md5_line. split.
  - change (":" +:+ digest) with (String ":" digest).
    rewrite last_split_app, (split_no_sep ":" digest Hd). reflexivity.
  - rewrite (split_no_sep ":" digest Hd). reflexivity.
Qed.

Lemma md5_line_takes_last_segment_witness :
  md5_line ("sha:256" +:+ ":" +:+ "abc") "a.txt" = "abc" +:+ "  " +:+ "a.txt" +:+ nl
  /\ md5_line "abc" "a.txt" = "abc" +:+ "  " +:+ "a.txt" +:+ nl.
Proof.
  apply (md5_line_takes_last_segment "abc"). reflexivity.
Defined.

Section MoreOnCheckHash.

Variable hashlib_new : string -> option hasher.

(** X3: [check_hash] splits at every colon, not at the first one: a
    checksum string with two or more colons makes the unpacking raise
    [ValueError], whether or not the file exists. *)
Theorem check_hash_too_many_colons (filename checksum : string) (w : world) :
  2 <= count_char ":" checksum ->
  check_hash hashlib_new filename checksum w
  = (Raise (ValueError "too many values to unpack (expected 2)"), w).
Proof.
  intros Hc. unfold check_hash.
  pose proof (length_split ":" checksum) as Hl.
  destruct (split ":" checksum) as [|a [|b [|c l]]]; cbn [length] in Hl; try lia.
  reflexivity.
Qed.

(** X4: the size of the read buffer does not show in the result: for a hash
    object that treats successive updates as one concatenated update, the
    digest [check_hash] returns for an existing file is the digest of the
    whole content fed at once (and of no data at all for an empty file). *)
Theorem check_hash_digest_of_whole_file (filename algorithm value content : string)
        (H : hasher) (w : world) :
  streaming H ->
  has_char ":" algorithm = false ->
  has_char ":" value = false ->
  hashlib_new algorithm = Some H ->
  fs w !! filename = Some content ->
  check_hash hashlib_new filename (algorithm +:+ ":" +:+ value) w
  = (Ok (value,
         hhexdigest H (match content with
                       | EmptyString => hinit H
                       | _ => hupdate H (hinit H) content
                       end)), w).
Proof.
  intros Hstream Ha Hv Hh Hfs.
  rewrite (check_hash_present hashlib_new filename algorithm value content H w
             (split_checksum algorithm value Ha Hv) Hfs Hh).
  destruct content as [|c content]; [reflexivity |].
  rewrite stream_digest_whole; [reflexivity | exact Hstream | discriminate].
Qed.

End MoreOnCheckHash.

Lemma echo_streaming : streaming echo_hasher.
Proof. intros h a b. apply append_assoc. Qed.

Lemma check_hash_too_many_colons_witness :
  check_hash echo_hashlib "a.txt" "echo:ab:cd" empty_world
  = (Raise (ValueError "too many values to unpack (expected 2)"), empty_world).
Proof.
  apply (check_hash_too_many_colons echo_hashlib "a.txt" "echo:ab:cd" empty_world).
  vm_compute. lia.
Defined.

Lemma check_hash_digest_of_whole_file_witness :
  check_hash echo_hashlib "a.txt" ("echo" +:+ ":" +:+ "abc") world_with_a
  = (Ok ("abc", hhexdigest echo_hasher (hupdate echo_hasher (hinit echo_hasher) "abc")),
     world_with_a).
Proof.
  apply (check_hash_digest_of_whole_file echo_hashlib "a.txt" "echo" "abc" "abc"
           echo_hasher world_with_a).
  - exact echo_streaming.
  - reflexivity.
  - reflexivity.
  - reflexivity.
  - vm_compute. reflexivity.
Defined.

(** ** The link list *)

Section MoreFacts.

Variable hashlib_new : string -> option hasher.
Variable wget_download : string -> world -> option string * gmap string string.
Variable time_sleep : Q -> option exn.
Variable os_locate : string -> located.
Variable opts : options.

Lemma print_links_loop (es : list FileEntry) (w : world) :
  for_each (map entry_json es)
    (fun f =>
       l ← getitem "links" (links f);
       link ← getitem "self" (self l);
       print link) w
  = (Ok tt, World (fs w) (log w ++ map (fun e => Print (e_link e)) es)).
Proof.
  revert w. induction es as [|e es IH]; intros w.
  - cbn [map for_each]. rewrite app_nil_r. destruct w; reflexivity.
  - cbn [map for_each].
    rewrite (bind_ok _ _ w (World (fs w) (log w ++ [Print (e_link e)])) tt) by reflexivity.
    rewrite IH. cbn [fs log]. rewrite <- app_assoc. reflexivity.
Qed.

Lemma write_links_loop (target : string) (es : list FileEntry) (content : string)
      (w : world) :
  fs w !! target = Some content ->
  for_each (map entry_json es)
    (fun f =>
       l ← getitem "links" (links f);
       link ← getitem "self" (self l);
       write target (link +:+ nl)) w
  = (Ok tt, World (<[target := content +:+ join (link_lines es)]> (fs w))
                  (log w ++ map (WriteTo target) (link_lines es))).
Proof.
  revert content w. induction es as [|e es IH]; intros content w Hfs.
  - cbn [map for_each link_lines join foldr mret M_ret].
    rewrite append_nil_r, (insert_id _ _ _ Hfs), app_nil_r. destruct w; reflexivity.
  - cbn [map for_each].
    rewrite (bind_ok _ _ w
               (World (<[target := default EmptyString (fs w !! target)
                                     +:+ (e_link e +:+ nl)]> (fs w))
                      (log w ++ [WriteTo target (e_link e +:+ nl)])) tt) by reflexivity.
    rewrite Hfs. cbn [default].
    rewrite (IH (content +:+ (e_link e +:+ nl))).
    + cbn [fs log link_lines map join foldr].
      rewrite insert_insert_eq, append_assoc, <- app_assoc. reflexivity.
    + cbn [fs]. apply lookup_insert_eq.
Qed.

(** X5: with [--wget -] the run on a manifest writes the checksum manifest
    and then prints the download links on standard output, one per file, in
    manifest order; it ends normally, and the only file it touches is
    [md5sums.txt]. *)
Theorem link_list_on_stdout (es : list FileEntry) (w : world) :
  wget opts = Some "-" ->
  main hashlib_new wget_download time_sleep os_locate opts true (manifest_json es) w
  = (Ok tt,
     World (<[md5sums := join (md5_lines es)]> (fs w))
           (log w ++ (OpenW md5sums :: map (WriteTo md5sums) (md5_lines es))
                  ++ map (fun e => Print (e_link e)) es)).
Proof.
  intros Hw. rewrite main_entries, Hw. unfold write_links.
  change (String.eqb "-" "-") with true. cbn match.
  rewrite print_links_loop. cbn [fs log]. rewrite <- app_assoc. reflexivity.
Qed.

(** X6: [--wget target] for a [target] other than [-], on a manifest.
    When [target] can be opened for writing, as the file [k] of the working
    directory, the run ends normally with the links, one per line and in
    manifest order, as the whole content of [k], written after the checksum
    manifest, and nothing is printed on standard output; when [k] is
    [md5sums.txt] (for a target such as [./md5sums.txt]) the link list
    replaces the checksums.  When [target] cannot be opened (the empty name,
    for one), the run ends with the exception of [open] once the checksum
    manifest is written, and no link is written anywhere. *)
Theorem link_list_in_file (target : string) (es : list FileEntry) (w : world) :
  wget opts = Some target ->
  target <> "-" ->
  (forall k : string,
      file_key os_locate target = Found k ->
      exists w',
        main hashlib_new wget_download time_sleep os_locate opts true (manifest_json es) w
        = (Ok tt, w')
        /\ fs w' = <[k := join (link_lines es)]>
                     (<[md5sums := join (md5_lines es)]> (fs w))
        /\ fs w' !! k = Some (join (link_lines es))
        /\ log w' = log w ++ (OpenW md5sums :: map (WriteTo md5sums) (md5_lines es))
                          ++ OpenW k :: map (WriteTo k) (link_lines es))
  /\ (forall e : exn,
        file_key os_locate target = Refused e ->
        main hashlib_new wget_download time_sleep os_locate opts true (manifest_json es) w
        = (Raise e,
           World (<[md5sums := join (md5_lines es)]> (fs w))
                 (log w ++ OpenW md5sums :: map (WriteTo md5sums) (md5_lines es))))
  /\ (target = EmptyString ->
      fst (main hashlib_new wget_download time_sleep os_locate opts true (manifest_json es) w)
      = Raise (FileNotFoundError EmptyString)).
Proof.
  intros Hw Hne. rewrite main_entries, Hw. unfold write_links.
  destruct (String.eqb_spec target "-") as [->|_]; [contradiction |].
  split; [| split].
  - intros k Hk.
    rewrite (bind_ok _ _ _ _ _ (open_wt_found _ _ _ _ Hk)).
    rewrite (write_links_loop k es EmptyString).
    + eexists. split; [reflexivity |]. cbn [fs log].
      rewrite insert_insert_eq. split; [reflexivity | split].
      * apply lookup_insert_eq.
      * rewrite <- !app_assoc. reflexivity.
    + cbn [fs]. apply lookup_insert_eq.
  - intros e He. apply bind_raise, open_wt_refused, He.
  - intros ->. reflexivity.
Qed.

(** ** What a run never does *)

Lemma exits_bind {A B} (S : Z -> Prop) (m : M A) (k : A -> M B) :
  exits_in S m -> (forall a, exits_in S (k a)) -> exits_in S (m ≫= k).
Proof.
  intros Hm Hk w c. rewrite bind_unfold.
  specialize (Hm w). destruct (m w) as [[a|e|c'] w1]; cbn [fst] in *.
  - apply Hk.
  - discriminate.
  - intros E. injection E as <-. apply Hm. reflexivity.
Qed.

Lemma exits_for_each {A} (S : Z -> Prop) (xs : list A) (body : A -> M unit) :
  (forall x, exits_in S (body x)) -> exits_in S (for_each xs body).
Proof.
  intros Hb. induction xs as [|x xs IH]; cbn [for_each].
  - intros w c E. discriminate E.
  - apply exits_bind; [apply Hb | intros _; exact IH].
Qed.

Lemma exits_ret {A} (S : Z -> Prop) (a : A) : exits_in S (mret a).
Proof. intros w c E. discriminate E. Qed.

Lemma exits_raise {A} (S : Z -> Prop) (e : exn) : exits_in S (@raise A e).
Proof. intros w c E. discriminate E. Qed.

Lemma exits_sys_exit {A} (S : Z -> Prop) (c : Z) : S c -> exits_in S (@sys_exit A c).
Proof. intros Hc w c' E. injection E as <-. exact Hc. Qed.

Lemma exits_emit (S : Z -> Prop) (e : event) : exits_in S (emit e).
Proof. intros w c E. discriminate E. Qed.

Lemma exits_getitem {A} (S : Z -> Prop) (k : string) (field : option A) :
  exits_in S (getitem k field).
Proof. destruct field; intros w c E; discriminate E. Qed.

Lemma exits_open_wt (S : Z -> Prop) (path : string) :
  exits_in S (open_wt os_locate path).
Proof.
  intros w c. unfold open_wt. destruct (file_key os_locate path); intros E; discriminate E.
Qed.

Lemma exits_write (S : Z -> Prop) (path s : string) : exits_in S (write path s).
Proof. intros w c E. discriminate E. Qed.

Lemma exits_os_remove (S : Z -> Prop) (path : string) : exits_in S (os_remove path).
Proof. intros w c. unfold os_remove. destruct (fs w !! path); intros E; discriminate E. Qed.

Lemma exits_sleep (S : Z -> Prop) (p : Q) : exits_in S (sleep time_sleep p).
Proof. intros w c. unfold sleep. destruct (time_sleep p); intros E; discriminate E. Qed.

Lemma exits_download (S : Z -> Prop) (link : string) :
  exits_in S (download wget_download link).
Proof.
  intros w c. unfold download. destruct (wget_download link w). intros E; discriminate E.
Qed.

Lemma exits_check_hash (S : Z -> Prop) (filename checksum : string) :
  exits_in S (check_hash hashlib_new filename checksum).
Proof.
  unfold check_hash. apply exits_bind.
  { intros w c. destruct (split ":" checksum) as [|a [|b [|x l]]]; intros E; discriminate E. }
  intros [algorithm value]. apply exits_bind.
  { intros w c E. discriminate E. }
  intros present. destruct (negb present); [apply exits_ret |].
  destruct (hashlib_new algorithm) as [H|]; [| apply exits_raise].
  apply exits_bind; [| intros f; apply exits_ret].
  intros w c. unfold open_rb. destruct (fs w !! filename); intros E; discriminate E.
Qed.

Lemma exits_retry_loop (S : Z -> Prop) (n : nat) (link : string) :
  exits_in S (retry_loop wget_download time_sleep opts n link).
Proof.
  induction n as [|n IH]; cbn [retry_loop]; [apply exits_ret |].
  apply exits_bind; [apply exits_download | intros [filename|]]; [apply exits_ret |].
  apply exits_bind; [apply exits_emit | intros _].
  apply exits_bind; [apply exits_sleep | intros _; exact IH].
Qed.

Lemma exits_write_md5sums (S : Z -> Prop) (fl : list file_json) :
  exits_in S (write_md5sums os_locate fl).
Proof.
  unfold write_md5sums. apply exits_bind; [apply exits_open_wt | intros md5file].
  apply exits_for_each. intros f.
  apply exits_bind; [apply exits_getitem | intros fname].
  apply exits_bind; [apply exits_getitem | intros cs]. apply exits_write.
Qed.

Lemma exits_write_links (S : Z -> Prop) (target : string) (fl : list file_json) :
  exits_in S (write_links os_locate target fl).
Proof.
  unfold write_links. destruct (String.eqb target "-").
  - apply exits_for_each. intros f.
    apply exits_bind; [apply exits_getitem | intros l].
    apply exits_bind; [apply exits_getitem | intros link]. apply exits_emit.
  - apply exits_bind; [apply exits_open_wt | intros md5file].
    apply exits_for_each. intros f.
    apply exits_bind; [apply exits_getitem | intros l].
    apply exits_bind; [apply exits_getitem | intros link]. apply exits_write.
Qed.

Lemma exits_sum_sizes (S : Z -> Prop) (fl : list file_json) (acc : Z) :
  exits_in S (sum_sizes acc fl).
Proof.
  revert acc. induction fl as [|f fl IH]; intros acc; cbn [sum_sizes]; [apply exits_ret |].
  apply exits_bind; [apply exits_getitem | intros sz; apply IH].
Qed.

Lemma exits_div_mb (S : Z -> Prop) (n : Z) : exits_in S (div_mb n).
Proof. intros w c. unfold div_mb. destruct (mb_overflows n); intros E; discriminate E. Qed.

(** The exits of the loop body: both are taken only when continue-on-error
    is unset. *)
Lemma exits_process_file (S : Z -> Prop) (f : file_json) :
  (error opts = false -> S 0%Z /\ S 1%Z) ->
  exits_in S (process_file hashlib_new wget_download time_sleep opts f).
Proof.
  intros HS. unfold process_file.
  apply exits_bind; [apply exits_getitem | intros l].
  apply exits_bind; [apply exits_getitem | intros link].
  apply exits_bind; [apply exits_getitem | intros sz].
  apply exits_bind; [apply exits_div_mb | intros _].
  apply exits_bind; [apply exits_emit | intros _].
  apply exits_bind; [apply exits_emit | intros _].
  apply exits_bind; [apply exits_getitem | intros fname].
  apply exits_bind; [apply exits_getitem | intros checksum].
  unfold fetch_file.
  apply exits_bind; [apply exits_check_hash | intros [remote_hash local_hash]].
  destruct (String.eqb remote_hash local_hash && cont opts); [apply exits_emit |].
  apply exits_bind; [apply exits_retry_loop | intros [filename|]].
  - apply exits_bind; [apply exits_emit | intros _].
    apply exits_bind; [apply exits_check_hash | intros [h1 h2]].
    destruct (String.eqb h1 h2); [apply exits_emit |].
    unfold on_mismatch.
    apply exits_bind; [apply exits_emit | intros _].
    apply exits_bind.
    { destruct (negb (keep opts)); [| apply exits_emit].
      apply exits_bind; [apply exits_emit | intros _; apply exits_os_remove]. }
    intros _. destruct (error opts) eqn:Herr; cbn [negb]; [apply exits_ret |].
    apply exits_sys_exit, HS. reflexivity.
  - destruct (error opts) eqn:Herr; cbn [negb]; [apply exits_emit |].
    apply exits_bind; [apply exits_emit | intros _].
    apply exits_sys_exit, HS. reflexivity.
Qed.

Lemma exits_main (S : Z -> Prop) (r_ok : bool) (js : record_json) :
  (r_ok = false -> S 1%Z) ->
  (error opts = false -> S 0%Z /\ S 1%Z) ->
  exits_in S (main hashlib_new wget_download time_sleep os_locate opts r_ok js).
Proof.
  intros Hnot HS. unfold main. destruct r_ok.
  - apply exits_bind; [apply exits_getitem | intros fl].
    apply exits_bind; [apply exits_sum_sizes | intros total].
    apply exits_bind.
    { cbn [is_not_None]. apply exits_write_md5sums. }
    intros _. destruct (wget opts) as [target|]; [apply exits_write_links |].
    unfold download_loop, file_loop.
    apply exits_bind; [apply exits_div_mb | intros _].
    apply exits_bind; [apply exits_emit | intros _].
    apply exits_bind; [| intros _; apply exits_emit].
    apply exits_for_each. intros f. apply exits_process_file, HS.
  - apply exits_bind; [apply exits_emit | intros _].
    apply exits_sys_exit, Hnot. reflexivity.
Qed.


Lemma bind_ok_inv {A B} (m : M A) (k : A -> M B) (w : world) (b : B) :
  fst ((m ≫= k) w) = Ok b ->
  exists a w1, m w = (Ok a, w1) /\ (m ≫= k) w = k a w1.
Proof.
  rewrite bind_unfold. destruct (m w) as [[a|e|c] w1]; cbn [fst]; try discriminate.
  intros _. exists a, w1. split; reflexivity.
Qed.

Lemma on_mismatch_continues (filename h1 h2 : string) (w : world) :
  error opts = true ->
  (keep opts = false -> is_Some (fs w !! filename)) ->
  on_mismatch opts filename h1 h2 w
  = (Ok tt,
     World (if keep opts then fs w else delete filename (fs w))
           (log w ++ Eprint (NChecksumIncorrect h1 h2)
                  :: (if keep opts then [Eprint NFileNotDeleted]
                      else [Eprint NFileDeleted; Remove filename]))).
Proof.
  intros Herr Hfile. unfold on_mismatch. rewrite Herr. cbn [negb].
  destruct (keep opts); cbn [negb].
  - unfold eprint, emit. rewrite !bind_unfold. cbn [fs log mret M_ret].
    rewrite <- !app_assoc. reflexivity.
  - destruct (Hfile eq_refl) as [content Hfs].
    unfold eprint, emit, os_remove. rewrite !bind_unfold. cbn [fs log].
    rewrite Hfs. cbn [mret M_ret]. rewrite <- !app_assoc. reflexivity.
Qed.

(** X8: with continue-on-error set, a run on a fetched record never calls
    [sys.exit], and neither a download failure nor a checksum mismatch stops
    the loop.  A file whose download attempts all fail gets the notice that
    it is skipped, and the loop goes on with the next file; a downloaded file
    with a wrong digest is reported and removed (or kept, with [--keep]), and
    the loop goes on with the next file.  In download mode, a run that ends
    normally has the completion notice as its last event. *)
Theorem continue_on_error_never_exits (js : record_json) (w : world) :
  error opts = true ->
  (forall c, fst (main hashlib_new wget_download time_sleep os_locate opts true js w) <> SysExit c)
  /\ (wget opts = None ->
      fst (main hashlib_new wget_download time_sleep os_locate opts true js w) = Ok tt ->
      exists l,
        log (snd (main hashlib_new wget_download time_sleep os_locate opts true js w))
        = l ++ [Eprint NAllDone])
  /\ (forall (e : FileEntry) (fl : list file_json) (rh lh : string) (w0 : world),
        mb_overflows (e_size e) = false ->
        fst (check_hash hashlib_new (e_name e) (e_checksum e)
               (World (fs w0)
                      (log w0 ++ [Eprint NBlank; Eprint (NLink (e_link e) (e_size e))])))
        = Ok (rh, lh) ->
        String.eqb rh lh && cont opts = false ->
        time_sleep (pause opts) = None ->
        (forall w', fst (wget_download (e_link e) w') = None) ->
        exists fs',
          file_loop hashlib_new wget_download time_sleep opts (entry_json e :: fl) w0
          = file_loop hashlib_new wget_download time_sleep opts fl
              (World fs'
                     (log w0 ++ [Eprint NBlank; Eprint (NLink (e_link e) (e_size e))]
                        ++ concat (replicate (Z.to_nat (retry opts + 1))
                                     (failed_attempt (e_link e) (pause opts)))
                        ++ [Eprint NSkipped])))
  /\ (forall (e : FileEntry) (fl : list file_json) (rh lh filename h1 h2 : string)
             (w0 w2 : world),
        mb_overflows (e_size e) = false ->
        fst (check_hash hashlib_new (e_name e) (e_checksum e)
               (World (fs w0)
                      (log w0 ++ [Eprint NBlank; Eprint (NLink (e_link e) (e_size e))])))
        = Ok (rh, lh) ->
        String.eqb rh lh && cont opts = false ->
        retry_loop wget_download time_sleep opts (Z.to_nat (retry opts + 1)) (e_link e)
          (World (fs w0) (log w0 ++ [Eprint NBlank; Eprint (NLink (e_link e) (e_size e))]))
        = (Ok (Some filename), w2) ->
        fst (check_hash hashlib_new filename (e_checksum e)
               (World (fs w2) (log w2 ++ [Eprint NBlank])))
        = Ok (h1, h2) ->
        h1 <> h2 ->
        (keep opts = false -> is_Some (fs w2 !! filename)) ->
        file_loop hashlib_new wget_download time_sleep opts (entry_json e :: fl) w0
        = file_loop hashlib_new wget_download time_sleep opts fl
            (World (if keep opts then fs w2 else delete filename (fs w2))
                   (log w2 ++ [Eprint NBlank; Eprint (NChecksumIncorrect h1 h2)]
                      ++ (if keep opts then [Eprint NFileNotDeleted]
                          else [Eprint NFileDeleted; Remove filename])))).
Proof.
  intros Herr. split; [| split; [| split]].
  - intros c E.
    apply (exits_main (fun _ => False) true js) in E; [exact E | discriminate |].
    rewrite Herr. discriminate.
  - intros Hw. unfold main. rewrite Hw. cbn [is_not_None]. intros Hok.
    destruct (bind_ok_inv _ _ _ _ Hok) as (fl & w1 & _ & E).
    rewrite E in Hok |- *. clear E.
    destruct (bind_ok_inv _ _ _ _ Hok) as (total & w2 & _ & E).
    rewrite E in Hok |- *. clear E.
    destruct (bind_ok_inv _ _ _ _ Hok) as (u & w3 & _ & E).
    rewrite E in Hok |- *. clear E.
    unfold download_loop in *.
    destruct (bind_ok_inv _ _ _ _ Hok) as (u0 & w4 & _ & E).
    rewrite E in Hok |- *. clear E.
    destruct (bind_ok_inv _ _ _ _ Hok) as (u1 & w5 & _ & E).
    rewrite E in Hok |- *. clear E.
    destruct (bind_ok_inv _ _ _ _ Hok) as (u2 & w6 & _ & E).
    rewrite E. exists (log w6). reflexivity.
  - intros e fl rh lh w0 Hsz Hcheck Hskip Hp Hfail.
    set (w1 := World (fs w0)
                     (log w0 ++ [Eprint NBlank; Eprint (NLink (e_link e) (e_size e))])) in *.
    destruct (retry_loop_all_fail wget_download time_sleep opts
                (Z.to_nat (retry opts + 1)) (e_link e) w1 Hp Hfail) as [fs' E].
    exists fs'. unfold file_loop. cbn [for_each].
    rewrite (bind_ok _ _ w0
               (World fs'
                      (log w0 ++ [Eprint NBlank; Eprint (NLink (e_link e) (e_size e))]
                         ++ concat (replicate (Z.to_nat (retry opts + 1))
                                      (failed_attempt (e_link e) (pause opts)))
                         ++ [Eprint NSkipped])) tt); [reflexivity |].
    rewrite (process_file_entry hashlib_new wget_download time_sleep opts e w0 Hsz).
    fold w1. unfold fetch_file.
    rewrite (bind_ok _ _ _ _ _ (check_hash_fst hashlib_new _ _ _ _ Hcheck)). rewrite Hskip.
    rewrite (bind_ok _ _ _ _ _ E). rewrite Herr. cbn [negb].
    unfold eprint, emit, w1. cbn [fs log]. rewrite <- !app_assoc. reflexivity.
  - intros e fl rh lh filename h1 h2 w0 w2 Hsz Hcheck Hskip Hretry Hpost Hne Hfile.
    unfold file_loop. cbn [for_each].
    rewrite (bind_ok _ _ w0
               (World (if keep opts then fs w2 else delete filename (fs w2))
                      (log w2 ++ [Eprint NBlank; Eprint (NChecksumIncorrect h1 h2)]
                         ++ (if keep opts then [Eprint NFileNotDeleted]
                             else [Eprint NFileDeleted; Remove filename]))) tt);
      [reflexivity |].
    rewrite (process_file_entry hashlib_new wget_download time_sleep opts e w0 Hsz).
    rewrite (fetch_file_mismatch hashlib_new wget_download time_sleep opts
               _ _ _ _ _ _ _ _ _ _ Hcheck Hskip Hretry Hpost Hne).
    rewrite (on_mismatch_continues filename h1 h2
               (World (fs w2) (log w2 ++ [Eprint NBlank])) Herr Hfile).
    cbn [fs log]. rewrite <- app_assoc. reflexivity.
Qed.

(** *** Which events a run can add, for a family of events *)

Lemma only_fetch_file_general (P : event -> Prop) (link fname checksum : string) :
  (forall n, P (Eprint n)) ->
  only P (retry_loop wget_download time_sleep opts (Z.to_nat (retry opts + 1)) link) ->
  (keep opts = false -> forall f, P (Remove f)) ->
  only P (fetch_file hashlib_new wget_download time_sleep opts link fname checksum).
Proof.
  intros Hn Hretry Hrm. unfold fetch_file.
  apply only_bind; [apply only_check_hash | intros [remote_hash local_hash]].
  destruct (String.eqb remote_hash local_hash && cont opts); [apply only_eprint, Hn |].
  apply only_bind; [exact Hretry | intros [filename|]].
  - apply only_bind; [apply only_eprint, Hn | intros _].
    apply only_bind; [apply only_check_hash | intros [h1 h2]].
    destruct (String.eqb h1 h2); [apply only_eprint, Hn |].
    unfold on_mismatch.
    apply only_bind; [apply only_eprint, Hn | intros _].
    apply only_bind.
    + destruct (keep opts) eqn:Hkeep; cbn [negb]; [apply only_eprint, Hn |].
      apply only_bind; [apply only_eprint, Hn | intros _].
      apply only_os_remove, Hrm. reflexivity.
    + intros _. destruct (negb (error opts)); apply pure_only; [apply pure_exit | apply pure_ret].
  - destruct (negb (error opts)); [| apply only_eprint, Hn].
    apply only_bind; [apply only_eprint, Hn | intros _]. apply pure_only, pure_exit.
Qed.

Lemma only_main_general (P : event -> Prop) (r_ok : bool) (js : record_json) :
  (forall n, P (Eprint n)) ->
  (forall e, is_output e = true -> P e) ->
  (forall link,
      only P (retry_loop wget_download time_sleep opts (Z.to_nat (retry opts + 1)) link)) ->
  (keep opts = false -> forall f, P (Remove f)) ->
  only P (main hashlib_new wget_download time_sleep os_locate opts r_ok js).
Proof.
  intros Hn Hout Hretry Hrm. unfold main. destruct r_ok.
  - apply only_bind; [apply only_getitem | intros fl].
    apply only_bind; [apply pure_only, pure_sum_sizes | intros total].
    apply only_bind.
    { cbn [is_not_None]. eapply only_weaken; [exact Hout | apply only_write_md5sums]. }
    intros _. destruct (wget opts) as [target|].
    { eapply only_weaken; [exact Hout | apply only_write_links]. }
    unfold download_loop, file_loop.
    apply only_bind; [apply pure_only, pure_div_mb | intros _].
    apply only_bind; [apply only_eprint, Hn | intros _].
    apply only_bind; [| intros _; apply only_eprint, Hn].
    apply only_for_each. intros f. unfold process_file.
    apply only_bind; [apply only_getitem | intros l].
    apply only_bind; [apply only_getitem | intros link].
    apply only_bind; [apply only_getitem | intros sz].
    apply only_bind; [apply pure_only, pure_div_mb | intros _].
    apply only_bind; [apply only_eprint, Hn | intros _].
    apply only_bind; [apply only_eprint, Hn | intros _].
    apply only_bind; [apply only_getitem | intros fname].
    apply only_bind; [apply only_getitem | intros checksum].
    apply only_fetch_file_general; [exact Hn | apply Hretry | exact Hrm].
  - apply only_bind; [apply only_eprint, Hn | intros _]. apply pure_only, pure_exit.
Qed.

(** X9: with [--keep], the script never removes a file: no run contains a
    call of [os.remove], whatever the downloads and the checksums turn out
    to be. *)
Theorem keep_never_removes (r_ok : bool) (js : record_json) (w : world) :
  keep opts = true ->
  exists evs,
    log (snd (main hashlib_new wget_download time_sleep os_locate opts r_ok js w)) = log w ++ evs
    /\ Forall (fun e => is_remove e = false) evs.
Proof.
  intros Hkeep.
  apply (only_main_general (fun e => is_remove e = false) r_ok js).
  - reflexivity.
  - intros [] He; try discriminate He; reflexivity.
  - intros link. eapply only_weaken; [| apply only_retry_loop].
    intros [] He; try discriminate He; reflexivity.
  - rewrite Hkeep. discriminate.
Qed.

(** X10: a negative retry count leaves the retry loop without a single
    iteration: no run invokes the download collaborator, and a file that the
    pre-check does not skip goes straight to the exhaustion branch, which
    with continue-on-error unset ends the run with the abort notice. *)
Theorem negative_retry_never_downloads :
  (retry opts < 0)%Z ->
  (forall (r_ok : bool) (js : record_json) (w : world),
      exists evs,
        log (snd (main hashlib_new wget_download time_sleep os_locate opts r_ok js w)) = log w ++ evs
        /\ Forall (fun e => is_download e = false) evs)
  /\ (forall (link fname checksum remote_hash local_hash : string) (w : world),
        error opts = false ->
        check_hash hashlib_new fname checksum w = (Ok (remote_hash, local_hash), w) ->
        String.eqb remote_hash local_hash && cont opts = false ->
        fetch_file hashlib_new wget_download time_sleep opts link fname checksum w
        = (SysExit 0, World (fs w) (log w ++ [Eprint NAborted]))).
Proof.
  intros Hneg.
  assert (Hzero : Z.to_nat (retry opts + 1) = 0) by lia.
  split.
  - intros r_ok js w.
    apply (only_main_general (fun e => is_download e = false) r_ok js).
    + reflexivity.
    + intros [] He; try discriminate He; reflexivity.
    + intros link. rewrite Hzero. apply pure_only, pure_ret.
    + reflexivity.
  - intros link fname checksum remote_hash local_hash w Herr Hcheck Hpre.
    apply (fetch_file_exhausted hashlib_new wget_download time_sleep opts
             link fname checksum remote_hash local_hash w w Herr Hcheck Hpre).
    rewrite Hzero. reflexivity.
Qed.

(** *** The outcomes of one file *)

Lemma only_after_retry (checksum : string) (r : option string) :
  only (fun _ => True)
    (match r with
     | None =>
         if negb (error opts) then eprint NAborted;; sys_exit 0 else eprint NSkipped
     | Some filename =>
         eprint NBlank;;
         '(h1, h2) ← check_hash hashlib_new filename checksum;
         if String.eqb h1 h2 then eprint (NChecksumCorrect h1)
         else on_mismatch opts filename h1 h2
     end).
Proof.
  destruct r as [filename|].
  - apply only_bind; [apply only_eprint; exact I | intros _].
    apply only_bind; [apply only_check_hash | intros [h1 h2]].
    destruct (String.eqb h1 h2); [apply only_eprint; exact I | apply only_on_mismatch].
  - destruct (negb (error opts)); [| apply only_eprint; exact I].
    apply only_bind; [apply only_eprint; exact I | intros _]. apply pure_only, pure_exit.
Qed.

(** X11: with [--do-not-continue] and a retry count that is not negative,
    the pre-check never skips a file: whenever the check of the local file
    returns, also with equal digests, the next thing the script does is to
    invoke the download. *)
Theorem do_not_continue_always_downloads (link fname checksum : string)
        (p : string * string) (w : world) :
  cont opts = false ->
  (0 <= retry opts)%Z ->
  fst (check_hash hashlib_new fname checksum w) = Ok p ->
  exists tl,
    log (snd (fetch_file hashlib_new wget_download time_sleep opts link fname checksum w))
    = log w ++ Download link :: tl.
Proof.
  intros Hcont Hretry Hcheck.
  assert (E : check_hash hashlib_new fname checksum w = (Ok p, w)).
  { pose proof (pure_check_hash hashlib_new fname checksum w) as Hw.
    destruct (check_hash hashlib_new fname checksum w) as [r w']; cbn [fst snd] in *.
    subst. reflexivity. }
  unfold fetch_file. rewrite (bind_ok _ _ _ _ _ E). destruct p as [remote_hash local_hash].
  rewrite Hcont, andb_false_r.
  destruct (Z.to_nat (retry opts + 1)) as [|n] eqn:En; [lia |].
  cbn [retry_loop]. rewrite !bind_unfold. unfold download at 1.
  destruct (wget_download link w) as [r fs1].
  pose (w1 := World fs1 (log w ++ [Download link])).
  assert (Hrest : only (fun _ => True)
            ((match r with
              | Some filename => mret (Some filename)
              | None =>
                  eprint NDownloadError;; sleep time_sleep (pause opts);;
                  retry_loop wget_download time_sleep opts n link
              end) ≫= (fun r0 =>
                match r0 with
                | None =>
                    if negb (error opts) then eprint NAborted;; sys_exit 0
                    else eprint NSkipped
                | Some filename =>
                    eprint NBlank;;
                    '(h1, h2) ← check_hash hashlib_new filename checksum;
                    if String.eqb h1 h2 then eprint (NChecksumCorrect h1)
                    else on_mismatch opts filename h1 h2
                end))).
  { apply only_bind; [| intros r0; apply only_after_retry].
    destruct r as [filename|]; [apply pure_only, pure_ret |].
    apply only_bind; [apply only_eprint; exact I | intros _].
    apply only_bind; [apply only_sleep; exact I | intros _].
    eapply only_weaken; [| apply only_retry_loop]. intros; exact I. }
  destruct (Hrest w1) as (tl & Htl & _).
  exists tl. transitivity (log w1 ++ tl); [exact Htl |].
  unfold w1. cbn [log]. rewrite <- app_assoc. reflexivity.
Qed.

Lemma downloads_app (l1 l2 : list event) :
  downloads (l1 ++ l2) = downloads l1 ++ downloads l2.
Proof. unfold downloads. apply omap_app. Qed.

(** X12: the first success wins.  When the collaborator fails [k] times in
    a row and then succeeds, with [k] below the number of attempts allowed,
    the retry loop makes exactly [k + 1] download calls: [k] failed ones,
    each with its notice and its sleep, and the successful one, made in the
    world [wk] that the failed attempts left.  The loop stops there: it
    returns the file name that this last call returned, and the working
    directory is as this call left it. *)
Theorem retry_until_success (k n : nat) (link : string) (w : world) :
  k < n ->
  time_sleep (pause opts) = None ->
  (forall w', List.length (downloads (log w')) < List.length (downloads (log w)) + k ->
              fst (wget_download link w') = None) ->
  (forall w', List.length (downloads (log w')) = List.length (downloads (log w)) + k ->
              fst (wget_download link w') <> None) ->
  exists (wk : world) (filename : string),
    log wk = log w ++ concat (replicate k (failed_attempt link (pause opts)))
    /\ (k = 0 -> wk = w)
    /\ fst (wget_download link wk) = Some filename
    /\ retry_loop wget_download time_sleep opts n link w
       = (Ok (Some filename),
          World (snd (wget_download link wk)) (log wk ++ [Download link]))
    /\ downloads (log wk ++ [Download link]) = downloads (log w) ++ replicate (S k) link.
Proof.
  intros Hlt Hp. revert n w Hlt.
  induction k as [|k IH]; intros n w Hlt Hfail Hsucc.
  - destruct n as [|n]; [lia |].
    specialize (Hsucc w (eq_sym (Nat.add_0_r _))).
    destruct (fst (wget_download link w)) as [filename|] eqn:E; [| contradiction].
    exists w, filename. cbn [replicate concat]. rewrite app_nil_r.
    split; [reflexivity | split; [reflexivity | split; [exact E | split]]].
    + apply (retry_loop_succeeds wget_download time_sleep opts n link filename w E).
    + rewrite downloads_app. reflexivity.
  - destruct n as [|n]; [lia |].
    assert (E : fst (wget_download link w) = None) by (apply Hfail; lia).
    set (w1 := World (snd (wget_download link w))
                     (((log w ++ [Download link]) ++ [Eprint NDownloadError])
                        ++ [Sleep (pause opts)])).
    assert (Hstep : retry_loop wget_download time_sleep opts (S n) link w
                    = retry_loop wget_download time_sleep opts n link w1).
    { cbn [retry_loop].
      rewrite (bind_ok _ _ _ _ _ (download_fails wget_download link w E)).
      rewrite bind_unfold. cbn [eprint emit fs log].
      rewrite bind_unfold, (sleep_ok time_sleep _ _ Hp). reflexivity. }
    assert (Hlog1 : log w1 = log w ++ failed_attempt link (pause opts)).
    { unfold w1, failed_attempt. cbn [log]. rewrite <- !app_assoc. reflexivity. }
    assert (Hlen : List.length (downloads (log w1)) = S (List.length (downloads (log w)))).
    { rewrite Hlog1, downloads_app, length_app. cbn. lia. }
    destruct (IH n w1) as (wk & filename & Hlogk & _ & Hname & Eq & Hdl).
    + lia.
    + intros w' Hw'. apply Hfail. lia.
    + intros w' Hw'. apply Hsucc. lia.
    + exists wk, filename.
      split; [| split; [discriminate | split; [exact Hname | split]]].
      * rewrite Hlogk, Hlog1. cbn [replicate concat]. rewrite <- app_assoc. reflexivity.
      * rewrite Hstep. exact Eq.
      * rewrite Hdl, Hlog1, downloads_app. rewrite <- app_assoc. reflexivity.
Qed.

(** X13: a file that is not in the working directory, and whose declared
    size passes the conversion to megabytes of line 200, is downloaded and
    verified: when the collaborator stores a file whose digest is the
    expected one, the loop body makes one download, reports the checksum as
    correct, leaves the file where the collaborator put it, and ends normally
    (the loop goes on with the next file). *)
Theorem download_and_verify (e : FileEntry) (algorithm expected content filename : string)
        (fs2 : gmap string string) (H : hasher) (w : world) :
  mb_overflows (e_size e) = false ->
  e_checksum e = algorithm +:+ ":" +:+ expected ->
  has_char ":" algorithm = false ->
  is_hexdigest expected = true ->
  hashlib_new algorithm = Some H ->
  fs w !! e_name e = None ->
  (0 <= retry opts)%Z ->
  wget_download (e_link e)
    (World (fs w) (log w ++ [Eprint NBlank; Eprint (NLink (e_link e) (e_size e))]))
  = (Some filename, fs2) ->
  fs2 !! filename = Some content ->
  stream_digest H content = expected ->
  process_file hashlib_new wget_download time_sleep opts (entry_json e) w
  = (Ok tt,
     World fs2 (log w ++ [Eprint NBlank; Eprint (NLink (e_link e) (e_size e));
                          Download (e_link e); Eprint NBlank;
                          Eprint (NChecksumCorrect expected)])).
Proof.
  intros Hsz Hsum Ha Hhex Hh Hfs Hretry Hdl Hfs2 Hd.
  pose proof (hexdigest_no_colon expected Hhex) as He.
  pose proof (split_checksum algorithm expected Ha He) as Hsplit.
  rewrite process_file_entry by exact Hsz. unfold fetch_file. rewrite Hsum.
  set (w1 := World (fs w) (log w ++ [Eprint NBlank; Eprint (NLink (e_link e) (e_size e))]))
    in *.
  rewrite (bind_ok _ _ _ _ _
             (check_hash_absent hashlib_new (e_name e) algorithm expected w1 Hsplit Hfs)).
  assert (Hneq : String.eqb expected "invalid" = false).
  { destruct (String.eqb_spec expected "invalid") as [->|]; [discriminate Hhex | reflexivity]. }
  rewrite Hneq. cbn [andb].
  destruct (Z.to_nat (retry opts + 1)) as [|n] eqn:En; [lia |].
  rewrite (bind_ok _ _ _ _ _
             (retry_loop_succeeds wget_download time_sleep opts n (e_link e) filename _
                (f_equal fst Hdl))).
  rewrite Hdl. cbn [snd].
  rewrite (bind_ok _ _ _ (World fs2 ((log w1 ++ [Download (e_link e)]) ++ [Eprint NBlank])) tt)
    by reflexivity.
  rewrite (bind_ok _ _ _ _ _
             (check_hash_present hashlib_new filename algorithm expected content H
                (World fs2 ((log w1 ++ [Download (e_link e)]) ++ [Eprint NBlank]))
                Hsplit Hfs2 Hh)).
  rewrite Hd, String.eqb_refl. unfold w1, eprint, emit. cbn [fs log].
  rewrite <- !app_assoc. reflexivity.
Qed.

(** X14: with continue-on-error set, a downloaded file with a wrong digest
    (and a declared size that passes the conversion to megabytes of line
    200) does not stop the loop: the body reports the mismatch, then removes the
    file (default) or keeps it ([--keep]), and ends normally, so the loop
    goes on with the next file. *)
Theorem mismatch_with_continue (e : FileEntry)
        (algorithm expected content filename : string)
        (fs2 : gmap string string) (H : hasher) (w : world) :
  error opts = true ->
  mb_overflows (e_size e) = false ->
  e_checksum e = algorithm +:+ ":" +:+ expected ->
  has_char ":" algorithm = false ->
  is_hexdigest expected = true ->
  hashlib_new algorithm = Some H ->
  fs w !! e_name e = None ->
  (0 <= retry opts)%Z ->
  wget_download (e_link e)
    (World (fs w) (log w ++ [Eprint NBlank; Eprint (NLink (e_link e) (e_size e))]))
  = (Some filename, fs2) ->
  fs2 !! filename = Some content ->
  stream_digest H content <> expected ->
  process_file hashlib_new wget_download time_sleep opts (entry_json e) w
  = (Ok tt,
     World (if keep opts then fs2 else delete filename fs2)
           (log w ++ [Eprint NBlank; Eprint (NLink (e_link e) (e_size e));
                      Download (e_link e); Eprint NBlank;
                      Eprint (NChecksumIncorrect expected (stream_digest H content))]
                  ++ (if keep opts then [Eprint NFileNotDeleted]
                      else [Eprint NFileDeleted; Remove filename]))).
Proof.
  intros Herr Hsz Hsum Ha Hhex Hh Hfs Hretry Hdl Hfs2 Hd.
  pose proof (hexdigest_no_colon expected Hhex) as He.
  pose proof (split_checksum algorithm expected Ha He) as Hsplit.
  rewrite process_file_entry by exact Hsz. unfold fetch_file. rewrite Hsum.
  set (w1 := World (fs w) (log w ++ [Eprint NBlank; Eprint (NLink (e_link e) (e_size e))]))
    in *.
  rewrite (bind_ok _ _ _ _ _
             (check_hash_absent hashlib_new (e_name e) algorithm expected w1 Hsplit Hfs)).
  assert (Hneq : String.eqb expected "invalid" = false).
  { destruct (String.eqb_spec expected "invalid") as [->|]; [discriminate Hhex | reflexivity]. }
  rewrite Hneq. cbn [andb].
  destruct (Z.to_nat (retry opts + 1)) as [|n] eqn:En; [lia |].
  rewrite (bind_ok _ _ _ _ _
             (retry_loop_succeeds wget_download time_sleep opts n (e_link e) filename _
                (f_equal fst Hdl))).
  rewrite Hdl. cbn [snd].
  rewrite (bind_ok _ _ _ (World fs2 ((log w1 ++ [Download (e_link e)]) ++ [Eprint NBlank])) tt)
    by reflexivity.
  rewrite (bind_ok _ _ _ _ _
             (check_hash_present hashlib_new filename algorithm expected content H
                (World fs2 ((log w1 ++ [Download (e_link e)]) ++ [Eprint NBlank]))
                Hsplit Hfs2 Hh)).
  assert (Hneq2 : String.eqb expected (stream_digest H content) = false).
  { destruct (String.eqb_spec expected (stream_digest H content)) as [E|]; [| reflexivity].
    symmetry in E. contradiction. }
  rewrite Hneq2. unfold on_mismatch. rewrite Herr. cbn [negb].
  destruct (keep opts); cbn [negb].
  - unfold w1, eprint, emit. rewrite !bind_unfold. cbn [fs log mret M_ret].
    rewrite <- !app_assoc. reflexivity.
  - unfold w1, eprint, emit, os_remove. rewrite !bind_unfold. cbn [fs log].
    rewrite Hfs2. cbn [mret M_ret]. rewrite <- !app_assoc. reflexivity.
Qed.

Lemma downloads_writes (path : string) (lines : list string) :
  downloads (map (WriteTo path) lines) = [].
Proof. induction lines as [|x xs IH]; [reflexivity | exact IH]. Qed.

Lemma locally_valid_insert (files_now : gmap string string) (path content : string)
      (e : FileEntry) :
  e_name e <> path ->
  locally_valid hashlib_new files_now e ->
  locally_valid hashlib_new (<[path := content]> files_now) e.
Proof.
  intros Hne (algorithm & expected & c & H & Hsum & Ha & He & Hh & Hfs & Hd).
  exists algorithm, expected, c, H. repeat split; try assumption.
  rewrite lookup_insert_ne by congruence. exact Hfs.
Qed.

(** X15: running the script again over a directory in which every file of
    the manifest is already valid downloads nothing and removes nothing: in
    "continue" mode the run rewrites the checksum manifest, skips every file
    and ends normally.  The file names are plain names of the working
    directory other than [md5sums.txt] (a name such as [./md5sums.txt]
    would be the checksum manifest that the run has just rewritten), and the
    declared sizes and their total pass the conversions to megabytes of
    lines 197 and 200. *)
Theorem rerun_is_idempotent (es : list FileEntry) (w : world) :
  cont opts = true ->
  wget opts = None ->
  Forall (fun e => plain_name (e_name e) = true /\ e_name e <> md5sums) es ->
  Forall (fun e => mb_overflows (e_size e) = false) es ->
  mb_overflows (sizes_total es) = false ->
  Forall (locally_valid hashlib_new (fs w)) es ->
  exists evs,
    main hashlib_new wget_download time_sleep os_locate opts true (manifest_json es) w
    = (Ok tt, World (<[md5sums := join (md5_lines es)]> (fs w)) (log w ++ evs))
    /\ downloads evs = []
    /\ Forall (fun e => is_remove e = false) evs.
Proof.
  intros Hcont Hw Hnames Hsizes Htotal Hvalid.
  rewrite (main_download_mode hashlib_new wget_download time_sleep os_locate opts es w Hw
             Htotal).
  set (w1 := World (<[md5sums := join (md5_lines es)]> (fs w))
                   (log w ++ (OpenW md5sums :: map (WriteTo md5sums) (md5_lines es))
                          ++ [Eprint (NTotalSize (sizes_total es))])).
  assert (Hvalid1 : Forall (locally_valid hashlib_new (fs w1)) es).
  { unfold w1. cbn [fs]. rewrite List.Forall_forall in *. intros e Hin.
    apply locally_valid_insert; [apply Hnames, Hin | apply Hvalid, Hin]. }
  assert (Hloop : forall (l : list FileEntry) (w0 : world),
             Forall (fun e => mb_overflows (e_size e) = false) l ->
             Forall (locally_valid hashlib_new (fs w0)) l ->
             exists evs,
               file_loop hashlib_new wget_download time_sleep opts (map entry_json l) w0
               = (Ok tt, World (fs w0) (log w0 ++ evs))
               /\ downloads evs = [] /\ Forall (fun e => is_notice e = true) evs).
  { induction l as [|e l IH]; intros w0 Hsz Hall.
    - exists []. rewrite app_nil_r. destruct w0. repeat split; constructor.
    - apply Forall_cons in Hsz as [Hsz Hsztl].
      apply Forall_cons in Hall
        as [(algorithm & expected & content & H & Hsum & Ha & He & Hh & Hfs & Hd) Htl].
      unfold file_loop in *. cbn [map for_each].
      rewrite (bind_ok _ _ _ _ _
                 (process_file_valid hashlib_new wget_download time_sleep opts
                    e algorithm expected content H w0 Hsz Hcont Hsum Ha He Hh Hfs Hd)).
      destruct (IH (World (fs w0)
                          (log w0 ++ [Eprint NBlank; Eprint (NLink (e_link e) (e_size e));
                                      Eprint (NAlready (e_name e))])) Hsztl Htl)
        as (evs & E & Hevs & Hnot).
      exists ([Eprint NBlank; Eprint (NLink (e_link e) (e_size e));
               Eprint (NAlready (e_name e))] ++ evs).
      rewrite E. cbn [fs log]. rewrite <- app_assoc.
      split; [reflexivity | split; [exact Hevs |]].
      repeat constructor. exact Hnot. }
  destruct (Hloop es w1 Hsizes Hvalid1) as (evs & E & Hevs & Hnot).
  rewrite (bind_ok _ _ _ _ _ E). unfold eprint, emit. cbn [fs log].
  exists ((OpenW md5sums :: map (WriteTo md5sums) (md5_lines es))
            ++ [Eprint (NTotalSize (sizes_total es))] ++ evs ++ [Eprint NAllDone]).
  split; [| split].
  - unfold w1. cbn [fs log]. rewrite <- !app_assoc. reflexivity.
  - rewrite !downloads_app, Hevs, app_nil_r.
    change (downloads (OpenW md5sums :: map (WriteTo md5sums) (md5_lines es)))
      with (downloads (map (WriteTo md5sums) (md5_lines es))).
    rewrite downloads_writes. reflexivity.
  - apply Forall_app. split.
    + constructor; [reflexivity |]. apply List.Forall_forall. intros x Hx.
      apply in_map_iff in Hx as (s & <- & _). reflexivity.
    + constructor; [reflexivity |]. apply Forall_app. split.
      * eapply Forall_impl; [exact Hnot |]. intros [] Hx; try discriminate Hx; reflexivity.
      * repeat constructor.
Qed.

End MoreFacts.

(** ** More runs on concrete inputs *)

Lemma link_list_on_stdout_witness :
  main echo_hashlib dl_fail py_sleep cwd_locate md5_wget_options true
       (manifest_json [file_a; file_b]) empty_world
  = (Ok tt,
     World (<[md5sums := join (md5_lines [file_a; file_b])]> (fs empty_world))
           (log empty_world
              ++ (OpenW md5sums :: map (WriteTo md5sums) (md5_lines [file_a; file_b]))
              ++ map (fun e => Print (e_link e)) [file_a; file_b])).
Proof.
  apply (link_list_on_stdout echo_hashlib dl_fail py_sleep cwd_locate md5_wget_options
           [file_a; file_b] empty_world).
  reflexivity.
Defined.

Lemma link_list_in_file_witness :
  (exists w',
     main echo_hashlib dl_fail py_sleep cwd_locate wget_alias_options true
          (manifest_json [file_a; file_b]) empty_world = (Ok tt, w')
     /\ fs w' = <[md5sums := join (link_lines [file_a; file_b])]>
                  (<[md5sums := join (md5_lines [file_a; file_b])]> (fs empty_world))
     /\ fs w' !! md5sums = Some (join (link_lines [file_a; file_b]))
     /\ log w' = log empty_world
                   ++ (OpenW md5sums :: map (WriteTo md5sums) (md5_lines [file_a; file_b]))
                   ++ OpenW md5sums
                        :: map (WriteTo md5sums) (link_lines [file_a; file_b]))
  /\ fst (main echo_hashlib dl_fail py_sleep cwd_locate wget_empty_options true
            (manifest_json [file_a; file_b]) empty_world)
     = Raise (FileNotFoundError EmptyString).
Proof.
  split.
  - apply (proj1 (link_list_in_file echo_hashlib dl_fail py_sleep cwd_locate
                    wget_alias_options "./md5sums.txt" [file_a; file_b] empty_world
                    eq_refl ltac:(discriminate))).
    reflexivity.
  - apply (proj2 (proj2 (link_list_in_file echo_hashlib dl_fail py_sleep cwd_locate
                           wget_empty_options EmptyString [file_a; file_b] empty_world
                           eq_refl ltac:(discriminate)))).
    reflexivity.
Defined.

Lemma continue_on_error_never_exits_witness :
  (forall c,
      fst (main echo_hashlib dl_fail py_sleep cwd_locate continue_options true
             (manifest_json [file_a; file_b]) empty_world) <> SysExit c)
  /\ (exists fs',
        file_loop echo_hashlib dl_fail py_sleep continue_options
          (entry_json file_a :: [entry_json file_b]) empty_world
        = file_loop echo_hashlib dl_fail py_sleep continue_options [entry_json file_b]
            (World fs'
                   (log empty_world
                      ++ [Eprint NBlank; Eprint (NLink (e_link file_a) (e_size file_a))]
                      ++ concat (replicate (Z.to_nat (retry continue_options + 1))
                                   (failed_attempt (e_link file_a) (pause continue_options)))
                      ++ [Eprint NSkipped])))
  /\ file_loop echo_hashlib (dl_save "abc") py_sleep continue_options
       (entry_json file_b :: [entry_json file_d]) empty_world
     = file_loop echo_hashlib (dl_save "abc") py_sleep continue_options [entry_json file_d]
         (World (if keep continue_options then fs world_b_alone
                 else delete "b.txt" (fs world_b_alone))
                (log world_b_alone
                   ++ [Eprint NBlank; Eprint (NChecksumIncorrect "def" "abc")]
                   ++ (if keep continue_options then [Eprint NFileNotDeleted]
                       else [Eprint NFileDeleted; Remove "b.txt"]))).
Proof.
  split; [| split].
  - apply (proj1 (continue_on_error_never_exits echo_hashlib dl_fail py_sleep cwd_locate
                    continue_options (manifest_json [file_a; file_b]) empty_world eq_refl)).
  - apply (proj1 (proj2 (proj2
             (continue_on_error_never_exits echo_hashlib dl_fail py_sleep cwd_locate
                continue_options (manifest_json [file_a; file_b]) empty_world eq_refl)))
             file_a [entry_json file_b] "abc" "invalid" empty_world).
    + reflexivity.
    + reflexivity.
    + reflexivity.
    + reflexivity.
    + intros w'. reflexivity.
  - apply (proj2 (proj2 (proj2
             (continue_on_error_never_exits echo_hashlib (dl_save "abc") py_sleep cwd_locate
                continue_options (manifest_json [file_b; file_d]) empty_world eq_refl)))
             file_b [entry_json file_d] "def" "invalid" "b.txt" "def" "abc"
             empty_world world_b_alone).
    + reflexivity.
    + reflexivity.
    + reflexivity.
    + vm_compute. reflexivity.
    + vm_compute. reflexivity.
    + discriminate.
    + intros _. exists "abc". vm_compute. reflexivity.
Defined.

Lemma keep_never_removes_witness :
  exists evs,
    log (snd (main echo_hashlib (dl_save "abc") py_sleep cwd_locate keep_options true
                (manifest_json [file_b; file_a]) empty_world))
    = log empty_world ++ evs
    /\ Forall (fun e => is_remove e = false) evs.
Proof.
  apply (keep_never_removes echo_hashlib (dl_save "abc") py_sleep cwd_locate keep_options true
           (manifest_json [file_b; file_a]) empty_world).
  reflexivity.
Defined.

Lemma negative_retry_never_downloads_witness :
  (forall (r_ok : bool) (js : record_json) (w : world),
      exists evs,
        log (snd (main echo_hashlib (dl_save "abc") py_sleep cwd_locate negative_retry_options r_ok js w))
        = log w ++ evs
        /\ Forall (fun e => is_download e = false) evs)
  /\ (forall (link fname checksum remote_hash local_hash : string) (w : world),
        error negative_retry_options = false ->
        check_hash echo_hashlib fname checksum w = (Ok (remote_hash, local_hash), w) ->
        String.eqb remote_hash local_hash && cont negative_retry_options = false ->
        fetch_file echo_hashlib (dl_save "abc") py_sleep negative_retry_options
          link fname checksum w
        = (SysExit 0, World (fs w) (log w ++ [Eprint NAborted]))).
Proof.
  apply (negative_retry_never_downloads echo_hashlib (dl_save "abc") py_sleep cwd_locate
           negative_retry_options).
  reflexivity.
Defined.

Lemma do_not_continue_always_downloads_witness :
  exists tl,
    log (snd (fetch_file echo_hashlib (dl_save "abc") py_sleep restart_options
                (e_link file_a) (e_name file_a) (e_checksum file_a) world_with_a))
    = log world_with_a ++ Download (e_link file_a) :: tl.
Proof.
  apply (do_not_continue_always_downloads echo_hashlib (dl_save "abc") py_sleep
           restart_options (e_link file_a) (e_name file_a) (e_checksum file_a)
           ("abc", "abc") world_with_a).
  - reflexivity.
  - vm_compute. discriminate.
  - vm_compute. reflexivity.
Defined.

Lemma retry_until_success_witness :
  exists (wk : world) (filename : string),
    log wk = log empty_world
               ++ concat (replicate 2 (failed_attempt (e_link file_a)
                                         (pause retry2_options)))
    /\ (2 = 0 -> wk = empty_world)
    /\ fst (dl_after 2 "abc" (e_link file_a) wk) = Some filename
    /\ retry_loop (dl_after 2 "abc") py_sleep retry2_options 3 (e_link file_a) empty_world
       = (Ok (Some filename),
          World (snd (dl_after 2 "abc" (e_link file_a) wk))
                (log wk ++ [Download (e_link file_a)]))
    /\ downloads (log wk ++ [Download (e_link file_a)])
       = downloads (log empty_world) ++ replicate 3 (e_link file_a).
Proof.
  apply (retry_until_success (dl_after 2 "abc") py_sleep retry2_options 2 3
           (e_link file_a) empty_world).
  - lia.
  - reflexivity.
  - intros w' Hw'. unfold dl_after.
    destruct (Nat.ltb_spec (List.length (downloads (log w'))) 2) as [_|Hge];
      [reflexivity | simpl in Hw'; lia].
  - intros w' Hw'. unfold dl_after.
    destruct (Nat.ltb_spec (List.length (downloads (log w'))) 2) as [Hlt|_];
      [simpl in Hw'; lia | discriminate].
Defined.

Lemma download_and_verify_witness :
  process_file echo_hashlib (dl_save "abc") py_sleep default_options
    (entry_json file_a) empty_world
  = (Ok tt,
     World {[ "a.txt" := "abc" ]}
           (log empty_world
              ++ [Eprint NBlank; Eprint (NLink (e_link file_a) (e_size file_a));
                  Download (e_link file_a); Eprint NBlank;
                  Eprint (NChecksumCorrect "abc")])).
Proof.
  apply (download_and_verify echo_hashlib (dl_save "abc") py_sleep default_options
           file_a "echo" "abc" "abc" "a.txt" {[ "a.txt" := "abc" ]} echo_hasher
           empty_world).
  - reflexivity.
  - reflexivity.
  - reflexivity.
  - reflexivity.
  - reflexivity.
  - vm_compute. reflexivity.
  - vm_compute. discriminate.
  - vm_compute. reflexivity.
  - vm_compute. reflexivity.
  - vm_compute. reflexivity.
Defined.

Lemma mismatch_with_continue_witness :
  process_file echo_hashlib (dl_save "abc") py_sleep continue_options
    (entry_json file_b) empty_world
  = (Ok tt,
     World (if keep continue_options then {[ "b.txt" := "abc" ]}
            else delete "b.txt" {[ "b.txt" := "abc" ]})
           (log empty_world
              ++ [Eprint NBlank; Eprint (NLink (e_link file_b) (e_size file_b));
                  Download (e_link file_b); Eprint NBlank;
                  Eprint (NChecksumIncorrect "def" (stream_digest echo_hasher "abc"))]
              ++ (if keep continue_options then [Eprint NFileNotDeleted]
                  else [Eprint NFileDeleted; Remove "b.txt"]))).
Proof.
  apply (mismatch_with_continue echo_hashlib (dl_save "abc") py_sleep continue_options
           file_b "echo" "def" "abc" "b.txt" {[ "b.txt" := "abc" ]} echo_hasher
           empty_world).
  - reflexivity.
  - reflexivity.
  - reflexivity.
  - reflexivity.
  - reflexivity.
  - reflexivity.
  - vm_compute. reflexivity.
  - vm_compute. discriminate.
  - vm_compute. reflexivity.
  - vm_compute. reflexivity.
  - vm_compute. discriminate.
Defined.

Lemma rerun_is_idempotent_witness :
  exists evs,
    main echo_hashlib dl_fail py_sleep cwd_locate default_options true
         (manifest_json [file_a]) world_with_a
    = (Ok tt, World (<[md5sums := join (md5_lines [file_a])]> (fs world_with_a))
                    (log world_with_a ++ evs))
    /\ downloads evs = []
    /\ Forall (fun e => is_remove e = false) evs.
Proof.
  apply (rerun_is_idempotent echo_hashlib dl_fail py_sleep cwd_locate default_options
           [file_a] world_with_a).
  - reflexivity.
  - reflexivity.
  - constructor; [| constructor]. split; [reflexivity | discriminate].
  - constructor; [| constructor]. reflexivity.
  - reflexivity.
  - constructor; [| constructor].
    exists "echo", "abc", "abc", echo_hasher.
    repeat split; vm_compute; reflexivity.
Defined.

(** ** From the command line to the record ID *)

Lemma last_item_in (xs : list string) : xs <> [] -> In (last_item xs) xs.
Proof.
  unfold last_item. induction xs as [|x xs IH]; [contradiction |]. intros _.
  destruct xs as [|y ys]; [left; reflexivity |].
  right. apply IH. discriminate.
Qed.

Section FrontFacts.

Variable py_int : string -> bool.
Variable py_strip : string -> string.
Variable requests_get : string -> option response.

Lemma positional_has_identifier (o o' : id_options) (args : list string) :
  positional py_int o args = Some o' ->
  doi o' <> None \/ record o' <> None.
Proof.
  unfold positional. destruct args as [|a rest].
  - destruct (doi o) eqn:Hd; [intros [= <-]; left; congruence |].
    destruct (record o) eqn:Hr; [intros [= <-]; right; congruence | discriminate].
  - destruct (py_int a); intros [= <-]; cbn [doi record]; [right | left]; discriminate.
Qed.

(** X16: the script never reaches [recordID.strip()] without an
    identifier: whatever the options and the arguments, lines 137-170 end
    with an exit or with a record ID, never with the [AttributeError] of
    stripping [None]. *)
Theorem identify_never_strips_none (o : id_options) (args : list string) :
  fst (identify py_int py_strip requests_get o args) <> StripOfNone.
Proof.
  unfold identify. destruct (cite o); [discriminate |].
  destruct (positional py_int o args) as [o'|] eqn:Hpos; [| discriminate].
  destruct (positional_has_identifier o o' args Hpos) as [Hd | Hr].
  - destruct (doi o') as [d|]; [| contradiction].
    unfold resolve_doi. destruct (requests_get (doi_url d)) as [r|]; [| discriminate].
    destruct (negb (resp_ok r)); discriminate.
  - destruct (doi o') as [d|].
    + unfold resolve_doi. destruct (requests_get (doi_url d)) as [r|]; [| discriminate].
      destruct (negb (resp_ok r)); discriminate.
    + destruct (record o') as [recordID|]; [discriminate | contradiction].
Qed.

Lemma doi_url_http (d : string) : String.prefix "http" (doi_url d) = true.
Proof.
  unfold doi_url. destruct (String.prefix "http" d) eqn:E; [exact E | reflexivity].
Qed.

(** X17: lines 137-170 make at most one request, and every request they
    make goes to an address that starts with [http]: a DOI given without a
    scheme is asked at [https://doi.org/]. *)
Theorem identify_requests (o : id_options) (args : list string) :
  List.length (gets (snd (identify py_int py_strip requests_get o args))) <= 1
  /\ Forall (fun url => String.prefix "http" url = true)
            (gets (snd (identify py_int py_strip requests_get o args))).
Proof.
  unfold identify. destruct (cite o); [split; [cbn; lia | constructor] |].
  destruct (positional py_int o args) as [o'|]; [| split; [cbn; lia | constructor]].
  destruct (doi o') as [d|].
  - unfold resolve_doi. destruct (requests_get (doi_url d)) as [r|].
    + destruct (negb (resp_ok r)); cbn [snd gets omap list_omap];
        (split; [cbn; lia | repeat constructor; apply doi_url_http]).
    + cbn [snd gets omap list_omap].
      split; [cbn; lia | repeat constructor; apply doi_url_http].
  - destruct (record o'); split; try (cbn; lia); constructor.
Qed.

(** X18: how the identifier is chosen when there is a positional argument.
    If [int] accepts it, it is the record ID, whatever [--record] says, and
    it is used without any request, unless [--doi] is given as well: then the
    DOI is resolved and the numeric argument is ignored.  If [int] rejects
    it, it is resolved as the DOI, whatever [--doi] says.  Further arguments
    are ignored. *)
Theorem identifier_precedence (o : id_options) (a : string) (rest : list string) :
  cite o = false ->
  identify py_int py_strip requests_get o (a :: rest)
  = if py_int a then
      match doi o with
      | Some d => resolve_doi py_strip requests_get d
      | None => (RecordID (py_strip a), [])
      end
    else resolve_doi py_strip requests_get a.
Proof.
  intros Hcite. unfold identify, positional. rewrite Hcite.
  destruct (py_int a); [| reflexivity].
  cbn [doi record]. destruct (doi o); reflexivity.
Qed.

(** X19: the record ID behind a DOI is the last path segment of the
    address the request ended at: when that address is [prefix/segment] with
    no slash in [segment] (also an empty one, for an address that ends with a
    slash), the record ID is the stripped segment; and in every case the text
    handed to [strip] contains no slash. *)
Theorem resolved_id_is_last_segment (d : string) (r : response) :
  requests_get (doi_url d) = Some r ->
  resp_ok r = true ->
  (forall prefix segment,
      has_char "/" segment = false ->
      resp_url r = prefix +:+ "/" +:+ segment ->
      resolve_doi py_strip requests_get d
      = (RecordID (py_strip segment), [Get (doi_url d)]))
  /\ (exists segment,
        has_char "/" segment = false
        /\ resolve_doi py_strip requests_get d
           = (RecordID (py_strip segment), [Get (doi_url d)])).
Proof.
  intros Hget Hok. unfold resolve_doi. rewrite Hget, Hok. cbn [negb]. split.
  - intros prefix segment Hseg Hurl. rewrite Hurl.
    change ("/" +:+ segment) with (String "/" segment).
    rewrite last_split_app, (split_no_sep "/" segment Hseg). reflexivity.
  - exists (last_item (split "/" (resp_url r))). split; [| reflexivity].
    pose proof (split_parts_no_sep "/" (resp_url r)) as Hall.
    rewrite List.Forall_forall in Hall.
    apply Hall, last_item_in, split_nonempty.
Qed.

End FrontFacts.

Lemma identifier_precedence_witness :
  identify digits_only no_strip one_doi
    (IdOptions false (Some "7") (Some "10.5281/zenodo.1261812")) ["42"; "43"]
  = (RecordID "1261813", [Get "https://doi.org/10.5281/zenodo.1261812"]).
Proof.
  exact (identifier_precedence digits_only no_strip one_doi
           (IdOptions false (Some "7") (Some "10.5281/zenodo.1261812")) "42" ["43"]
           eq_refl).
Defined.

Lemma resolved_id_is_last_segment_witness :
  (forall prefix segment,
      has_char "/" segment = false ->
      resp_url (Response true "https://zenodo.org/record/1261813")
      = prefix +:+ "/" +:+ segment ->
      resolve_doi no_strip one_doi "10.5281/zenodo.1261812"
      = (RecordID (no_strip segment), [Get (doi_url "10.5281/zenodo.1261812")]))
  /\ (exists segment,
        has_char "/" segment = false
        /\ resolve_doi no_strip one_doi "10.5281/zenodo.1261812"
           = (RecordID (no_strip segment), [Get (doi_url "10.5281/zenodo.1261812")])).
Proof.
  apply (resolved_id_is_last_segment no_strip one_doi "10.5281/zenodo.1261812"
           (Response true "https://zenodo.org/record/1261813")).
  - reflexivity.
  - reflexivity.
Defined.
